(** * bethesda-email-service: the notification dispatcher of [index.js]

    A shallow embedding of the three Express routes of [index.js]
    ([/email/reservation-created], [/email/waitlist-created],
    [/email/status-updated]), of [sendEmail] and of [renderBrandedEmail],
    followed by the properties the specification states about them.

    Modelling frame.
    - A JavaScript string is its sequence of UTF-16 code units.
    - A request is the object [express.json()] leaves in [req.body]: a finite
      map from property names to values; a property that is not there reads
      as [undefined].  The values of the fields are JSON values: null,
      booleans, numbers, strings, arrays and objects.
    - Converting a value to a string can throw: a template literal that
      interpolates an object with a [toString] member of its own throws a
      TypeError.  Rendering is therefore a computation that returns a string
      or throws, and a route's [catch] sees these throws as it sees a failed
      send.
    - Numbers stay abstract: the routes only test them for truthiness and
      interpolate them, so a number type comes with exactly these two
      observations ([JsNumber]).
    - [resend.emails.send] is the one external collaborator.  It is an
      oracle that answers each call from the calls made before it in the
      request and from the call itself; the world threaded through a route
      is the chronological list of the calls made so far.
    - [console.error] and [console.log] have no observable effect here and
      are left out; so are the CORS set-up and [app.listen]. *)

From Stdlib Require Import String Ascii NArith ZArith List Bool Lia.
From stdpp Require Import base option list strings gmap pretty.
Import ListNotations.

Local Open Scope N_scope.
Local Open Scope list_scope.

(* ===================================================================== *)
(** ** JavaScript strings                                                 *)
(* ===================================================================== *)

Module JsStr.

(** A string value: UTF-16 code units, in order. *)
Definition JsString : Type := list N.

(** The code unit of one character of a literal.  A template literal of the
    source never holds a bare backquote, so in the literals of this file the
    backquote stands for the double quote (U+0022). *)
Definition code_unit (a : ascii) : N :=
  let n := N_of_ascii a in if n =? 96 then 34 else n.

(** The value of an ASCII literal. *)
Fixpoint js (s : string) : JsString :=
  match s with
  | EmptyString => []
  | String a rest => code_unit a :: js rest
  end.

Definition LF : N := 10.

(** The characters of the source that are not ASCII. *)
Definition PARTY_POPPER : JsString := [0xD83C; 0xDF89].       (* U+1F389 *)
Definition ROUND_PUSHPIN : JsString := [0xD83D; 0xDCCD].      (* U+1F4CD *)
Definition CLOCK_THREE : JsString := [0xD83D; 0xDD52].        (* U+1F552 *)
Definition EN_DASH : JsString := [0x2013].
Definition COPYRIGHT : JsString := [0x00A9].

(** [WhiteSpace] and [LineTerminator] of ECMAScript: what
    [String.prototype.trim] strips. *)
Definition is_white_space (c : N) : bool :=
  (c =? 0x0009) || (c =? 0x000A) || (c =? 0x000B) || (c =? 0x000C) ||
  (c =? 0x000D) || (c =? 0x0020) || (c =? 0x00A0) || (c =? 0x1680) ||
  ((0x2000 <=? c) && (c <=? 0x200A)) ||
  (c =? 0x2028) || (c =? 0x2029) || (c =? 0x202F) || (c =? 0x205F) ||
  (c =? 0x3000) || (c =? 0xFEFF).

Fixpoint trimStart (s : JsString) : JsString :=
  match s with
  | [] => []
  | c :: rest => if is_white_space c then trimStart rest else s
  end.

Definition trimEnd (s : JsString) : JsString := rev (trimStart (rev s)).

(** [s.trim()] *)
Definition trim (s : JsString) : JsString := trimEnd (trimStart s).

(** [s.replace(/\n/g, by)]: every line feed gives way to [by]. *)
Fixpoint replace_newlines (by_ : JsString) (s : JsString) : JsString :=
  match s with
  | [] => []
  | c :: rest =>
      (if c =? LF then by_ else [c]) ++ replace_newlines by_ rest
  end.

(** [s.startsWith(x)] and [s.includes(x)], used to state what a rendered
    message holds and what it does not. *)
Fixpoint startsWith (s x : JsString) : bool :=
  match x, s with
  | [], _ => true
  | _ :: _, [] => false
  | c :: x', d :: s' => (c =? d) && startsWith s' x'
  end.

Fixpoint includes (s x : JsString) : bool :=
  startsWith s x ||
  match s with
  | [] => false
  | _ :: s' => includes s' x
  end.

(** [x] occurs in [s] as a contiguous piece. *)
Definition occurs_in (x s : JsString) : Prop :=
  exists pre post, s = pre ++ x ++ post.

End JsStr.
Export JsStr.

Arguments js : simpl never.

(* ===================================================================== *)
(** ** Completions                                                        *)
(* ===================================================================== *)

(** The provider's error object. *)
Record ErrorResponse : Type := {
  error_name : JsString;
  error_message : JsString
}.

(** A thrown value: the provider's error object, the reason of a rejected
    promise, or the TypeError of a conversion. *)
Inductive Thrown : Type :=
| ThrownError (e : ErrorResponse)
| ThrownReason (r : JsString)
| TypeError.

(** An evaluation returns a value or throws. *)
Inductive Completion (A : Type) : Type :=
| Normal (a : A)
| Abrupt (e : Thrown).

Arguments Normal {A} a.
Arguments Abrupt {A} e.

(** [f] applied to what an evaluation returns, as in [String(v).trim()]. *)
Definition then_ {A B : Type} (f : A -> B) (r : Completion A)
  : Completion B :=
  match r with
  | Normal a => Normal (f a)
  | Abrupt e => Abrupt e
  end.

(** The pieces of a template literal, evaluated from left to right: the
    first throw ends the evaluation. *)
Definition cat (a b : Completion JsString) : Completion JsString :=
  match a with
  | Normal s =>
      match b with
      | Normal t => Normal (s ++ t)
      | Abrupt e => Abrupt e
      end
  | Abrupt e => Abrupt e
  end.

(** The fixed text of a template literal. *)
Definition lit (s : string) : Completion JsString := Normal (js s).

Declare Scope render_scope.
Delimit Scope render_scope with render.
Infix "+++" := cat (at level 60, right associativity) : render_scope.

(* ===================================================================== *)
(** ** JavaScript values of a request body                                *)
(* ===================================================================== *)

(** What the routes observe of a number: whether it is falsy (0, -0, NaN)
    and its [ToString]. *)
Class JsNumber (number : Type) : Type := {
  number_is_falsy : number -> bool;
  Number_toString : number -> JsString
}.

(** The values [JSON.parse] builds, and [undefined] for what is not there.
    An object is the list of its members. *)
#[warnings="-register-all"]
Inductive Value (number : Type) : Type :=
| JUndefined
| JNull
| JBool (b : bool)
| JNum (n : number)
| JStr (s : JsString)
| JArr (items : list (Value number))
| JObj (members : list (string * Value number)).

Arguments JUndefined {number}.
Arguments JNull {number}.
Arguments JBool {number} b.
Arguments JNum {number} n.
Arguments JStr {number} s.
Arguments JArr {number} items.
Arguments JObj {number} members.

Section Values.
Context {number : Type} `{NumOps : JsNumber number}.

Local Open Scope render_scope.

(** [ToBoolean]: arrays and objects are truthy. *)
Definition truthy (v : Value number) : bool :=
  match v with
  | JUndefined | JNull => false
  | JBool b => b
  | JNum n => negb (number_is_falsy n)
  | JStr s => match s with [] => false | _ :: _ => true end
  | JArr _ | JObj _ => true
  end.

(** Whether an object has a member [key] of its own. *)
Definition has_own (members : list (string * Value number)) (key : string)
  : bool :=
  existsb (fun member => String.eqb (fst member) key) members.

(** [ToString], as applied by a template literal's [${...}] and by
    [String(...)].
    - An array goes through [Array.prototype.join]: its elements converted
      in turn, [null] and [undefined] as the empty string, with commas
      between them.
    - An object goes through [OrdinaryToPrimitive].  A parsed object holds
      no function, so a [toString] member of its own is not callable; then
      [valueOf], its own or the inherited one, gives no primitive either,
      and the conversion throws a TypeError.  Without such a member the
      inherited [Object.prototype.toString] answers. *)
Fixpoint ToString (v : Value number) : Completion JsString :=
  match v with
  | JUndefined => lit "undefined"
  | JNull => lit "null"
  | JBool true => lit "true"
  | JBool false => lit "false"
  | JNum n => Normal (Number_toString n)
  | JStr s => Normal s
  | JArr items =>
      (fix join_items (l : list (Value number)) : Completion JsString :=
         match l with
         | [] => lit ""
         | x :: rest =>
             let element :=
               match x with
               | JUndefined | JNull => lit ""
               | _ => ToString x
               end in
             match rest with
             | [] => element
             | _ :: _ => element +++ lit "," +++ join_items rest
             end
         end) items
  | JObj members =>
      if has_own members "toString" then Abrupt TypeError
      else lit "[object Object]"
  end.

(** Whether the conversion returns, and the string it returns then. *)
Definition converts (v : Value number) : bool :=
  match ToString v with
  | Normal _ => true
  | Abrupt _ => false
  end.

Definition text (v : Value number) : JsString :=
  match ToString v with
  | Normal s => s
  | Abrupt _ => []
  end.

(** [a || b] *)
Definition or_else (a b : Value number) : Value number :=
  if truthy a then a else b.

(** [v === "literal"] *)
Definition strict_eq_str (v : Value number) (lit : JsString) : bool :=
  match v with
  | JStr s => bool_decide (s = lit)
  | _ => false
  end.

(** [req.body]: reading a property that is not there gives [undefined]. *)
Definition prop (body : gmap string (Value number)) (key : string)
  : Value number :=
  default JUndefined (body !! key).

End Values.

(* ===================================================================== *)
(** ** Configuration and the delivery provider                            *)
(* ===================================================================== *)

(** The two variables of [process.env] the routes read.  An unset variable
    reads as [undefined], a set one as a string. *)
Record Env : Type := {
  RESEND_FROM : option JsString;
  ADMIN_EMAIL : option JsString
}.

Definition env_value {number : Type} (o : option JsString) : Value number :=
  match o with
  | Some s => JStr s
  | None => JUndefined
  end.

(** The argument of [resend.emails.send]. *)
Record Email (number : Type) : Type := {
  from : Value number;
  to : Value number;
  subject : JsString;
  html : JsString
}.

Arguments from {number} _.
Arguments to {number} _.
Arguments subject {number} _.
Arguments html {number} _.

(** What awaiting [resend.emails.send] gives: the promise is fulfilled with
    an object [{ data, error }] ([None] for a null or missing member), or it
    is rejected.  A fulfilment that cannot be destructured makes [sendEmail]
    throw where a rejection does, and is read as one. *)
Inductive Reply : Type :=
| Fulfilled (data : option JsString) (error : option ErrorResponse)
| Rejected (reason : JsString).

(** [res.status(code).json(obj)]; [obj] is an object literal, kept as its
    list of members. *)
Record Response (number : Type) : Type := {
  statusCode : N;
  json : list (string * Value number)
}.

Arguments statusCode {number} _.
Arguments json {number} _.

(* ===================================================================== *)
(** ** Asynchronous code: provider calls and exceptions                   *)
(* ===================================================================== *)

Section Async.
Context {number : Type}.

(** The world is the list of provider calls made so far, oldest first.  A
    throw keeps the calls already made: an email cannot be unsent. *)
Definition Async (A : Type) : Type :=
  list (Email number) -> Completion A * list (Email number).

Definition ret {A : Type} (a : A) : Async A := fun calls => (Normal a, calls).

Definition throw {A : Type} (e : Thrown) : Async A :=
  fun calls => (Abrupt e, calls).

Definition bind {A B : Type} (m : Async A) (k : A -> Async B) : Async B :=
  fun calls =>
    match m calls with
    | (Normal a, calls') => k a calls'
    | (Abrupt e, calls') => (Abrupt e, calls')
    end.

(** An evaluation inside an asynchronous function: what it returns, or its
    throw. *)
Definition eval {A : Type} (r : Completion A) : Async A :=
  match r with
  | Normal a => ret a
  | Abrupt e => throw e
  end.

(** [try { m } catch (err) { h err }] *)
Definition try_catch {A : Type} (m : Async A) (h : Thrown -> Async A)
  : Async A :=
  fun calls =>
    match m calls with
    | (Normal a, calls') => (Normal a, calls')
    | (Abrupt e, calls') => h e calls'
    end.

(** [await resend.emails.send(email)]: the call is recorded and the provider
    answers it, knowing the calls that came before. *)
Definition emails_send
    (resend : list (Email number) -> Email number -> Reply)
    (email : Email number) : Async Reply :=
  fun calls => (Normal (resend calls email), calls ++ [email]).

End Async.

Declare Scope async_scope.
Delimit Scope async_scope with async.
Notation "'await' x <- m ;; k" := (bind m (fun x => k))
  (at level 10, x name, m at level 99, k at level 200) : async_scope.

(* ===================================================================== *)
(** ** CONFIG / CONSTANTS                                                 *)
(* ===================================================================== *)

Definition BETHESDA_LOGO : JsString :=
  js "https://res.cloudinary.com/towson008/image/upload/v1765341466/tp1aouaicde3zpykntkn.png".

Definition PICKUP_INFO_HTML : JsString :=
  js "
  <div style=`margin-top:16px; padding:12px; background:#003366; border-radius:6px;`>
    <p style=`margin:0;`><strong>" ++
  ROUND_PUSHPIN ++
  js " Pickup Location</strong></p>
    <p style=`margin:4px 0;`>3310 Schmon Parkway, Thorold, ON, L2V 4Y6</p>
    <p style=`margin:8px 0 0;`>
      <strong>" ++
  CLOCK_THREE ++
  js " Pickup Hours</strong><br />
      Monday " ++
  EN_DASH ++
  js " Friday: 9:00 AM " ++
  EN_DASH ++
  js " 4:00 PM <br/>
      Business Days Only
    </p>
  </div>
".

Definition DEFAULT_FROM : JsString :=
  js "Bethesda Lending Library <no-reply@bethesdalendinglibrary.com>".

(* ===================================================================== *)
(** ** EMAIL TEMPLATE WRAPPER                                             *)
(* ===================================================================== *)

(** [renderBrandedEmail({ title, content, showPickupInfo = false })] *)
Definition renderBrandedEmail
    (title content : JsString) (showPickupInfo : bool) : JsString :=
  js "
    <div style=`background:#f8fafc; padding:24px; font-family:Arial, sans-serif;`>
      <div style=`max-width:600px; margin:auto; border-radius:8px; overflow:hidden;`>
        
        <!-- Header -->
        <div style=`background:#003366; padding:20px; text-align:center;`>
          <img src=`" ++
  BETHESDA_LOGO ++
  js "` alt=`Bethesda Toy Lending Library` style=`max-width:160px;` />
        </div>

        <!-- Body -->
        <div style=`padding:24px; color:#1f2937;`>
          <h2 style=`color:#003366;`>" ++
  title ++
  js "</h2>
          " ++
  content ++
  js "
          " ++
  (if showPickupInfo then PICKUP_INFO_HTML else js "") ++
  js "
        </div>

        <!-- Footer -->
        <div style=`background:#003366; padding:16px; font-size:12px; text-align:center; color:#ffffff;`>
          <p style=`margin:0;`>Bethesda Toy Lending Library</p>
          <p style=`margin:4px 0;`>" ++
  COPYRIGHT ++
  js " 2025 Bethesda Services</p>
        </div>

      </div>
    </div>
  ".

(* ===================================================================== *)
(** ** The dispatcher                                                     *)
(* ===================================================================== *)

Section Dispatcher.
Context {number : Type} `{NumOps : JsNumber number}.

(** [process.env] and the provider behind [resend.emails.send]. *)
Variable env : Env.
Variable resend : list (Email number) -> Email number -> Reply.

Local Open Scope async_scope.
Local Open Scope render_scope.

(** [res.status(code).json(obj)] and [res.json(obj)] (status 200). *)
Definition res_status_json (code : N) (obj : list (string * Value number))
  : Response number :=
  {| statusCode := code; json := obj |}.

Definition res_json (obj : list (string * Value number)) : Response number :=
  res_status_json 200 obj.

(** [async function sendEmail({ to, subject, html })] *)
Definition sendEmail (to_ : Value number) (subject_ html_ : JsString)
  : Async (option JsString) :=
  let from_ := or_else (env_value (RESEND_FROM env)) (JStr DEFAULT_FROM) in
  await reply <-
    emails_send resend
      {| from := from_; to := to_; subject := subject_; html := html_ |} ;;
  match reply with
  | Rejected reason => throw (ThrownReason reason)
  | Fulfilled data (Some error) => throw (ThrownError error)
  | Fulfilled data None => ret data
  end.

(** [app.post("/email/reservation-created", ...)] *)
Definition reservation_created (body : gmap string (Value number))
  : Async (Response number) :=
  try_catch
    (let parentEmail := prop body "parentEmail" in
     let parentName := prop body "parentName" in
     let childName := prop body "childName" in
     let itemName := prop body "itemName" in
     let preferredDay := prop body "preferredDay" in
     let note := prop body "note" in
     if negb (truthy parentEmail) || negb (truthy itemName) then
       ret (res_status_json 400
              [("error"%string, JStr (js "Missing required fields"))])
     else
       await pickupLine <-
         eval (if truthy preferredDay
               then lit "Preferred pick-up day: <strong>" +++
                    ToString preferredDay +++
                    lit "</strong>."
               else lit "We will contact you with pick-up details soon.") ;;
       await subject1 <-
         eval (lit "Reservation received for `" +++ ToString itemName +++
               lit "`") ;;
       await content <-
         eval (lit "
          <p>Hi " +++
               ToString (or_else parentName (JStr (js "there"))) +++
               lit ",</p>
          <p>
            We have received your reservation for
            <strong>" +++
               ToString itemName +++
               lit "</strong>
            " +++
               (if truthy childName
                then lit "for " +++ ToString childName
                else lit "") +++
               lit ".
          </p>
          <p>" +++
               Normal pickupLine +++
               lit "</p>
          " +++
               (if truthy note
                then lit "<p><strong>Your note:</strong><br />" +++
                     then_ (fun s => trim (replace_newlines (js "<br />") s))
                       (ToString note) +++
                     lit "</p>"
                else lit "") +++
               lit "
          <p>
            We will send another email when this toy is
            <strong>ready for pickup</strong>.
          </p>
        ") ;;
       await _ <-
         sendEmail parentEmail subject1
           (renderBrandedEmail (js "Reservation Received") content false) ;;
       await _ <-
         (if truthy (env_value (ADMIN_EMAIL env))
          then
            await subject2 <-
              eval (lit "New reservation: `" +++ ToString itemName +++
                    lit "`") ;;
            await html2 <-
              eval (lit "
          <h3>New Reservation</h3>
          <p><strong>Parent:</strong> " +++
                    ToString (or_else parentName (JStr (js "N/A"))) +++
                    lit " (" +++
                    ToString parentEmail +++
                    lit ")</p>
          <p><strong>Child:</strong> " +++
                    ToString (or_else childName (JStr (js "N/A"))) +++
                    lit "</p>
          <p><strong>Item:</strong> " +++
                    ToString itemName +++
                    lit "</p>
          <p><strong>Preferred pickup:</strong> " +++
                    ToString (or_else preferredDay (JStr (js "N/A"))) +++
                    lit "</p>
        ") ;;
            sendEmail (env_value (ADMIN_EMAIL env)) subject2 html2
          else ret None) ;;
       ret (res_json [("ok"%string, JBool true)]))
    (fun err =>
       ret (res_status_json 500
              [("error"%string, JStr (js "Failed to send email"))])).

(** [app.post("/email/waitlist-created", ...)] *)
Definition waitlist_created (body : gmap string (Value number))
  : Async (Response number) :=
  try_catch
    (let parentEmail := prop body "parentEmail" in
     let parentName := prop body "parentName" in
     let childName := prop body "childName" in
     let itemName := prop body "itemName" in
     if negb (truthy parentEmail) || negb (truthy itemName) then
       ret (res_status_json 400
              [("error"%string, JStr (js "Missing required fields"))])
     else
       await subject1 <-
         eval (lit "Waitlist request for `" +++ ToString itemName +++
               lit "` received") ;;
       await content <-
         eval (lit "
          <p>Hi " +++
               ToString (or_else parentName (JStr (js "there"))) +++
               lit ",</p>
          <p>
            You have been added to the waitlist for
            <strong>" +++
               ToString itemName +++
               lit "</strong>
            " +++
               (if truthy childName
                then lit "for " +++ ToString childName
                else lit "") +++
               lit ".
          </p>
          <p>
            We will contact you as soon as this toy becomes available.
          </p>
        ") ;;
       await _ <-
         sendEmail parentEmail subject1
           (renderBrandedEmail (js "Waitlist Confirmation") content false) ;;
       await _ <-
         (if truthy (env_value (ADMIN_EMAIL env))
          then
            await subject2 <-
              eval (lit "New waitlist request: `" +++ ToString itemName +++
                    lit "`") ;;
            await html2 <-
              eval (lit "
          <h3>New Waitlist Entry</h3>
          <p><strong>Parent:</strong> " +++
                    ToString (or_else parentName (JStr (js "N/A"))) +++
                    lit " (" +++
                    ToString parentEmail +++
                    lit ")</p>
          <p><strong>Child:</strong> " +++
                    ToString (or_else childName (JStr (js "N/A"))) +++
                    lit "</p>
          <p><strong>Item:</strong> " +++
                    ToString itemName +++
                    lit "</p>
        ") ;;
            sendEmail (env_value (ADMIN_EMAIL env)) subject2 html2
          else ret None) ;;
       ret (res_json [("ok"%string, JBool true)]))
    (fun err =>
       ret (res_status_json 500
              [("error"%string, JStr (js "Failed to send email"))])).

(** [app.post("/email/status-updated", ...)]; no email when the status is
    "On Loan". *)
Definition status_updated (body : gmap string (Value number))
  : Async (Response number) :=
  try_catch
    (let parentEmail := prop body "parentEmail" in
     let parentName := prop body "parentName" in
     let childName := prop body "childName" in
     let itemName := prop body "itemName" in
     let newStatus := prop body "newStatus" in
     let preferredDay := prop body "preferredDay" in
     if negb (truthy parentEmail) || negb (truthy itemName) ||
        negb (truthy newStatus) then
       ret (res_status_json 400
              [("error"%string, JStr (js "Missing required fields"))])
     else if strict_eq_str newStatus (js "On Loan") then
       ret (res_json [("skipped"%string, JBool true)])
     else
       await subject0 <-
         eval (lit "Update for `" +++ ToString itemName +++ lit "`") ;;
       let html0 := js "" in
       await message <-
         (if strict_eq_str newStatus (js "Ready for Pickup") then
            await subject1 <-
              eval (Normal PARTY_POPPER +++ lit " `" +++ ToString itemName +++
                    lit "` is ready for pickup") ;;
            await content <-
              eval (lit "
          <p>Hi " +++
                    ToString (or_else parentName (JStr (js "there"))) +++
                    lit ",</p>
          <p>
            Great news! <strong>" +++
                    ToString itemName +++
                    lit "</strong>
            " +++
                    (if truthy childName
                     then lit "for " +++ ToString childName
                     else lit "") +++
                    lit " is now
            <strong>ready for pickup</strong>.
          </p>
          " +++
                    (if truthy preferredDay
                     then lit "<p>You requested pickup on <strong>" +++
                          ToString preferredDay +++
                          lit "</strong>.</p>"
                     else lit "") +++
                    lit "
          <h4>Note: You will be required to show this confirmationemail with you when you come.</h4>
        ") ;;
            ret (subject1,
                 renderBrandedEmail (js "Your Toy is Ready for Pickup")
                   content true)
          else if strict_eq_str newStatus (js "Returned") then
            await content <-
              eval (lit "
          <p>Hi " +++
                    ToString (or_else parentName (JStr (js "there"))) +++
                    lit ",</p>
          <p>
            We have marked <strong>" +++
                    ToString itemName +++
                    lit "</strong> as
            <strong>Returned</strong>.
          </p>
          <p>Thank you for using the Toy Lending Library!</p>
        ") ;;
            ret (subject0, renderBrandedEmail (js "Thank You") content false)
          else ret (subject0, html0)) ;;
       await _ <- sendEmail parentEmail (fst message) (snd message) ;;
       ret (res_json [("ok"%string, JBool true)]))
    (fun err =>
       ret (res_status_json 500
              [("error"%string, JStr (js "Failed to send email"))])).

End Dispatcher.

(* ===================================================================== *)
(** ** Reading a run                                                      *)
(* ===================================================================== *)

(** A reply that lets [sendEmail] return: the promise is fulfilled and its
    [error] member is null. *)
Definition delivered (r : Reply) : bool :=
  match r with
  | Fulfilled _ None => true
  | _ => false
  end.

(** The responses of the routes. *)
Definition MISSING_FIELDS {number : Type} : Response number :=
  {| statusCode := 400;
     json := [("error"%string, JStr (js "Missing required fields"))] |}.

Definition SEND_FAILED {number : Type} : Response number :=
  {| statusCode := 500;
     json := [("error"%string, JStr (js "Failed to send email"))] |}.

Definition OK {number : Type} : Response number :=
  {| statusCode := 200; json := [("ok"%string, JBool true)] |}.

Definition SKIPPED {number : Type} : Response number :=
  {| statusCode := 200; json := [("skipped"%string, JBool true)] |}.

(** A route is run on a fresh request: no provider call has been made. *)
Definition run {number : Type} (route : Async (number := number) (Response number))
  : Completion (Response number) * list (Email number) :=
  route [].

(** [calls] holds a send attempt the provider did not deliver: the call [m],
    made after the calls [before]. *)
Definition attempt_failed {number : Type}
    (resend : list (Email number) -> Email number -> Reply)
    (calls : list (Email number)) : Prop :=
  exists before m after,
    calls = before ++ m :: after /\ delivered (resend before m) = false.

(** Integers as numbers, for concrete requests: an integer below 2^53 in
    magnitude is a number of JavaScript, and is written in decimal as
    JavaScript writes it.  The requests below hold such integers only. *)
#[export] Instance Z_JsNumber : JsNumber Z := {|
  number_is_falsy z := (z =? 0)%Z;
  Number_toString z := js (pretty z)
|}.

(** The provider call [sendEmail] makes for [{ to, subject, html }]: the
    sender address comes from the environment. *)
Definition outgoing {number : Type} `{NumOps : JsNumber number}
    (env : Env) (to_ : Value number) (subject_ html_ : JsString)
  : Email number :=
  {| from := or_else (env_value (RESEND_FROM env)) (JStr DEFAULT_FROM);
     to := to_; subject := subject_; html := html_ |}.

(** [s.split("\n")]: the lines of [s], and [parts.join(sep)].  They say what
    replacing every line feed means without naming the replacement loop. *)
Fixpoint lines (s : JsString) : list JsString :=
  match s with
  | [] => [[]]
  | c :: rest =>
      if c =? LF then [] :: lines rest
      else match lines rest with
           | [] => [[c]]
           | l :: ls => (c :: l) :: ls
           end
  end.

Fixpoint join (sep : JsString) (parts : list JsString) : JsString :=
  match parts with
  | [] => []
  | [p] => p
  | p :: ps => p ++ sep ++ join sep ps
  end.

(** How a text [x] can meet a fixed text [f].  No end of [x] starts [f];
    no start of [x] ends [f]; [x] keeps clear of [f]: it neither lies in [f]
    nor covers it, nor meets it at either end.  A copy of [x] in a message
    made of fixed and supplied texts then lies in a supplied one. *)
Definition tails_clear (x f : JsString) : bool :=
  forallb (fun k => negb (startsWith f (drop k x))) (seq 0 (length x)).

Definition heads_clear (x f : JsString) : bool :=
  forallb (fun k => negb (startsWith (rev f) (rev (take (S k) x))))
    (seq 0 (length x)).

Definition keeps_clear (x f : JsString) : bool :=
  negb (includes f x) && negb (includes x f) &&
  tails_clear x f && heads_clear x f.

(** The three endpoints [app.post] registers, each with its handler. *)
Inductive Endpoint : Type :=
| ReservationCreated     (* POST /email/reservation-created *)
| WaitlistCreated        (* POST /email/waitlist-created *)
| StatusUpdated.         (* POST /email/status-updated *)

Definition handler {number : Type} `{NumOps : JsNumber number}
    (env : Env) (resend : list (Email number) -> Email number -> Reply)
    (e : Endpoint) (body : gmap string (Value number))
  : Async (Response number) :=
  match e with
  | ReservationCreated => reservation_created env resend body
  | WaitlistCreated => waitlist_created env resend body
  | StatusUpdated => status_updated env resend body
  end.

(** The required body fields of the specification's endpoint table. *)
Definition required_fields (e : Endpoint) : list string :=
  match e with
  | ReservationCreated | WaitlistCreated =>
      ["parentEmail"; "itemName"]%string
  | StatusUpdated => ["parentEmail"; "itemName"; "newStatus"]%string
  end.

(** The fields a handler takes out of [req.body]. *)
Definition declared_fields (e : Endpoint) : list string :=
  match e with
  | ReservationCreated =>
      ["parentEmail"; "parentName"; "childName"; "itemName";
       "preferredDay"; "note"]%string
  | WaitlistCreated =>
      ["parentEmail"; "parentName"; "childName"; "itemName"]%string
  | StatusUpdated =>
      ["parentEmail"; "parentName"; "childName"; "itemName";
       "newStatus"; "preferredDay"]%string
  end.

(** The fields a handler converts to strings for the email to the parent;
    each is converted only where it is truthy. *)
Definition interpolated_fields {number : Type}
    (e : Endpoint) (body : gmap string (Value number)) : list string :=
  match e with
  | ReservationCreated =>
      ["preferredDay"; "itemName"; "parentName"; "childName"; "note"]%string
  | WaitlistCreated => ["itemName"; "parentName"; "childName"]%string
  | StatusUpdated =>
      if strict_eq_str (prop body "newStatus") (js "Ready for Pickup")
      then ["itemName"; "parentName"; "childName"; "preferredDay"]%string
      else if strict_eq_str (prop body "newStatus") (js "Returned")
      then ["itemName"; "parentName"]%string
      else ["itemName"]%string
  end.

(** The email to the parent can be rendered: every field it interpolates
    converts to a string. *)
Definition renders {number : Type} `{NumOps : JsNumber number}
    (e : Endpoint) (body : gmap string (Value number)) : bool :=
  forallb (fun key => converts (prop body key)) (interpolated_fields e body).

(** What is due after the email to the parent: nothing; an admin copy; or
    an admin copy whose rendering throws. *)
Inductive Second (number : Type) : Type :=
| NoCopy
| Unrendered
| Copy (m : Email number).

Arguments NoCopy {number}.
Arguments Unrendered {number}.
Arguments Copy {number} m.

Definition calls_of {number : Type} (second : Second number)
  : list (Email number) :=
  match second with
  | Copy m => [m]
  | _ => []
  end.

(** What a request yields once its first email is rendered: [first] is
    sent, then the copy if one is due and [first] was delivered; the
    response is 200 when every email due was rendered and delivered, and 500
    otherwise. *)
Definition sends_in_turn {number : Type}
    (resend : list (Email number) -> Email number -> Reply)
    (first : Email number) (second : Second number)
  : Completion (Response number) * list (Email number) :=
  if delivered (resend [] first) then
    match second with
    | Copy m2 =>
        (Normal (if delivered (resend [first] m2) then OK else SEND_FAILED),
         [first; m2])
    | Unrendered => (Normal SEND_FAILED, [first])
    | NoCopy => (Normal OK, [first])
    end
  else (Normal SEND_FAILED, [first]).

(** The admin copy, when the administrator address is configured; it has
    the parent's address in its text. *)
Definition admin_copy {number : Type} `{NumOps : JsNumber number}
    (env : Env) (parentEmail : Value number) (subject_ html_ : JsString)
  : Second number :=
  if truthy (env_value (number := number) (ADMIN_EMAIL env))
  then if converts parentEmail
       then Copy (outgoing env (env_value (ADMIN_EMAIL env)) subject_ html_)
       else Unrendered
  else NoCopy.

(** The emails a request is due to hand to the provider: none when it is
    rejected or suppressed, the parent's otherwise, and the admin copy on the
    two creation endpoints when the administrator address is configured. *)
Definition due {number : Type} `{NumOps : JsNumber number}
    (env : Env) (e : Endpoint) (body : gmap string (Value number)) : nat :=
  if forallb (fun key => truthy (prop body key)) (required_fields e) then
    match e with
    | StatusUpdated =>
        if strict_eq_str (prop body "newStatus") (js "On Loan") then 0 else 1
    | _ =>
        if truthy (env_value (number := number) (ADMIN_EMAIL env))
        then 2 else 1
    end%nat
  else 0%nat.

(** The fields converted for the email that would come after [n] calls:
    those of the parent's email, then the parent's address for the admin
    copy. *)
Definition fields_of_call {number : Type}
    (e : Endpoint) (body : gmap string (Value number)) (n : nat)
  : list string :=
  match n with
  | O => interpolated_fields e body
  | S _ => ["parentEmail"%string]
  end.

(** Concrete surroundings for the examples below. *)
Definition ADMIN_SET : Env :=
  {| RESEND_FROM := None; ADMIN_EMAIL := Some (js "desk@bethesda.example") |}.

Definition ADMIN_UNSET : Env :=
  {| RESEND_FROM := None; ADMIN_EMAIL := None |}.

(** A provider that delivers everything, one that delivers nothing, and one
    that delivers the first call of a request only. *)
Definition accepting : list (Email Z) -> Email Z -> Reply :=
  fun _ _ => Fulfilled (Some (js "receipt")) None.

Definition refusing : list (Email Z) -> Email Z -> Reply :=
  fun _ _ =>
    Fulfilled None
      (Some {| error_name := js "validation_error";
               error_message := js "rejected" |}).

Definition first_only : list (Email Z) -> Email Z -> Reply :=
  fun before m =>
    match before with
    | [] => accepting before m
    | _ :: _ => refusing before m
    end.

(** Request bodies. *)
Definition ON_LOAN_ONLY : gmap string (Value Z) :=
  {[ "newStatus"%string := JStr (js "On Loan") ]}.

Definition LOAN_STARTED : gmap string (Value Z) :=
  {[ "parentEmail"%string := JStr (js "pat@example.org");
     "itemName"%string := JStr (js "Duplo train");
     "newStatus"%string := JStr (js "On Loan") ]}.

Definition RESERVATION : gmap string (Value Z) :=
  {[ "parentEmail"%string := JStr (js "pat@example.org");
     "parentName"%string := JStr (js "Pat");
     "childName"%string := JStr (js "Sam");
     "itemName"%string := JStr (js "Duplo train");
     "preferredDay"%string := JStr (js "Monday");
     "note"%string := JStr (js "  Please call first
after 5 pm  ") ]}.

Definition RESERVATION_OTHER_EXTRAS : gmap string (Value Z) :=
  {[ "parentEmail"%string := JStr (js "pat@example.org");
     "parentName"%string := JStr (js "Pat");
     "childName"%string := JStr (js "Sam");
     "itemName"%string := JStr (js "Duplo train");
     "preferredDay"%string := JStr (js "Friday");
     "note"%string := JNum 7%Z ]}.

Definition NO_ITEM : gmap string (Value Z) :=
  {[ "parentEmail"%string := JStr (js "pat@example.org") ]}.

Definition ZERO_ITEM : gmap string (Value Z) :=
  {[ "parentEmail"%string := JStr (js "pat@example.org");
     "itemName"%string := JNum 0%Z ]}.

Definition STATUS_LOST : gmap string (Value Z) :=
  {[ "parentEmail"%string := JStr (js "pat@example.org");
     "itemName"%string := JStr (js "Duplo train");
     "newStatus"%string := JStr (js "Lost") ]}.

Definition STATUS_READY : gmap string (Value Z) :=
  {[ "parentEmail"%string := JStr (js "pat@example.org");
     "itemName"%string := JStr (js "Duplo train");
     "newStatus"%string := JStr (js "Ready for Pickup");
     "preferredDay"%string := JStr (js "Monday") ]}.

Definition STATUS_RETURNED : gmap string (Value Z) :=
  {[ "parentEmail"%string := JStr (js "pat@example.org");
     "itemName"%string := JStr (js "Duplo train");
     "newStatus"%string := JStr (js "Returned") ]}.

(** A returned item whose name carries the markup of the pickup block. *)
Definition STATUS_RETURNED_INJECTED : gmap string (Value Z) :=
  {[ "parentEmail"%string := JStr (js "pat@example.org");
     "itemName"%string := JStr (js "Duplo train" ++ PICKUP_INFO_HTML);
     "newStatus"%string := JStr (js "Returned") ]}.


(** An object that cannot be converted to a string: its [toString] member
    is no function. *)
Definition NO_TOSTRING : Value Z := JObj [("toString"%string, JNull)].

Definition STATUS_LOST_OBJECT : gmap string (Value Z) :=
  <[ "itemName"%string := NO_TOSTRING ]> STATUS_LOST.

Definition STATUS_READY_OBJECT : gmap string (Value Z) :=
  <[ "itemName"%string := NO_TOSTRING ]> STATUS_READY.

Definition STATUS_RETURNED_OBJECT : gmap string (Value Z) :=
  <[ "itemName"%string := NO_TOSTRING ]> STATUS_RETURNED.

Definition RESERVATION_OBJECT_ITEM : gmap string (Value Z) :=
  <[ "itemName"%string := NO_TOSTRING ]> RESERVATION.

Definition RESERVATION_OBJECT_EMAIL : gmap string (Value Z) :=
  <[ "parentEmail"%string := NO_TOSTRING ]> RESERVATION.
(* ===================================================================== *)
(** ** Further notions: requests in sequence, texts in segments           *)
(* ===================================================================== *)

(** The provider as it answers once the calls [earlier] have been made. *)
Definition resend_after {number : Type}
    (earlier : list (Email number))
    (resend : list (Email number) -> Email number -> Reply)
  : list (Email number) -> Email number -> Reply :=
  fun calls email => resend (earlier ++ calls) email.

(** What a computation started after the calls [earlier] leaves, told from
    what it does on its own calls. *)
Definition after_earlier {number A : Type}
    (earlier : list (Email number))
    (outcome : Completion A * list (Email number))
  : Completion A * list (Email number) :=
  (fst outcome, earlier ++ snd outcome).

(** A computation that keeps no memory of earlier calls: started after
    them, it leaves them as they are and goes on as it would on a fresh
    start, against the provider as it answers after them. *)
Definition stateless {number A : Type}
    (m : (list (Email number) -> Email number -> Reply) ->
         Async (number := number) A) : Prop :=
  forall resend earlier calls,
    m resend (earlier ++ calls) =
    after_earlier earlier (m (resend_after earlier resend) calls).

(** A rendered text as the template literals build it: fixed text of the
    source and texts supplied by the request, in turn. *)
Inductive Segment : Type :=
| Fixed (text : JsString)
| Supplied (text : JsString).

Definition segment_text (s : Segment) : JsString :=
  match s with
  | Fixed text | Supplied text => text
  end.

Definition flatten (segs : list Segment) : JsString :=
  fold_right (fun s rest => segment_text s ++ rest) [] segs.

Fixpoint supplied_texts (segs : list Segment) : list JsString :=
  match segs with
  | [] => []
  | Fixed _ :: rest => supplied_texts rest
  | Supplied text :: rest => text :: supplied_texts rest
  end.

(** Fixed texts that follow each other are one fixed text. *)
Fixpoint merge (segs : list Segment) : list Segment :=
  match segs with
  | [] => []
  | Supplied text :: rest => Supplied text :: merge rest
  | Fixed a :: rest =>
      match merge rest with
      | Fixed b :: rest' => Fixed (a ++ b) :: rest'
      | merged => Fixed a :: merged
      end
  end.

(** [x] keeps clear of the fixed texts of [segs]: of those between two
    supplied texts at both ends, of the one that opens the text at its end,
    of the one that closes it at its start.  [clear_after] is for what
    follows a supplied text. *)
Fixpoint clear_after (x : JsString) (segs : list Segment) : bool :=
  match segs with
  | [] => true
  | [Fixed f] => negb (includes f x) && tails_clear x f
  | Fixed f :: Supplied _ :: rest => keeps_clear x f && clear_after x rest
  | _ => false
  end.

Definition clear_of (x : JsString) (segs : list Segment) : bool :=
  match segs with
  | [Fixed f] => negb (includes f x)
  | Fixed f :: Supplied _ :: rest =>
      negb (includes f x) && heads_clear x f && clear_after x rest
  | Supplied _ :: rest => clear_after x rest
  | _ => false
  end.

(** Further concrete surroundings and request bodies. *)
Definition SENDER_SET : Env :=
  {| RESEND_FROM := Some (js "Toy Library <toys@bethesda.example>");
     ADMIN_EMAIL := Some (js "desk@bethesda.example") |}.

Definition WAITLIST_PLAIN : gmap string (Value Z) :=
  {[ "parentEmail"%string := JStr (js "pat@example.org");
     "itemName"%string := JStr (js "Duplo train") ]}.

Definition WAITLIST_NULL_CHILD : gmap string (Value Z) :=
  <[ "childName"%string := JNull ]> WAITLIST_PLAIN.

Definition WAITLIST_INJECTED : gmap string (Value Z) :=
  {[ "parentEmail"%string := JStr (js "pat@example.org");
     "itemName"%string := JStr (js "Duplo train" ++ PICKUP_INFO_HTML) ]}.

Definition RESERVATION_FRAMED_NOTE : gmap string (Value Z) :=
  {[ "parentEmail"%string := JStr (js "pat@example.org");
     "itemName"%string := JStr (js "Duplo train");
     "note"%string := JStr (js "
ring twice
") ]}.

Definition STATUS_RETURNED_EXTRAS : gmap string (Value Z) :=
  <[ "childName"%string := JStr (js "Sam") ]>
    (<[ "preferredDay"%string := JStr (js "Monday") ]> STATUS_RETURNED).

Definition NO_NAME_RESERVATION : gmap string (Value Z) :=
  {[ "parentEmail"%string := JStr (js "pat@example.org");
     "itemName"%string := JStr (js "Duplo train");
     "preferredDay"%string := JStr (js "") ]}.

(* ===================================================================== *)
(** * Facts about strings                                                 *)
(* ===================================================================== *)

Section StringFacts.
Implicit Types (s x y : JsString) (c : N).

Lemma occurs_in_refl x : occurs_in x x.
Proof. exists [], []. by rewrite app_nil_r. Qed.

Lemma occurs_in_app_l x s y : occurs_in x s -> occurs_in x (s ++ y).
Proof.
  intros (pre & post & ->). exists pre, (post ++ y).
  by rewrite <- !app_assoc.
Qed.

Lemma occurs_in_app_r x s y : occurs_in x s -> occurs_in x (y ++ s).
Proof.
  intros (pre & post & ->). exists (y ++ pre), post.
  by rewrite <- !app_assoc.
Qed.

Lemma occurs_in_head x y : occurs_in x (x ++ y).
Proof. apply occurs_in_app_l, occurs_in_refl. Qed.

Lemma occurs_in_trans x y s : occurs_in x y -> occurs_in y s -> occurs_in x s.
Proof.
  intros (p1 & q1 & ->) (p2 & q2 & ->).
  exists (p2 ++ p1), (q1 ++ q2). by rewrite <- !app_assoc.
Qed.

Lemma occurs_in_nil s : occurs_in [] s.
Proof. by exists [], s. Qed.

(** A code unit of a piece is a code unit of the whole. *)
Lemma occurs_in_In c x s : occurs_in x s -> In c x -> In c s.
Proof.
  intros (pre & post & ->) Hc.
  apply in_or_app. right. apply in_or_app. by left.
Qed.

Lemma startsWith_prefix s x :
  startsWith s x = true <-> exists post, s = x ++ post.
Proof.
  revert s. induction x as [|c x IH]; intros s.
  - split; [intros _; by exists s | by destruct s].
  - destruct s as [|d s]; cbn [startsWith].
    + split; [done | intros (post & Hp); discriminate].
    + rewrite andb_true_iff, N.eqb_eq. split.
      * intros (-> & Hs). apply IH in Hs as (post & ->). by exists post.
      * intros (post & Hp). injection Hp as -> ->.
        split; [done|]. apply IH. by exists post.
Qed.

(** [includes] decides [occurs_in]. *)
Lemma includes_occurs_in s x : includes s x = true <-> occurs_in x s.
Proof.
  induction s as [|d s IH].
  - cbn [includes]. rewrite orb_false_r, startsWith_prefix. split.
    + intros (post & Hp). exists [], post. done.
    + intros (pre & post & Hp). symmetry in Hp.
      apply app_eq_nil in Hp as (-> & Hp). by exists post.
  - cbn [includes]. rewrite orb_true_iff, IH, startsWith_prefix. split.
    + intros [(post & ->) | (pre & post & ->)].
      * by exists [], post.
      * by exists (d :: pre), post.
    + intros (pre & post & Hp). destruct pre as [|e pre].
      * left. by exists post.
      * right. injection Hp as -> ->. by exists pre, post.
Qed.

(** *** [replace] of the line feeds *)

Lemma replace_newlines_app by_ s y :
  replace_newlines by_ (s ++ y) =
  replace_newlines by_ s ++ replace_newlines by_ y.
Proof.
  induction s as [|c s IH]; [done|].
  simpl. by rewrite IH, app_assoc.
Qed.

(** Every line feed gives way to the replacement... *)
Lemma replace_newlines_at by_ s y :
  replace_newlines by_ (s ++ LF :: y) =
  replace_newlines by_ s ++ by_ ++ replace_newlines by_ y.
Proof. by rewrite replace_newlines_app. Qed.

(** ... the other code units stay as they are ... *)
Lemma replace_newlines_id by_ s : ~ In LF s -> replace_newlines by_ s = s.
Proof.
  induction s as [|c s IH]; [done|].
  intros Hn. simpl. destruct (N.eqb_spec c LF) as [->|_].
  - exfalso. apply Hn. by left.
  - simpl. f_equal. apply IH. intros Hc. apply Hn. by right.
Qed.

(** ... so no line feed is left, unless the replacement brings one. *)
Lemma replace_newlines_no_LF by_ s :
  ~ In LF by_ -> ~ In LF (replace_newlines by_ s).
Proof.
  intros Hby. induction s as [|c s IH]; [by intros []|].
  simpl. intros Hc. apply in_app_or in Hc as [Hc | Hc]; [|done].
  destruct (N.eqb_spec c LF) as [->|Hne]; [done|].
  destruct Hc as [-> | []]. done.
Qed.

Lemma lines_not_nil s : lines s <> [].
Proof.
  destruct s as [|c s]; [done|]. simpl.
  destruct (c =? LF); [done|]. by destruct (lines s).
Qed.

(** Replacing the line feeds is splitting at them and joining the lines
    with the replacement. *)
Lemma replace_newlines_join by_ s :
  replace_newlines by_ s = join by_ (lines s).
Proof.
  induction s as [|c s IH]; [done|].
  simpl. rewrite IH. pose proof (lines_not_nil s) as Hne.
  destruct (c =? LF).
  - destruct (lines s) as [|l ls]; [done|]. done.
  - destruct (lines s) as [|l ls]; [done|]. by destruct ls.
Qed.

Lemma lines_no_LF s : Forall (fun l => ~ In LF l) (lines s).
Proof.
  induction s as [|c s IH].
  { constructor; [by intros []|constructor]. }
  simpl. destruct (N.eqb_spec c LF) as [->|Hne].
  - constructor; [by intros []|done].
  - destruct (lines s) as [|l ls].
    + constructor; [|constructor]. by intros [?|[]].
    + inversion IH as [|? ? Hl Hls]; subst. constructor; [|done].
      intros [?|?]; [done|by apply Hl].
Qed.

(** The lines of [s] are [s] cut at its line feeds. *)
Lemma join_lines s : join [LF] (lines s) = s.
Proof.
  induction s as [|c s IH]; [done|].
  simpl. pose proof (lines_not_nil s) as Hne.
  destruct (N.eqb_spec c LF) as [->|_].
  - destruct (lines s) as [|l ls]; [done|]. simpl in *. by rewrite IH.
  - destruct (lines s) as [|l ls]; [done|].
    destruct ls; simpl in *; by rewrite <- IH.
Qed.

(** *** [trim] *)

Lemma trimStart_split s :
  exists l, s = l ++ trimStart s /\ Forall (fun c => is_white_space c = true) l.
Proof.
  induction s as [|c s (l & Hs & Hl)]; [by exists []|].
  simpl. destruct (is_white_space c) eqn:Hc.
  - exists (c :: l). split; [simpl; by f_equal | by constructor].
  - by exists [].
Qed.

Lemma trimStart_head s c :
  head (trimStart s) = Some c -> is_white_space c = false.
Proof.
  induction s as [|d s IH]; [done|].
  simpl. destruct (is_white_space d) eqn:Hd; [done|].
  simpl. by intros [= <-].
Qed.

Lemma trimEnd_split s :
  exists r, s = trimEnd s ++ r /\ Forall (fun c => is_white_space c = true) r.
Proof.
  unfold trimEnd. destruct (trimStart_split (rev s)) as (l & Hs & Hl).
  exists (rev l). split.
  - rewrite <- rev_app_distr, <- Hs. by rewrite rev_involutive.
  - by apply Forall_rev.
Qed.

Lemma trimEnd_last s c :
  last (trimEnd s) = Some c -> is_white_space c = false.
Proof.
  unfold trimEnd. intros Hc. apply (trimStart_head (rev s)).
  rewrite <- Hc. clear Hc. generalize (trimStart (rev s)). intros t.
  destruct t as [|e t]; [done|]. simpl. by rewrite last_snoc.
Qed.

Lemma trimEnd_head s c :
  (forall d, head s = Some d -> is_white_space d = false) ->
  head (trimEnd s) = Some c -> is_white_space c = false.
Proof.
  intros Hs Hc. destruct (trimEnd_split s) as (r & Heq & Hr).
  destruct (trimEnd s) as [|e t] eqn:Ht; [done|].
  simpl in Hc. injection Hc as ->. apply Hs. by rewrite Heq.
Qed.

(** [trim] only takes white space away, at both ends, and leaves none
    there. *)
Lemma trim_split s :
  exists l r,
    s = l ++ trim s ++ r /\
    Forall (fun c => is_white_space c = true) l /\
    Forall (fun c => is_white_space c = true) r.
Proof.
  unfold trim. destruct (trimStart_split s) as (l & Hs & Hl).
  destruct (trimEnd_split (trimStart s)) as (r & Ht & Hr).
  exists l, r. split; [|done]. by rewrite <- Ht.
Qed.

Lemma trim_head s c : head (trim s) = Some c -> is_white_space c = false.
Proof. apply trimEnd_head. intros d. apply trimStart_head. Qed.

Lemma trim_last s c : last (trim s) = Some c -> is_white_space c = false.
Proof. apply trimEnd_last. Qed.

Lemma trim_occurs_in s : occurs_in (trim s) s.
Proof. destruct (trim_split s) as (l & r & Hs & _). by exists l, r. Qed.

Lemma head_rev x : head (rev x) = last x.
Proof.
  destruct x as [|c x _] using rev_ind; [done|].
  by rewrite rev_unit, last_snoc.
Qed.

(** A text that neither starts nor ends with white space stays whole when
    what surrounds it is trimmed. *)
Lemma trimStart_keeps a x :
  x <> [] -> (forall c, head x = Some c -> is_white_space c = false) ->
  exists a', trimStart (a ++ x) = a' ++ x.
Proof.
  intros Hne Hhead. induction a as [|c a (a' & IH)].
  - exists []. destruct x as [|d x]; [done|].
    simpl. by rewrite (Hhead d).
  - simpl. destruct (is_white_space c); [by exists a' | by exists (c :: a)].
Qed.

Lemma trimEnd_keeps x b :
  x <> [] -> (forall c, last x = Some c -> is_white_space c = false) ->
  exists b', trimEnd (x ++ b) = x ++ b'.
Proof.
  intros Hne Hlast. unfold trimEnd. rewrite rev_app_distr.
  destruct (trimStart_keeps (rev b) (rev x)) as (b' & ->).
  - intros Hrev. apply Hne. by rewrite <- (rev_involutive x), Hrev.
  - intros c Hc. apply Hlast. by rewrite <- head_rev.
  - exists (rev b'). by rewrite rev_app_distr, rev_involutive.
Qed.

Lemma trim_keeps a x b :
  x <> [] ->
  (forall c, head x = Some c -> is_white_space c = false) ->
  (forall c, last x = Some c -> is_white_space c = false) ->
  occurs_in x (trim (a ++ x ++ b)).
Proof.
  intros Hne Hhead Hlast. unfold trim.
  destruct (trimStart_keeps a (x ++ b)) as (a' & ->).
  - by destruct x.
  - intros c. destruct x as [|d x]; [done|]. apply Hhead.
  - rewrite app_assoc.
    destruct (trimEnd_keeps (a' ++ x) b) as (b' & ->).
    + by destruct a', x.
    + intros c. rewrite last_app.
      destruct (last x) as [d|] eqn:Hd; [by intros [= <-]; apply Hlast|].
      by destruct x using rev_ind; [|rewrite last_snoc in Hd].
    + exists a', b'. by rewrite <- !app_assoc.
Qed.

(** Trimming the text first and replacing its line feeds then gives a piece
    of what replacing first and trimming then gives. *)
Lemma replace_newlines_trim by_ s :
  occurs_in (replace_newlines by_ (trim s)) (trim (replace_newlines by_ s)).
Proof.
  destruct (trim_split s) as (l & r & Hs & _ & _).
  pose proof (trim_head s) as Hhead. pose proof (trim_last s) as Hlast.
  rewrite Hs at 2. rewrite !replace_newlines_app.
  destruct (trim s) as [|c t] eqn:Ht; [apply occurs_in_nil|].
  assert (Hws : forall d, is_white_space d = false -> (d =? LF) = false)
    by (intros d Hd; destruct (N.eqb_spec d LF) as [->|]; done).
  apply trim_keeps.
  - simpl. rewrite (Hws c) by (by apply Hhead). done.
  - intros d. simpl. rewrite (Hws c) by (by apply Hhead).
    simpl. intros [= <-]. by apply Hhead.
  - intros d. destruct (c :: t) as [|e u _] eqn:Hu using rev_ind; [done|].
    rewrite replace_newlines_app, last_snoc in *.
    assert (He : is_white_space e = false) by (by apply Hlast).
    simpl. rewrite (Hws e He), app_nil_r, last_snoc. by intros [= <-].
Qed.

(** *** Pieces across fixed text *)

Lemma occurs_in_between pre l t r post :
  occurs_in (l ++ t ++ r) ((pre ++ l) ++ t ++ r ++ post).
Proof. exists pre, post. by rewrite <- !app_assoc. Qed.

Lemma ends_with_split s x :
  startsWith (rev s) (rev x) = true -> exists pre, s = pre ++ x.
Proof.
  intros (post & Hs)%startsWith_prefix. exists (rev post).
  rewrite <- (rev_involutive s), Hs, rev_app_distr. by rewrite rev_involutive.
Qed.

Lemma tails_clear_at x f k :
  tails_clear x f = true -> (k < length x)%nat ->
  startsWith f (drop k x) = false.
Proof.
  unfold tails_clear. intros Htails Hk. rewrite forallb_forall in Htails.
  apply negb_true_iff, Htails, in_seq. lia.
Qed.

Lemma heads_clear_at x f k :
  heads_clear x f = true -> (k < length x)%nat ->
  startsWith (rev f) (rev (take (S k) x)) = false.
Proof.
  unfold heads_clear. intros Hheads Hk. rewrite forallb_forall in Hheads.
  apply negb_true_iff, Hheads, in_seq. lia.
Qed.

(** No start of [x] ends [f]: [f] does not end with a piece [c :: u] that
    [x] starts with. *)
Lemma heads_clear_split x f l c u v :
  heads_clear x f = true -> x = (c :: u) ++ v -> f = l ++ c :: u -> False.
Proof.
  intros Hclear -> ->.
  pose proof (heads_clear_at _ _ (length u) Hclear) as Hhead.
  rewrite length_app, length_cons in Hhead.
  specialize (Hhead ltac:(lia)).
  assert (Htake : take (S (length u)) ((c :: u) ++ v) = c :: u)
    by (simpl; by rewrite take_app_length).
  rewrite Htake, rev_app_distr in Hhead.
  assert (startsWith (rev (c :: u) ++ rev l) (rev (c :: u)) = true)
    by (apply startsWith_prefix; by eexists).
  congruence.
Qed.

(** No end of [x] starts [f]. *)
Lemma tails_clear_split x f l c u v :
  tails_clear x f = true -> x = l ++ c :: u -> f = (c :: u) ++ v -> False.
Proof.
  intros Hclear -> ->.
  pose proof (tails_clear_at _ _ (length l) Hclear) as Htail.
  rewrite length_app, length_cons in Htail.
  specialize (Htail ltac:(lia)).
  rewrite drop_app_length in Htail.
  assert (startsWith ((c :: u) ++ v) (c :: u) = true)
    by (apply startsWith_prefix; by eexists).
  congruence.
Qed.

Lemma keeps_clear_parts x f :
  keeps_clear x f = true ->
  includes f x = false /\ includes x f = false /\
  tails_clear x f = true /\ heads_clear x f = true.
Proof.
  unfold keeps_clear. rewrite !andb_true_iff, !negb_true_iff. tauto.
Qed.

(** A copy of [x] in [f ++ b] lies in [b] when [x] is not in [f] and no
    start of [x] ends [f]. *)
Lemma occurs_in_after x f b :
  includes f x = false -> heads_clear x f = true ->
  occurs_in x (f ++ b) -> occurs_in x b.
Proof.
  intros Hin Hheads (pre & post & Heq). symmetry in Heq.
  apply app_eq_inv in Heq as [(l & -> & ->) | (l & -> & Hx)].
  - by exists l, post.
  - apply app_eq_inv in Hx as [(v & -> & ->) | (v & -> & ->)].
    + destruct l as [|c u]; [by exists [], post|].
      by destruct (heads_clear_split _ _ pre c u v Hheads).
    + assert (includes (pre ++ x ++ v) x = true)
        by (apply includes_occurs_in; by exists pre, v).
      congruence.
Qed.

(** A copy of [x] in [a ++ f] lies in [a] when [x] is not in [f] and no end
    of [x] starts [f]. *)
Lemma occurs_in_before x f a :
  includes f x = false -> tails_clear x f = true ->
  occurs_in x (a ++ f) -> occurs_in x a.
Proof.
  intros Hin Htails (pre & post & Heq). symmetry in Heq.
  apply app_eq_inv in Heq as [(l & -> & Hf) | (l & -> & Hx)].
  - assert (includes f x = true)
      by (apply includes_occurs_in; exists l, post; done).
    congruence.
  - apply app_eq_inv in Hx as [(u & -> & ->) | (u & -> & ->)].
    + destruct u as [|c u].
      { exists pre, []. by rewrite !app_nil_r. }
      by destruct (tails_clear_split _ _ l c u post Htails).
    + by exists pre, u.
Qed.

(** A copy of [x] in [a ++ f ++ b] lies in [a] or in [b] when [x] keeps
    clear of [f]. *)
Lemma occurs_in_around x f a b :
  keeps_clear x f = true ->
  occurs_in x (a ++ f ++ b) -> occurs_in x a \/ occurs_in x b.
Proof.
  intros (Hin & Hcover & Htails & Hheads)%keeps_clear_parts
    (pre & post & Heq).
  symmetry in Heq.
  apply app_eq_inv in Heq as [(l & -> & Hrest) | (l & -> & Hrest)].
  - (* the copy starts at the end of [a] or later *)
    right. apply (occurs_in_after x f b Hin Hheads).
    exists l, post. done.
  - (* the copy starts in [a] *)
    apply app_eq_inv in Hrest as [(u & -> & Hfb) | (u & -> & ->)].
    + destruct u as [|c u].
      { left. exists pre, []. by rewrite !app_nil_r. }
      apply app_eq_inv in Hfb as [(v & -> & ->) | (v & Hcu & ->)].
      * by destruct (tails_clear_split _ _ l c u v Htails).
      * assert (includes (l ++ c :: u) f = true)
          by (apply includes_occurs_in; exists l, v; by rewrite Hcu).
        congruence.
    + left. by exists pre, u.
Qed.

End StringFacts.

(* ===================================================================== *)
(** * Facts about runs                                                    *)
(* ===================================================================== *)

Section RunFacts.
Context {number : Type} `{NumOps : JsNumber number}.
Variable env : Env.
Variable resend : list (Email number) -> Email number -> Reply.

(** [sendEmail] makes one provider call, whatever the answer, and returns
    exactly when the call is delivered. *)
Lemma sendEmail_delivered to_ subject_ html_ calls :
  delivered (resend calls (outgoing env to_ subject_ html_)) = true ->
  exists data,
    sendEmail env resend to_ subject_ html_ calls =
    (Normal data, calls ++ [outgoing env to_ subject_ html_]).
Proof.
  unfold sendEmail, bind, emails_send, outgoing.
  destruct (resend calls _) as [data [e|]|r]; [done| |done].
  intros _. by exists data.
Qed.

Lemma sendEmail_failed to_ subject_ html_ calls :
  delivered (resend calls (outgoing env to_ subject_ html_)) = false ->
  exists e,
    sendEmail env resend to_ subject_ html_ calls =
    (Abrupt e, calls ++ [outgoing env to_ subject_ html_]).
Proof.
  unfold sendEmail, bind, emails_send, outgoing.
  destruct (resend calls _) as [data [e|]|r]; [|done|]; intros _.
  - by exists (ThrownError e).
  - by exists (ThrownReason r).
Qed.

End RunFacts.

(** Unfolding a route down to its [sendEmail] calls. *)
Ltac enter_route :=
  unfold run, handler, reservation_created, waitlist_created, status_updated,
    try_catch, bind.

(** Running the [sendEmail] at the head of what is left of a route, on both
    answers of the provider. *)
Ltac step_send :=
  match goal with
  | |- context [sendEmail ?e ?r ?t ?s ?h ?calls] =>
      let Hd := fresh "Hd" in
      let data := fresh "data" in
      let thrown := fresh "thrown" in
      destruct (delivered (r calls (outgoing e t s h))) eqn:Hd;
      [ destruct (sendEmail_delivered e r t s h calls Hd) as (data & ->)
      | destruct (sendEmail_failed e r t s h calls Hd) as (thrown & ->) ]
  end.

(** Finding a piece in a rendered message: down the concatenation, left or
    right. *)
Ltac find_piece :=
  first
    [ apply occurs_in_refl
    | apply occurs_in_head
    | match goal with
      | |- occurs_in (js _) (js _) =>
          apply includes_occurs_in; vm_compute; reflexivity
      end
    | apply occurs_in_app_r; find_piece
    | apply occurs_in_app_l; find_piece ].

(** A piece [l ++ t ++ r] around a supplied text [t], where [l] ends the
    fixed text before [t] and [r] starts the fixed text after it. *)
Ltac frame_here :=
  let pre := fresh "pre" in
  let Hpre := fresh "Hpre" in
  let post := fresh "post" in
  let Hpost := fresh "Hpost" in
  match goal with
  | |- occurs_in (?l ++ ?t ++ ?r) (?P ++ ?t ++ ?Q ++ ?rest) =>
      destruct (ends_with_split P l) as (pre & Hpre);
        [vm_compute; reflexivity|];
      destruct (proj1 (startsWith_prefix Q r)) as (post & Hpost);
        [vm_compute; reflexivity|];
      rewrite Hpre, Hpost, <- (app_assoc r post rest);
      apply occurs_in_between
  | |- occurs_in (?l ++ ?t ++ ?r) (?P ++ ?t ++ ?Q) =>
      destruct (ends_with_split P l) as (pre & Hpre);
        [vm_compute; reflexivity|];
      destruct (proj1 (startsWith_prefix Q r)) as (post & Hpost);
        [vm_compute; reflexivity|];
      rewrite Hpre, Hpost;
      apply occurs_in_between
  end.

Ltac find_framed := first [ frame_here | apply occurs_in_app_r; find_framed ].

(** Settling a comparison of two string literals. *)
Ltac settle_literals :=
  repeat match goal with
  | |- context [strict_eq_str ?v ?b] =>
      match v with JStr _ => idtac end;
      let t := constr:(strict_eq_str v b) in
      let r := eval vm_compute in t in
      change t with r
  | |- context [truthy ?v] =>
      match v with JStr (js _) => idtac end;
      let t := constr:(truthy v) in
      let r := eval vm_compute in t in
      change t with r
  end.

(** *** The branded wrapper *)

Lemma renderBrandedEmail_content title content showPickupInfo :
  occurs_in content (renderBrandedEmail title content showPickupInfo).
Proof. unfold renderBrandedEmail. find_piece. Qed.

Lemma renderBrandedEmail_title title content showPickupInfo :
  occurs_in (js "<h2 style=`color:#003366;`>" ++ title ++ js "</h2>")
    (renderBrandedEmail title content showPickupInfo).
Proof. unfold renderBrandedEmail. find_framed. Qed.

Lemma renderBrandedEmail_pickup title content :
  occurs_in PICKUP_INFO_HTML (renderBrandedEmail title content true).
Proof. unfold renderBrandedEmail. find_piece. Qed.

(** *** Conversions to strings *)

Section Conversions.
Context {number : Type} `{NumOps : JsNumber number}.

Lemma converts_text (v : Value number) :
  converts v = true -> ToString v = Normal (text v).
Proof. unfold converts, text. by destruct (ToString v). Qed.

Lemma converts_false (v : Value number) :
  converts v = false -> exists thrown, ToString v = Abrupt thrown.
Proof. unfold converts. destruct (ToString v); [done | by eexists]. Qed.

(** The falsy values are scalars: they convert. *)
Lemma falsy_converts (v : Value number) :
  truthy v = false -> converts v = true.
Proof. by destruct v as [| |[]|n|s|items|members]. Qed.

Lemma unconverted_truthy (v : Value number) :
  converts v = false -> truthy v = true.
Proof.
  intros Hv. destruct (truthy v) eqn:Htruthy; [done|].
  apply falsy_converts in Htruthy. congruence.
Qed.

Lemma text_JStr (s : JsString) : text (number := number) (JStr s) = s.
Proof. reflexivity. Qed.

Lemma or_else_converts (a : Value number) (b : JsString) :
  converts a = true ->
  ToString (or_else a (JStr b)) = Normal (text (or_else a (JStr b))).
Proof.
  intros Ha. unfold or_else. destruct (truthy a); [|done].
  by apply converts_text.
Qed.

Lemma or_else_unconverted (a b : Value number) :
  converts a = false -> or_else a b = a.
Proof. intros Ha%unconverted_truthy. unfold or_else. by rewrite Ha. Qed.

Lemma if_Normal {A : Type} (c : bool) (a b : A) :
  (if c then Normal a else Normal b) = Normal (if c then a else b).
Proof. by destruct c. Qed.

End Conversions.

(** Evaluating the template literals of a route whose conversions are
    known. *)
Ltac render :=
  repeat (progress
            (cbv beta iota zeta delta [eval lit cat then_ ret throw];
             rewrite ?if_Normal)).

(** The field [key] converts, or the route is over. *)
Ltac converted H :=
  rewrite ?(converts_text _ H), ?(or_else_converts _ _ H).

Ltac unconverted H :=
  let thrown := fresh "thrown" in
  let Hthrown := fresh "Hthrown" in
  rewrite ?(or_else_unconverted _ _ H), ?(unconverted_truthy _ H);
  destruct (converts_false _ H) as (thrown & Hthrown);
  rewrite ?Hthrown; render.

Section Routes.
Context {number : Type} `{NumOps : JsNumber number}.
Variable env : Env.
Variable resend : list (Email number) -> Email number -> Reply.

(** A request that fails validation is answered 400 before any call. *)
Lemma reservation_created_invalid body :
  truthy (prop body "parentEmail") = false \/
  truthy (prop body "itemName") = false ->
  run (reservation_created env resend body) = (Normal MISSING_FIELDS, []).
Proof.
  enter_route. intros [-> | ->]; [done|].
  by destruct (truthy (prop body "parentEmail")).
Qed.

Lemma waitlist_created_invalid body :
  truthy (prop body "parentEmail") = false \/
  truthy (prop body "itemName") = false ->
  run (waitlist_created env resend body) = (Normal MISSING_FIELDS, []).
Proof.
  enter_route. intros [-> | ->]; [done|].
  by destruct (truthy (prop body "parentEmail")).
Qed.

Lemma status_updated_invalid body :
  truthy (prop body "parentEmail") = false \/
  truthy (prop body "itemName") = false \/
  truthy (prop body "newStatus") = false ->
  run (status_updated env resend body) = (Normal MISSING_FIELDS, []).
Proof.
  enter_route. intros [-> | [-> | ->]]; [done| |].
  - by destruct (truthy (prop body "parentEmail")).
  - by destruct (truthy (prop body "parentEmail")),
         (truthy (prop body "itemName")).
Qed.

(** The fields of the parent's email convert, one by one. *)
Lemma renders_reservation body :
  renders ReservationCreated body = true <->
  converts (prop body "preferredDay") = true /\
  converts (prop body "itemName") = true /\
  converts (prop body "parentName") = true /\
  converts (prop body "childName") = true /\
  converts (prop body "note") = true.
Proof.
  cbv beta iota delta [renders interpolated_fields forallb].
  rewrite !andb_true_iff. tauto.
Qed.

Lemma renders_waitlist body :
  renders WaitlistCreated body = true <->
  converts (prop body "itemName") = true /\
  converts (prop body "parentName") = true /\
  converts (prop body "childName") = true.
Proof.
  cbv beta iota delta [renders interpolated_fields forallb].
  rewrite !andb_true_iff. tauto.
Qed.

(** A valid reservation whose fields convert: the recipient email, then the
    admin copy. *)
Lemma reservation_created_valid body :
  truthy (prop body "parentEmail") = true ->
  truthy (prop body "itemName") = true ->
  renders ReservationCreated body = true ->
  exists content html2,
    run (reservation_created env resend body) =
    sends_in_turn resend
      (outgoing env (prop body "parentEmail")
         (js "Reservation received for `" ++
          text (prop body "itemName") ++ js "`")
         (renderBrandedEmail (js "Reservation Received") content false))
      (admin_copy env (prop body "parentEmail")
         (js "New reservation: `" ++
          text (prop body "itemName") ++ js "`")
         html2) /\
    occurs_in (text (prop body "itemName")) content /\
    (truthy (prop body "note") = true ->
     occurs_in
       (js "<p><strong>Your note:</strong><br />" ++
        trim (replace_newlines (js "<br />") (text (prop body "note"))) ++
        js "</p>")
       content) /\
    (converts (prop body "parentEmail") = true ->
     occurs_in (text (prop body "parentEmail")) html2 /\
     occurs_in (text (prop body "itemName")) html2).
Proof.
  intros Hemail Hitem
    (Hday & Hname & Hparent & Hchild & Hnote)%renders_reservation.
  enter_route. rewrite Hemail, Hitem. cbn [negb orb].
  converted Hday. converted Hname. converted Hparent. converted Hchild.
  converted Hnote.
  destruct (converts (prop body "parentEmail")) eqn:Hpe.
  - converted Hpe. render.
    match goal with
    | |- context [sendEmail _ _ _ _ (renderBrandedEmail _ ?c _) []] =>
        exists c
    end.
    match goal with
    | |- context [sendEmail _ _ (env_value _) _ ?h] => exists h
    end.
    split; [|split; [|split; [|intros _; split]]].
    + unfold sends_in_turn, admin_copy. rewrite Hpe.
      step_send; [|done]. cbn [app].
      destruct (truthy (env_value (ADMIN_EMAIL env))); [|done].
      by step_send.
    + find_piece.
    + intros ->. find_piece.
    + find_piece.
    + find_piece.
  - unconverted Hpe.
    match goal with
    | |- context [sendEmail _ _ _ _ (renderBrandedEmail _ ?c _) []] =>
        exists c, []
    end.
    split; [|split; [|split; [|done]]].
    + unfold sends_in_turn, admin_copy. rewrite Hpe.
      step_send; [|done].
      by destruct (truthy (env_value (ADMIN_EMAIL env))).
    + find_piece.
    + intros ->. find_piece.
Qed.


(** A field of the parent's email that does not convert ends the request
    before any call: the TypeError is caught with the failed sends. *)
Lemma reservation_created_unrendered body :
  truthy (prop body "parentEmail") = true ->
  truthy (prop body "itemName") = true ->
  renders ReservationCreated body = false ->
  run (reservation_created env resend body) = (Normal SEND_FAILED, []).
Proof.
  intros Hemail Hitem Hrenders. enter_route. rewrite Hemail, Hitem.
  cbn [negb orb].
  destruct (converts (prop body "preferredDay")) eqn:Hday;
    [converted Hday | by unconverted Hday].
  destruct (converts (prop body "itemName")) eqn:Hname;
    [converted Hname | by unconverted Hname].
  destruct (converts (prop body "parentName")) eqn:Hparent;
    [converted Hparent | by unconverted Hparent].
  destruct (converts (prop body "childName")) eqn:Hchild;
    [converted Hchild | by unconverted Hchild].
  destruct (converts (prop body "note")) eqn:Hnote;
    [converted Hnote | by unconverted Hnote].
  assert (renders ReservationCreated body = true)
    by (by apply renders_reservation).
  congruence.
Qed.

(** A valid waitlist request whose fields convert: the same two calls. *)
Lemma waitlist_created_valid body :
  truthy (prop body "parentEmail") = true ->
  truthy (prop body "itemName") = true ->
  renders WaitlistCreated body = true ->
  exists content html2,
    run (waitlist_created env resend body) =
    sends_in_turn resend
      (outgoing env (prop body "parentEmail")
         (js "Waitlist request for `" ++
          text (prop body "itemName") ++ js "` received")
         (renderBrandedEmail (js "Waitlist Confirmation") content false))
      (admin_copy env (prop body "parentEmail")
         (js "New waitlist request: `" ++
          text (prop body "itemName") ++ js "`")
         html2) /\
    occurs_in (text (prop body "itemName")) content /\
    (converts (prop body "parentEmail") = true ->
     occurs_in (text (prop body "parentEmail")) html2 /\
     occurs_in (text (prop body "itemName")) html2).
Proof.
  intros Hemail Hitem (Hname & Hparent & Hchild)%renders_waitlist.
  enter_route. rewrite Hemail, Hitem. cbn [negb orb].
  converted Hname. converted Hparent. converted Hchild.
  destruct (converts (prop body "parentEmail")) eqn:Hpe.
  - converted Hpe. render.
    match goal with
    | |- context [sendEmail _ _ _ _ (renderBrandedEmail _ ?c _) []] =>
        exists c
    end.
    match goal with
    | |- context [sendEmail _ _ (env_value _) _ ?h] => exists h
    end.
    split; [|split; [|intros _; split]].
    + unfold sends_in_turn, admin_copy. rewrite Hpe.
      step_send; [|done]. cbn [app].
      destruct (truthy (env_value (ADMIN_EMAIL env))); [|done].
      by step_send.
    + find_piece.
    + find_piece.
    + find_piece.
  - unconverted Hpe.
    match goal with
    | |- context [sendEmail _ _ _ _ (renderBrandedEmail _ ?c _) []] =>
        exists c, []
    end.
    split; [|split; [|done]].
    + unfold sends_in_turn, admin_copy. rewrite Hpe.
      step_send; [|done].
      by destruct (truthy (env_value (ADMIN_EMAIL env))).
    + find_piece.
Qed.

Lemma waitlist_created_unrendered body :
  truthy (prop body "parentEmail") = true ->
  truthy (prop body "itemName") = true ->
  renders WaitlistCreated body = false ->
  run (waitlist_created env resend body) = (Normal SEND_FAILED, []).
Proof.
  intros Hemail Hitem Hrenders. enter_route. rewrite Hemail, Hitem.
  cbn [negb orb].
  destruct (converts (prop body "itemName")) eqn:Hname;
    [converted Hname | by unconverted Hname].
  destruct (converts (prop body "parentName")) eqn:Hparent;
    [converted Hparent | by unconverted Hparent].
  destruct (converts (prop body "childName")) eqn:Hchild;
    [converted Hchild | by unconverted Hchild].
  assert (renders WaitlistCreated body = true)
    by (by apply renders_waitlist).
  congruence.
Qed.

Lemma strict_eq_str_true (v : Value number) lit :
  strict_eq_str v lit = true <-> v = JStr lit.
Proof.
  destruct v as [| |b|n|s|items|members]; simpl;
    try (split; [done | discriminate]).
  rewrite bool_decide_eq_true. split; [by intros -> | by intros [= ->]].
Qed.

Lemma strict_eq_str_false (v : Value number) lit :
  strict_eq_str v lit = false <-> v <> JStr lit.
Proof.
  rewrite <- strict_eq_str_true. by destruct (strict_eq_str v lit).
Qed.

(** The suppression rule, past validation. *)
Lemma status_updated_on_loan body :
  truthy (prop body "parentEmail") = true ->
  truthy (prop body "itemName") = true ->
  prop body "newStatus" = JStr (js "On Loan") ->
  run (status_updated env resend body) = (Normal SKIPPED, []).
Proof.
  intros Hemail Hitem Hstatus. enter_route.
  rewrite Hemail, Hitem, Hstatus. by settle_literals.
Qed.

(** The fields a status email converts, by status. *)
Lemma renders_ready body :
  prop body "newStatus" = JStr (js "Ready for Pickup") ->
  renders StatusUpdated body = true <->
  converts (prop body "itemName") = true /\
  converts (prop body "parentName") = true /\
  converts (prop body "childName") = true /\
  converts (prop body "preferredDay") = true.
Proof.
  intros Hstatus. unfold renders, interpolated_fields. rewrite Hstatus.
  settle_literals. cbv beta iota delta [forallb].
  rewrite !andb_true_iff. tauto.
Qed.

Lemma renders_returned body :
  prop body "newStatus" = JStr (js "Returned") ->
  renders StatusUpdated body = true <->
  converts (prop body "itemName") = true /\
  converts (prop body "parentName") = true.
Proof.
  intros Hstatus. unfold renders, interpolated_fields. rewrite Hstatus.
  settle_literals. cbv beta iota delta [forallb].
  rewrite !andb_true_iff. tauto.
Qed.

Lemma renders_other body :
  prop body "newStatus" <> JStr (js "Ready for Pickup") ->
  prop body "newStatus" <> JStr (js "Returned") ->
  renders StatusUpdated body = converts (prop body "itemName").
Proof.
  intros Hready%strict_eq_str_false Hreturned%strict_eq_str_false.
  unfold renders, interpolated_fields. rewrite Hready, Hreturned.
  cbv beta iota delta [forallb]. apply andb_true_r.
Qed.

(** Ready for Pickup: one call, the branded email with the pickup block. *)
Lemma status_updated_ready body :
  truthy (prop body "parentEmail") = true ->
  truthy (prop body "itemName") = true ->
  prop body "newStatus" = JStr (js "Ready for Pickup") ->
  renders StatusUpdated body = true ->
  exists content,
    run (status_updated env resend body) =
    sends_in_turn resend
      (outgoing env (prop body "parentEmail")
         (PARTY_POPPER ++ js " `" ++ text (prop body "itemName") ++
          js "` is ready for pickup")
         (renderBrandedEmail (js "Your Toy is Ready for Pickup") content true))
      NoCopy /\
    occurs_in (text (prop body "itemName")) content /\
    (truthy (prop body "childName") = true ->
     occurs_in (text (prop body "childName")) content) /\
    (truthy (prop body "preferredDay") = true ->
     occurs_in
       (js "<p>You requested pickup on <strong>" ++
        text (prop body "preferredDay") ++ js "</strong>.</p>")
       content) /\
    occurs_in
      (js "<h4>Note: You will be required to show this confirmationemail with you when you come.</h4>")
      content.
Proof.
  intros Hemail Hitem Hstatus Hrenders.
  apply (renders_ready body Hstatus) in Hrenders
    as (Hname & Hparent & Hchild & Hday).
  enter_route. rewrite Hemail, Hitem, Hstatus. settle_literals.
  cbn [negb orb].
  converted Hname. converted Hparent. converted Hchild. converted Hday.
  render. cbn [fst snd].
  match goal with
  | |- context [sendEmail _ _ _ _ (renderBrandedEmail _ ?c _) []] =>
      exists c
  end.
  split; [|split; [|split; [|split]]].
  - unfold sends_in_turn. by step_send.
  - find_piece.
  - intros ->. find_piece.
  - intros ->. find_piece.
  - find_piece.
Qed.

(** Returned: one call, the branded thank-you.  Its content is a fixed text
    around the greeting name [n] and the item name [i]; the wrapper is
    rendered without the pickup block, so a copy of the block in the message
    can only come with [n] or [i]. *)
Lemma status_updated_returned body :
  truthy (prop body "parentEmail") = true ->
  truthy (prop body "itemName") = true ->
  prop body "newStatus" = JStr (js "Returned") ->
  renders StatusUpdated body = true ->
  exists content : JsString -> JsString -> JsString,
    run (status_updated env resend body) =
    sends_in_turn resend
      (outgoing env (prop body "parentEmail")
         (js "Update for `" ++ text (prop body "itemName") ++ js "`")
         (renderBrandedEmail (js "Thank You")
            (content
               (text (or_else (prop body "parentName") (JStr (js "there"))))
               (text (prop body "itemName")))
            false))
      NoCopy /\
    (forall n i,
       occurs_in
         (js "We have marked <strong>" ++ i ++ js "</strong> as
            <strong>Returned</strong>.")
         (content n i)) /\
    (forall n i,
       occurs_in (js "<p>Thank you for using the Toy Lending Library!</p>")
         (content n i)) /\
    (forall n i,
       occurs_in PICKUP_INFO_HTML
         (renderBrandedEmail (js "Thank You") (content n i) false) ->
       occurs_in PICKUP_INFO_HTML n \/ occurs_in PICKUP_INFO_HTML i).
Proof.
  intros Hemail Hitem Hstatus Hrenders.
  apply (renders_returned body Hstatus) in Hrenders as (Hname & Hparent).
  enter_route. rewrite Hemail, Hitem, Hstatus. settle_literals.
  cbn [negb orb].
  converted Hname. converted Hparent. render. cbn [fst snd].
  match goal with
  | |- context [renderBrandedEmail _ (?k1 ++ _ ++ ?k2 ++ _ ++ ?k3) _] =>
      exists (fun n i => k1 ++ n ++ k2 ++ i ++ k3)
  end.
  split; [|split; [|split]].
  - unfold sends_in_turn. by step_send.
  - intros n i. find_framed.
  - intros n i. find_piece.
  - intros n i Hblock. unfold renderBrandedEmail in Hblock.
    rewrite <- !app_assoc in Hblock.
    match type of Hblock with
    | occurs_in _ (?w1 ++ ?logo ++ ?w2 ++ ?t ++ ?w3 ++ ?k1 ++ n ++ ?k2 ++
                   i ++ ?rest) =>
        assert (Hshape :
          w1 ++ logo ++ w2 ++ t ++ w3 ++ k1 ++ n ++ k2 ++ i ++ rest =
          (w1 ++ logo ++ w2 ++ t ++ w3 ++ k1) ++
          (n ++ k2 ++ (i ++ rest ++ [])))
          by (rewrite <- !app_assoc, app_nil_r; reflexivity);
        rewrite Hshape in Hblock; clear Hshape;
        apply (occurs_in_after PICKUP_INFO_HTML
                 (w1 ++ logo ++ w2 ++ t ++ w3 ++ k1)
                 (n ++ k2 ++ (i ++ rest ++ [])))
          in Hblock;
          [apply (occurs_in_around PICKUP_INFO_HTML k2 n (i ++ rest ++ []))
             in Hblock as [Hn | Hblock];
             [|rewrite app_nil_r in Hblock;
               apply (occurs_in_before PICKUP_INFO_HTML rest i) in Hblock
              |]
          | |]
    end.
    all: try (vm_compute; reflexivity).
    + by left.
    + by right.
Qed.

(** Any other status: one call, the generic subject and an empty body. *)
Lemma status_updated_other body :
  truthy (prop body "parentEmail") = true ->
  truthy (prop body "itemName") = true ->
  truthy (prop body "newStatus") = true ->
  prop body "newStatus" <> JStr (js "On Loan") ->
  prop body "newStatus" <> JStr (js "Ready for Pickup") ->
  prop body "newStatus" <> JStr (js "Returned") ->
  converts (prop body "itemName") = true ->
  run (status_updated env resend body) =
  sends_in_turn resend
    (outgoing env (prop body "parentEmail")
       (js "Update for `" ++ text (prop body "itemName") ++ js "`")
       (js ""))
    NoCopy.
Proof.
  intros Hemail Hitem Hstatus Hloan%strict_eq_str_false
    Hready%strict_eq_str_false Hreturned%strict_eq_str_false Hname.
  enter_route. rewrite Hemail, Hitem, Hstatus, Hloan, Hready, Hreturned.
  cbn [negb orb]. converted Hname. render. cbn [fst snd].
  unfold sends_in_turn. by step_send.
Qed.

(** Past validation and the suppression rule, a status email that can be
    rendered gives exactly one call, to the parent's address. *)
Lemma status_updated_sends body :
  truthy (prop body "parentEmail") = true ->
  truthy (prop body "itemName") = true ->
  truthy (prop body "newStatus") = true ->
  prop body "newStatus" <> JStr (js "On Loan") ->
  renders StatusUpdated body = true ->
  exists subject_ html_,
    run (status_updated env resend body) =
    sends_in_turn resend
      (outgoing env (prop body "parentEmail") subject_ html_) NoCopy.
Proof.
  intros Hemail Hitem Hstatus Hloan Hrenders.
  destruct (strict_eq_str (prop body "newStatus") (js "Ready for Pickup"))
    eqn:Hready.
  { apply strict_eq_str_true in Hready.
    destruct (status_updated_ready body Hemail Hitem Hready Hrenders)
      as (content & -> & _). eauto. }
  destruct (strict_eq_str (prop body "newStatus") (js "Returned"))
    eqn:Hreturned.
  { apply strict_eq_str_true in Hreturned.
    destruct (status_updated_returned body Hemail Hitem Hreturned Hrenders)
      as (content & -> & _). eauto. }
  apply strict_eq_str_false in Hready, Hreturned.
  rewrite (renders_other body) in Hrenders by done.
  rewrite (status_updated_other body); eauto.
Qed.

(** A status email that cannot be rendered: no call, and the answer of a
    failed send. *)
Lemma status_updated_unrendered body :
  truthy (prop body "parentEmail") = true ->
  truthy (prop body "itemName") = true ->
  truthy (prop body "newStatus") = true ->
  prop body "newStatus" <> JStr (js "On Loan") ->
  renders StatusUpdated body = false ->
  run (status_updated env resend body) = (Normal SEND_FAILED, []).
Proof.
  intros Hemail Hitem Hstatus Hloan%strict_eq_str_false Hrenders.
  enter_route. rewrite Hemail, Hitem, Hstatus, Hloan. cbn [negb orb].
  destruct (converts (prop body "itemName")) eqn:Hname;
    [converted Hname | by unconverted Hname].
  destruct (strict_eq_str (prop body "newStatus") (js "Ready for Pickup"))
    eqn:Hready.
  { apply strict_eq_str_true in Hready.
    destruct (converts (prop body "parentName")) eqn:Hparent;
      [converted Hparent | by unconverted Hparent].
    destruct (converts (prop body "childName")) eqn:Hchild;
      [converted Hchild | by unconverted Hchild].
    destruct (converts (prop body "preferredDay")) eqn:Hday;
      [converted Hday | by unconverted Hday].
    assert (renders StatusUpdated body = true)
      by (by apply renders_ready).
    congruence. }
  destruct (strict_eq_str (prop body "newStatus") (js "Returned"))
    eqn:Hreturned.
  { apply strict_eq_str_true in Hreturned.
    destruct (converts (prop body "parentName")) eqn:Hparent;
      [converted Hparent | by unconverted Hparent].
    assert (renders StatusUpdated body = true)
      by (by apply renders_returned).
    congruence. }
  apply strict_eq_str_false in Hready, Hreturned.
  rewrite (renders_other body) in Hrenders by done. congruence.
Qed.

(** *** What [sends_in_turn] says about the calls and the response *)

Lemma sends_in_turn_failed first second :
  attempt_failed resend (snd (sends_in_turn resend first second)) ->
  fst (sends_in_turn resend first second) = Normal SEND_FAILED.
Proof.
  unfold sends_in_turn, attempt_failed.
  intros (before & m & after & Hcalls & Hfailed).
  destruct (delivered (resend [] first)) eqn:H1; [|done].
  destruct second as [| |m2]; simpl in *; [|done|].
  - destruct before as [|b1 before]; simplify_eq/=.
    + congruence.
    + by destruct before.
  - destruct before as [|b1 [|b2 before]]; simplify_eq/=.
    + congruence.
    + by rewrite Hfailed.
    + by destruct before.
Qed.

Lemma sends_in_turn_normal first second :
  exists response, fst (sends_in_turn resend first second) = Normal response.
Proof.
  unfold sends_in_turn.
  destruct (delivered (resend [] first)); [|by eexists].
  destruct second; by eexists.
Qed.

Lemma sends_in_turn_single first :
  sends_in_turn resend first NoCopy =
  (Normal (if delivered (resend [] first) then OK else SEND_FAILED), [first]).
Proof. unfold sends_in_turn. by destruct (delivered (resend [] first)). Qed.

Lemma sends_in_turn_calls first second :
  snd (sends_in_turn resend first second) =
  if delivered (resend [] first) then first :: calls_of second
  else [first].
Proof.
  unfold sends_in_turn. destruct (delivered (resend [] first)); [|done].
  by destruct second.
Qed.

Lemma sends_in_turn_first first second :
  exists others,
    snd (sends_in_turn resend first second) = first :: others.
Proof.
  rewrite sends_in_turn_calls. destruct (delivered _); by eexists.
Qed.

Lemma admin_copy_set admin parentEmail subject_ html_ :
  ADMIN_EMAIL env = Some admin -> admin <> [] ->
  converts parentEmail = true ->
  admin_copy (number := number) env parentEmail subject_ html_ =
  Copy (outgoing env (JStr admin) subject_ html_).
Proof. unfold admin_copy. intros -> Hne ->. by destruct admin. Qed.

Lemma admin_copy_unrendered admin parentEmail subject_ html_ :
  ADMIN_EMAIL env = Some admin -> admin <> [] ->
  converts parentEmail = false ->
  admin_copy (number := number) env parentEmail subject_ html_ = Unrendered.
Proof. unfold admin_copy. intros -> Hne ->. by destruct admin. Qed.

Lemma admin_copy_unset parentEmail subject_ html_ :
  ADMIN_EMAIL env = None \/ ADMIN_EMAIL env = Some [] ->
  admin_copy (number := number) env parentEmail subject_ html_ = NoCopy.
Proof. unfold admin_copy. by intros [-> | ->]. Qed.

Lemma attempt_failed_nil : ~ attempt_failed resend [].
Proof. intros (before & m & after & Hcalls & _). by destruct before. Qed.

(** Reading a field that is there, and one that is not. *)
Lemma prop_Some (body : gmap string (Value number)) key v :
  body !! key = Some v -> prop body key = v.
Proof. unfold prop. by intros ->. Qed.

Lemma prop_None (body : gmap string (Value number)) key :
  body !! key = None -> prop body key = JUndefined.
Proof. unfold prop. by intros ->. Qed.

(** The falsy values: [undefined], [null], [false], the falsy numbers and
    the empty string. *)
Lemma truthy_false (v : Value number) :
  truthy v = false <->
  v = JUndefined \/ v = JNull \/ v = JBool false \/
  (exists n, v = JNum n /\ number_is_falsy n = true) \/ v = JStr [].
Proof.
  split.
  - destruct v as [| |[]|n|[|c s]|items|members]; simpl; intros H;
      try discriminate.
    + by left.
    + right. by left.
    + right. right. by left.
    + right. right. right. left. exists n. split; [done|].
      by apply negb_false_iff.
    + right. right. right. by right.
  - intros [-> | [-> | [-> | [(n & -> & Hn) | ->]]]]; simpl; try done.
    by rewrite Hn.
Qed.

(** Every endpoint answers 400, without a call, as soon as one of its
    required fields is falsy. *)
Lemma handler_invalid e body key :
  In key (required_fields e) ->
  truthy (prop body key) = false ->
  run (handler env resend e body) = (Normal MISSING_FIELDS, []).
Proof.
  intros Hkey Hfalsy.
  destruct e; simpl in Hkey;
    repeat (destruct Hkey as [<- | Hkey]); try done; simpl handler.
  - apply reservation_created_invalid; auto.
  - apply reservation_created_invalid; auto.
  - apply waitlist_created_invalid; auto.
  - apply waitlist_created_invalid; auto.
  - apply status_updated_invalid; auto.
  - apply status_updated_invalid; auto.
  - apply status_updated_invalid; auto.
Qed.


(** The four ways a request can go: rejected by validation; suppressed
    (status updates only); past both with an email to the parent that
    cannot be rendered; or with a first email to the parent and, on the two
    creation endpoints, the admin copy. *)
Lemma handler_shape e (body : gmap string (Value number)) :
  (Exists (fun key => truthy (prop body key) = false) (required_fields e) /\
   run (handler env resend e body) = (Normal MISSING_FIELDS, [])) \/
  (Forall (fun key => truthy (prop body key) = true) (required_fields e) /\
   ((e = StatusUpdated /\
     prop body "newStatus" = JStr (js "On Loan") /\
     run (handler env resend e body) = (Normal SKIPPED, [])) \/
    ((e = StatusUpdated -> prop body "newStatus" <> JStr (js "On Loan")) /\
     ((renders e body = false /\
       run (handler env resend e body) = (Normal SEND_FAILED, [])) \/
      (renders e body = true /\
       exists subject1 html1 subject2 html2,
         run (handler env resend e body) =
         sends_in_turn resend
           (outgoing env (prop body "parentEmail") subject1 html1)
           (match e with
            | StatusUpdated => NoCopy
            | _ => admin_copy env (prop body "parentEmail") subject2 html2
            end)))))).
Proof.
  destruct (truthy (prop body "parentEmail")) eqn:Hemail; cycle 1.
  { left. split.
    - destruct e; by apply Exists_cons_hd.
    - apply (handler_invalid e body "parentEmail"); [|done].
      destruct e; simpl; auto. }
  destruct (truthy (prop body "itemName")) eqn:Hitem; cycle 1.
  { left. split.
    - destruct e; by apply Exists_cons_tl, Exists_cons_hd.
    - apply (handler_invalid e body "itemName"); [|done].
      destruct e; simpl; auto. }
  destruct e; simpl handler.
  - right. split; [by repeat constructor|]. right. split; [done|].
    destruct (renders ReservationCreated body) eqn:Hrenders.
    + right. split; [done|].
      destruct (reservation_created_valid body Hemail Hitem Hrenders)
        as (content & html2 & -> & _).
      by eexists _, _, _, _.
    + left. split; [done|]. by apply reservation_created_unrendered.
  - right. split; [by repeat constructor|]. right. split; [done|].
    destruct (renders WaitlistCreated body) eqn:Hrenders.
    + right. split; [done|].
      destruct (waitlist_created_valid body Hemail Hitem Hrenders)
        as (content & html2 & -> & _).
      by eexists _, _, _, _.
    + left. split; [done|]. by apply waitlist_created_unrendered.
  - destruct (truthy (prop body "newStatus")) eqn:Hstatus; cycle 1.
    { left. split.
      - by apply Exists_cons_tl, Exists_cons_tl, Exists_cons_hd.
      - apply status_updated_invalid; auto. }
    right. split; [by repeat constructor|].
    destruct (strict_eq_str (prop body "newStatus") (js "On Loan")) eqn:Hloan.
    + apply strict_eq_str_true in Hloan. left.
      split; [done|]. split; [done|]. by apply status_updated_on_loan.
    + apply strict_eq_str_false in Hloan. right. split; [done|].
      destruct (renders StatusUpdated body) eqn:Hrenders.
      * right. split; [done|].
        destruct (status_updated_sends body)
          as (subject_ & html_ & ->); try done.
        by exists subject_, html_, [], [].
      * left. split; [done|]. by apply status_updated_unrendered.
Qed.

End Routes.

(* ===================================================================== *)
(** * The properties of the specification                                 *)
(* ===================================================================== *)

Section Claims.
Context {number : Type} `{NumOps : JsNumber number}.
Variable env : Env.
Variable resend : list (Email number) -> Email number -> Reply.

(** C1 (amended).  A status update whose [newStatus] is "On Loan" never
    reaches the sender.  It is answered 200 [{ skipped: true }] when
    [parentEmail] and [itemName] are there as well; validation comes first,
    so without one of them the answer is 400 "Missing required fields". *)
Theorem on_loan_sends_nothing (body : gmap string (Value number)) :
  body !! "newStatus"%string = Some (JStr (js "On Loan")) ->
  snd (run (status_updated env resend body)) = [] /\
  (truthy (prop body "parentEmail") = true ->
   truthy (prop body "itemName") = true ->
   run (status_updated env resend body) = (Normal SKIPPED, [])) /\
  (truthy (prop body "parentEmail") = false \/
   truthy (prop body "itemName") = false ->
   run (status_updated env resend body) = (Normal MISSING_FIELDS, [])).
Proof.
  intros Hstatus%prop_Some.
  assert (Hskip : truthy (prop body "parentEmail") = true ->
                  truthy (prop body "itemName") = true ->
                  run (status_updated env resend body) = (Normal SKIPPED, []))
    by (intros; by apply status_updated_on_loan).
  assert (Hbad : truthy (prop body "parentEmail") = false \/
                 truthy (prop body "itemName") = false ->
                 run (status_updated env resend body) =
                 (Normal MISSING_FIELDS, []))
    by (intros [?|?]; apply status_updated_invalid; auto).
  split; [|by split].
  destruct (truthy (prop body "parentEmail")) eqn:Hemail;
    [destruct (truthy (prop body "itemName")) eqn:Hitem|].
  - by rewrite Hskip.
  - rewrite Hbad; auto.
  - rewrite Hbad; auto.
Qed.

(** C2.  On each of the three endpoints a request that lacks a required
    field ([parentEmail] or [itemName]; also [newStatus] for a status
    update) is answered 400 [{ error: "Missing required fields" }] and the
    sender is not called. *)
Theorem missing_field_rejected e (body : gmap string (Value number)) key :
  In key (required_fields e) ->
  body !! key = None ->
  run (handler env resend e body) = (Normal MISSING_FIELDS, []).
Proof.
  intros Hkey Hmissing%prop_None.
  apply (handler_invalid env resend e body key Hkey). by rewrite Hmissing.
Qed.

(** C9.  A required field that is there but falsy (the empty string, 0,
    null, false) is handled as a field that is not there: 400
    [{ error: "Missing required fields" }], no call to the sender, the very
    run of the request without the field. *)
Theorem falsy_field_is_missing e (body : gmap string (Value number)) key v :
  In key (required_fields e) ->
  body !! key = Some v ->
  truthy v = false ->
  run (handler env resend e body) = (Normal MISSING_FIELDS, []) /\
  run (handler env resend e body) =
  run (handler env resend e (delete key body)).
Proof.
  intros Hkey Hthere%prop_Some Hfalsy.
  assert (Hrun : run (handler env resend e body) = (Normal MISSING_FIELDS, []))
    by (apply (handler_invalid env resend e body key Hkey); by rewrite Hthere).
  split; [done|]. rewrite Hrun. symmetry.
  apply (handler_invalid env resend e _ key Hkey).
  by rewrite (prop_None _ _ (lookup_delete_eq body key)).
Qed.

(** C3.  On each of the three endpoints, a request during which a send
    attempt is not delivered, the recipient's or the admin copy's, is
    answered 500 [{ error: "Failed to send email" }]; so it is when the
    recipient's email was delivered and the admin copy after it was not. *)
Theorem delivery_failure_is_500 e (body : gmap string (Value number)) :
  (attempt_failed resend (snd (run (handler env resend e body))) ->
   fst (run (handler env resend e body)) = Normal SEND_FAILED) /\
  (forall m1 m2,
     snd (run (handler env resend e body)) = [m1; m2] ->
     delivered (resend [] m1) = true ->
     delivered (resend [m1] m2) = false ->
     fst (run (handler env resend e body)) = Normal SEND_FAILED).
Proof.
  assert (Hany : attempt_failed resend (snd (run (handler env resend e body))) ->
                 fst (run (handler env resend e body)) = Normal SEND_FAILED).
  { destruct (handler_shape env resend e body)
      as [(_ & ->) | (_ & [(_ & _ & ->) | (_ & [(_ & ->) |
           (_ & subject1 & html1 & subject2 & html2 & ->)])])].
    - intros []%attempt_failed_nil.
    - intros []%attempt_failed_nil.
    - done.
    - apply sends_in_turn_failed. }
  split; [done|]. intros m1 m2 Hcalls Hfirst Hsecond. apply Hany.
  exists [m1], m2, []. by rewrite Hcalls.
Qed.

(** C4 (amended).  A status update with its required fields and a
    [newStatus] other than "On Loan", "Ready for Pickup" and "Returned",
    whose [itemName] converts to a string, makes exactly one call to the
    sender, to the parent's address, with the generic subject
    [Update for "<itemName>"] and the empty string as html.  The answer is
    200 [{ ok: true }] when that email is delivered and 500
    [{ error: "Failed to send email" }] when it is not.  An [itemName] that
    does not convert is answered 500 as well, and no call is made. *)
Theorem unknown_status_sends_empty_body (body : gmap string (Value number)) :
  truthy (prop body "parentEmail") = true ->
  truthy (prop body "itemName") = true ->
  truthy (prop body "newStatus") = true ->
  prop body "newStatus" <> JStr (js "On Loan") ->
  prop body "newStatus" <> JStr (js "Ready for Pickup") ->
  prop body "newStatus" <> JStr (js "Returned") ->
  (converts (prop body "itemName") = true ->
   exists m,
     snd (run (status_updated env resend body)) = [m] /\
     to m = prop body "parentEmail" /\
     ToString (prop body "itemName") = Normal (text (prop body "itemName")) /\
     subject m =
       js "Update for `" ++ text (prop body "itemName") ++ js "`" /\
     html m = [] /\
     fst (run (status_updated env resend body)) =
       Normal (if delivered (resend [] m) then OK else SEND_FAILED)) /\
  (converts (prop body "itemName") = false ->
   run (status_updated env resend body) = (Normal SEND_FAILED, [])).
Proof.
  intros Hemail Hitem Hstatus Hloan Hready Hreturned. split.
  - intros Hname. rewrite (status_updated_other env resend body); try done.
    rewrite sends_in_turn_single. eexists.
    repeat split; try done. by apply converts_text.
  - intros Hname. apply status_updated_unrendered; try done.
    by rewrite renders_other.
Qed.

(** C5 (amended).  A reservation with its required fields and a [note]
    string that holds a line feed, whose other interpolated fields
    ([itemName], [parentName], [childName], [preferredDay]) convert to
    strings: the html sent to the parent holds the note paragraph, in which
    the note has its lines joined by [<br />] where line feeds joined them,
    no line feed left, and then its white space trimmed at both ends.
    Trimming the note before its line feeds are replaced gives a piece of
    the same paragraph.  When one of those fields does not convert, nothing
    is rendered: the answer is 500 and no call is made. *)
Theorem note_newlines_rendered (body : gmap string (Value number)) note :
  truthy (prop body "parentEmail") = true ->
  truthy (prop body "itemName") = true ->
  body !! "note"%string = Some (JStr note) ->
  In LF note ->
  (renders ReservationCreated body = true ->
   exists m others rendered,
     snd (run (reservation_created env resend body)) = m :: others /\
     to m = prop body "parentEmail" /\
     rendered = trim (replace_newlines (js "<br />") note) /\
     occurs_in
       (js "<p><strong>Your note:</strong><br />" ++ rendered ++ js "</p>")
       (html m) /\
     (* every line feed replaced by the line-break element *)
     note = join [LF] (lines note) /\
     replace_newlines (js "<br />") note = join (js "<br />") (lines note) /\
     Forall (fun line => ~ In LF line) (lines note) /\
     ~ In LF rendered /\
     (* trimmed at both ends *)
     (exists l r,
        replace_newlines (js "<br />") note = l ++ rendered ++ r /\
        Forall (fun c => is_white_space c = true) l /\
        Forall (fun c => is_white_space c = true) r) /\
     (forall c, head rendered = Some c -> is_white_space c = false) /\
     (forall c, last rendered = Some c -> is_white_space c = false) /\
     occurs_in (replace_newlines (js "<br />") (trim note)) (html m)) /\
  (renders ReservationCreated body = false ->
   run (reservation_created env resend body) = (Normal SEND_FAILED, [])).
Proof.
  intros Hemail Hitem Hnote%prop_Some Hlf.
  split; [|by apply reservation_created_unrendered].
  intros Hrenders.
  destruct (reservation_created_valid env resend body Hemail Hitem Hrenders)
    as (content & html2 & -> & _ & Hpiece & _).
  rewrite Hnote in Hpiece.
  assert (Htruthy : truthy (number := number) (JStr note) = true)
    by (by destruct note).
  specialize (Hpiece Htruthy). rewrite text_JStr in Hpiece.
  match goal with
  | |- context [sends_in_turn resend ?first ?second] =>
      destruct (sends_in_turn_first resend first second)
        as (others & ->);
      exists first, others
  end.
  eexists. split; [done|split; [done|split; [reflexivity|]]].
  assert (Hparagraph :
    occurs_in
      (js "<p><strong>Your note:</strong><br />" ++
       trim (replace_newlines (js "<br />") note) ++ js "</p>")
      (html
         (outgoing env (prop body "parentEmail")
            (js "Reservation received for `" ++
             text (prop body "itemName") ++ js "`")
            (renderBrandedEmail (js "Reservation Received") content false)))).
  { unfold outgoing; cbn [html].
    eapply occurs_in_trans; [exact Hpiece|].
    apply renderBrandedEmail_content. }
  split; [|split; [|split; [|split; [|split; [|split; [|split; [|split]]]]]]].
  - exact Hparagraph.
  - symmetry. apply join_lines.
  - apply replace_newlines_join.
  - apply lines_no_LF.
  - intros Hin.
    apply (replace_newlines_no_LF (js "<br />") note);
      [by vm_compute; intuition discriminate|].
    eapply occurs_in_In; [apply trim_occurs_in | exact Hin].
  - apply trim_split.
  - apply trim_head.
  - apply trim_last.
  - eapply occurs_in_trans; [apply replace_newlines_trim|].
    eapply occurs_in_trans; [|exact Hparagraph].
    apply occurs_in_app_r, occurs_in_head.
Qed.

(** C6 (amended).  A status update with its required fields and
    [newStatus] "Ready for Pickup", whose interpolated fields ([itemName],
    [parentName], [childName], [preferredDay]) convert to strings, makes one
    call, to the parent's address: the subject is the party popper, then the
    quoted item name, then "is ready for pickup"; the html is the branded
    wrapper with the title "Your Toy is Ready for Pickup" and with the pickup
    location and hours block; it names the item, holds the preferred day
    when the request gives one (any string, or any other truthy value), and
    tells the recipient to bring the confirmation email.  The answer is 200
    [{ ok: true }] once the email is delivered.  When one of those fields
    does not convert, the answer is 500 and no call is made. *)
Theorem ready_for_pickup_email (body : gmap string (Value number)) :
  truthy (prop body "parentEmail") = true ->
  truthy (prop body "itemName") = true ->
  body !! "newStatus"%string = Some (JStr (js "Ready for Pickup")) ->
  (renders StatusUpdated body = true ->
   exists m content,
     snd (run (status_updated env resend body)) = [m] /\
     to m = prop body "parentEmail" /\
     subject m =
       PARTY_POPPER ++ js " `" ++ text (prop body "itemName") ++
       js "` is ready for pickup" /\
     html m =
       renderBrandedEmail (js "Your Toy is Ready for Pickup") content true /\
     occurs_in
       (js "<h2 style=`color:#003366;`>" ++
        js "Your Toy is Ready for Pickup" ++ js "</h2>")
       (html m) /\
     occurs_in PICKUP_INFO_HTML (html m) /\
     occurs_in (text (prop body "itemName")) (html m) /\
     (forall day,
        body !! "preferredDay"%string = Some day -> truthy day = true ->
        occurs_in
          (js "<p>You requested pickup on <strong>" ++ text day ++
           js "</strong>.</p>")
          (html m)) /\
     (forall day,
        body !! "preferredDay"%string = Some (JStr day) ->
        occurs_in day (html m)) /\
     occurs_in
       (js "<h4>Note: You will be required to show this confirmationemail with you when you come.</h4>")
       (html m) /\
     fst (run (status_updated env resend body)) =
       Normal (if delivered (resend [] m) then OK else SEND_FAILED)) /\
  (renders StatusUpdated body = false ->
   run (status_updated env resend body) = (Normal SEND_FAILED, [])).
Proof.
  intros Hemail Hitem Hstatus%prop_Some. split; cycle 1.
  { intros Hrenders.
    by apply status_updated_unrendered; rewrite ?Hstatus. }
  intros Hrenders.
  destruct (status_updated_ready env resend body Hemail Hitem Hstatus Hrenders)
    as (content & -> & Hname & _ & Hday & Hbring).
  rewrite sends_in_turn_single. eexists _, content.
  unfold outgoing; cbn [fst snd to subject html].
  assert (Hin : forall piece,
            occurs_in piece content ->
            occurs_in piece
              (renderBrandedEmail (js "Your Toy is Ready for Pickup")
                 content true))
    by (intros piece Hp; eapply occurs_in_trans;
        [exact Hp | apply renderBrandedEmail_content]).
  repeat split; auto.
  - apply renderBrandedEmail_title.
  - apply renderBrandedEmail_pickup.
  - intros day Hthere%prop_Some Htruthy. rewrite Hthere in Hday. auto.
  - intros day Hthere%prop_Some. rewrite Hthere in Hday.
    destruct day as [|c day]; [apply occurs_in_nil|].
    eapply occurs_in_trans; [|apply Hin, Hday; reflexivity].
    rewrite text_JStr. find_piece.
Qed.

(** C7 (amended).  A status update with its required fields and
    [newStatus] "Returned", whose [itemName] and [parentName] convert to
    strings, makes one call, to the parent's address, with the generic
    subject [Update for "<itemName>"]; the html is the branded wrapper with
    the title "Thank You", rendered without the pickup block; it says the
    item was marked Returned and thanks the user.  The pickup block is in
    the html only if the request brings it along, in [parentName] or in
    [itemName].  When one of the two fields does not convert, the answer is
    500 and no call is made. *)
Theorem returned_email (body : gmap string (Value number)) :
  truthy (prop body "parentEmail") = true ->
  truthy (prop body "itemName") = true ->
  body !! "newStatus"%string = Some (JStr (js "Returned")) ->
  (renders StatusUpdated body = true ->
   exists m content,
     snd (run (status_updated env resend body)) = [m] /\
     to m = prop body "parentEmail" /\
     subject m =
       js "Update for `" ++ text (prop body "itemName") ++ js "`" /\
     html m = renderBrandedEmail (js "Thank You") content false /\
     occurs_in
       (js "<h2 style=`color:#003366;`>" ++ js "Thank You" ++ js "</h2>")
       (html m) /\
     occurs_in
       (js "We have marked <strong>" ++ text (prop body "itemName") ++
        js "</strong> as
            <strong>Returned</strong>.")
       (html m) /\
     occurs_in (js "<p>Thank you for using the Toy Lending Library!</p>")
       (html m) /\
     (occurs_in PICKUP_INFO_HTML (html m) ->
      occurs_in PICKUP_INFO_HTML (text (prop body "parentName")) \/
      occurs_in PICKUP_INFO_HTML (text (prop body "itemName"))) /\
     fst (run (status_updated env resend body)) =
       Normal (if delivered (resend [] m) then OK else SEND_FAILED)) /\
  (renders StatusUpdated body = false ->
   run (status_updated env resend body) = (Normal SEND_FAILED, [])).
Proof.
  intros Hemail Hitem Hstatus%prop_Some. split; cycle 1.
  { intros Hrenders.
    by apply status_updated_unrendered; rewrite ?Hstatus. }
  intros Hrenders.
  destruct (status_updated_returned env resend body Hemail Hitem Hstatus
              Hrenders)
    as (content & -> & Hmarked & Hthanks & Hblock).
  rewrite sends_in_turn_single. eexists _, _.
  unfold outgoing; cbn [fst snd to subject html].
  assert (Hin : forall piece n i,
            occurs_in piece (content n i) ->
            occurs_in piece
              (renderBrandedEmail (js "Thank You") (content n i) false))
    by (intros piece n i Hp; eapply occurs_in_trans;
        [exact Hp | apply renderBrandedEmail_content]).
  split; [done|split; [done|split; [done|split; [done|]]]].
  split; [|split; [|split; [|split; [|done]]]].
  - apply renderBrandedEmail_title.
  - apply Hin, Hmarked.
  - apply Hin, Hthanks.
  - intros [Hn | Hi]%Hblock; [|by right].
    unfold or_else in Hn.
    destruct (truthy (prop body "parentName")); [by left|].
    apply includes_occurs_in in Hn. by vm_compute in Hn.
Qed.

(** C8 (amended).  A valid reservation or waitlist request whose
    interpolated fields convert to strings first calls the sender for the
    parent: the call goes to the given address and its subject and html hold
    the item name as given.  With an administrator address configured, a
    second call follows once the first is delivered, and only then, provided
    the parent's address converts to a string too: it goes to the
    administrator address, and its subject and html hold the item name and
    its html the parent's address; these two calls are all.  A parent's
    address that does not convert leaves the first call alone, answered 500
    once it is delivered.  Without an administrator address the first call
    is the only one.  When an interpolated field does not convert, the answer
    is 500 and no call is made. *)
Theorem admin_copy_follows_recipient e (body : gmap string (Value number)) :
  e <> StatusUpdated ->
  truthy (prop body "parentEmail") = true ->
  truthy (prop body "itemName") = true ->
  (renders e body = true ->
   exists m1,
     to m1 = prop body "parentEmail" /\
     occurs_in (text (prop body "itemName")) (subject m1) /\
     occurs_in (text (prop body "itemName")) (html m1) /\
     (forall admin,
        ADMIN_EMAIL env = Some admin -> admin <> [] ->
        (converts (prop body "parentEmail") = true ->
         exists m2,
           to m2 = JStr admin /\
           occurs_in (text (prop body "itemName")) (subject m2) /\
           occurs_in (text (prop body "itemName")) (html m2) /\
           occurs_in (text (prop body "parentEmail")) (html m2) /\
           (delivered (resend [] m1) = true ->
            snd (run (handler env resend e body)) = [m1; m2]) /\
           (delivered (resend [] m1) = false ->
            snd (run (handler env resend e body)) = [m1])) /\
        (converts (prop body "parentEmail") = false ->
         run (handler env resend e body) = (Normal SEND_FAILED, [m1]))) /\
     (ADMIN_EMAIL env = None \/ ADMIN_EMAIL env = Some [] ->
      snd (run (handler env resend e body)) = [m1])) /\
  (renders e body = false ->
   run (handler env resend e body) = (Normal SEND_FAILED, [])).
Proof.
  intros He Hemail Hitem. split; cycle 1.
  { intros Hrenders. destruct e; [| |done]; simpl handler.
    - by apply reservation_created_unrendered.
    - by apply waitlist_created_unrendered. }
  intros Hrenders.
  assert (Hshape : exists subject1 content subject2 html2,
            run (handler env resend e body) =
            sends_in_turn resend
              (outgoing env (prop body "parentEmail") subject1
                 (renderBrandedEmail
                    (match e with
                     | ReservationCreated => js "Reservation Received"
                     | _ => js "Waitlist Confirmation"
                     end) content false))
              (admin_copy env (prop body "parentEmail") subject2 html2) /\
            occurs_in (text (prop body "itemName")) subject1 /\
            occurs_in (text (prop body "itemName")) content /\
            occurs_in (text (prop body "itemName")) subject2 /\
            (converts (prop body "parentEmail") = true ->
             occurs_in (text (prop body "parentEmail")) html2 /\
             occurs_in (text (prop body "itemName")) html2)).
  { destruct e; [| |done]; simpl handler.
    - destruct (reservation_created_valid env resend body Hemail Hitem
                  Hrenders)
        as (content & html2 & -> & Hc & _ & Hadmin).
      eexists _, content, _, html2. split; [reflexivity|].
      repeat split; try done; try find_piece; by apply Hadmin.
    - destruct (waitlist_created_valid env resend body Hemail Hitem
                  Hrenders)
        as (content & html2 & -> & Hc & Hadmin).
      eexists _, content, _, html2. split; [reflexivity|].
      repeat split; try done; try find_piece; by apply Hadmin. }
  destruct Hshape
    as (subject1 & content & subject2 & html2 & Hrun & Hs1 & Hc & Hs2 & Hadmin).
  rewrite Hrun.
  match goal with
  | |- context [sends_in_turn resend ?first _] => exists first
  end.
  unfold outgoing at 1 2 3; cbn [to subject html].
  split; [done|]. split; [done|].
  split; [eapply occurs_in_trans;
          [exact Hc | apply renderBrandedEmail_content]|].
  split.
  - intros admin Hset Hne. split.
    + intros Hpe. destruct (Hadmin Hpe) as [Hp Hh2].
      exists (outgoing env (JStr admin) subject2 html2).
      rewrite (admin_copy_set env admin) by done.
      rewrite sends_in_turn_calls.
      unfold outgoing at 1 2 3 4; cbn [to subject html].
      repeat (split; [done|]). split; by intros ->.
    + intros Hpe. rewrite (admin_copy_unrendered env admin) by done.
      unfold sends_in_turn. by destruct (delivered _).
  - intros Hunset. rewrite (admin_copy_unset env) by done.
    rewrite sends_in_turn_calls. by destruct (delivered _).
Qed.

(** C10.  What a handler does is a function of the fields it takes out of
    the request body, of the configuration and of the answers of the
    sender: two requests that agree on these fields (for the waitlist:
    [parentEmail], [parentName], [childName], [itemName]) make the same
    calls, with the same subjects and html, and get the same response,
    whatever else they hold.  The branded wrapper is a function of its
    title, content and [showPickupInfo]. *)
Theorem handlers_read_declared_fields_only e
    (body1 body2 : gmap string (Value number)) :
  (forall key, In key (declared_fields e) -> body1 !! key = body2 !! key) ->
  run (handler env resend e body1) = run (handler env resend e body2) /\
  (forall title1 content1 pickup1 title2 content2 pickup2,
     title1 = title2 -> content1 = content2 -> pickup1 = pickup2 ->
     renderBrandedEmail title1 content1 pickup1 =
     renderBrandedEmail title2 content2 pickup2).
Proof.
  intros Hagree.
  assert (Hprop : forall key,
            In key (declared_fields e) -> prop body1 key = prop body2 key)
    by (intros key Hkey; unfold prop; by rewrite (Hagree key Hkey)).
  split; [|by intros; subst].
  destruct e; unfold run, handler, reservation_created, waitlist_created,
    status_updated; simpl in Hprop.
  - rewrite !(Hprop "parentEmail"%string), !(Hprop "parentName"%string),
      !(Hprop "childName"%string), !(Hprop "itemName"%string),
      !(Hprop "preferredDay"%string), !(Hprop "note"%string) by tauto.
    reflexivity.
  - rewrite !(Hprop "parentEmail"%string), !(Hprop "parentName"%string),
      !(Hprop "childName"%string), !(Hprop "itemName"%string) by tauto.
    reflexivity.
  - rewrite !(Hprop "parentEmail"%string), !(Hprop "parentName"%string),
      !(Hprop "childName"%string), !(Hprop "itemName"%string),
      !(Hprop "newStatus"%string), !(Hprop "preferredDay"%string) by tauto.
    reflexivity.
Qed.

End Claims.
(* ===================================================================== *)
(** * The properties at concrete requests                                 *)
(* ===================================================================== *)

(** "On Loan" without a recipient: the answer is 400, not
    200 [{ skipped: true }]. *)
Lemma on_loan_without_recipient :
  ON_LOAN_ONLY !! "newStatus"%string = Some (JStr (js "On Loan")) /\
  run (status_updated ADMIN_SET accepting ON_LOAN_ONLY) =
    (Normal MISSING_FIELDS, []) /\
  run (status_updated ADMIN_SET accepting ON_LOAN_ONLY) <>
    (Normal SKIPPED, []).
Proof.
  split; [by vm_compute|]. split; [by vm_compute|].
  vm_compute. discriminate.
Qed.

Lemma on_loan_sends_nothing_witness :
  LOAN_STARTED !! "newStatus"%string = Some (JStr (js "On Loan")) /\
  run (status_updated ADMIN_SET accepting LOAN_STARTED) =
    (Normal SKIPPED, []).
Proof.
  assert (Hstatus :
    LOAN_STARTED !! "newStatus"%string = Some (JStr (js "On Loan")))
    by (vm_compute; reflexivity).
  split; [exact Hstatus|].
  apply (on_loan_sends_nothing ADMIN_SET accepting LOAN_STARTED Hstatus);
    vm_compute; reflexivity.
Defined.

Lemma missing_field_rejected_witness :
  In "itemName"%string (required_fields ReservationCreated) /\
  NO_ITEM !! "itemName"%string = None /\
  run (handler ADMIN_SET accepting ReservationCreated NO_ITEM) =
    (Normal MISSING_FIELDS, []).
Proof.
  assert (Hkey : In "itemName"%string (required_fields ReservationCreated))
    by (right; left; reflexivity).
  assert (Hmissing : NO_ITEM !! "itemName"%string = None)
    by (vm_compute; reflexivity).
  split; [exact Hkey|]. split; [exact Hmissing|].
  exact (missing_field_rejected ADMIN_SET accepting ReservationCreated
           NO_ITEM "itemName"%string Hkey Hmissing).
Defined.

Lemma falsy_field_is_missing_witness :
  In "itemName"%string (required_fields WaitlistCreated) /\
  ZERO_ITEM !! "itemName"%string = Some (JNum 0%Z) /\
  truthy (JNum 0%Z) = false /\
  run (handler ADMIN_SET accepting WaitlistCreated ZERO_ITEM) =
    (Normal MISSING_FIELDS, []).
Proof.
  assert (Hkey : In "itemName"%string (required_fields WaitlistCreated))
    by (right; left; reflexivity).
  assert (Hthere : ZERO_ITEM !! "itemName"%string = Some (JNum 0%Z))
    by (vm_compute; reflexivity).
  assert (Hfalsy : truthy (JNum 0%Z) = false) by reflexivity.
  split; [exact Hkey|]. split; [exact Hthere|]. split; [exact Hfalsy|].
  exact (proj1 (falsy_field_is_missing ADMIN_SET accepting WaitlistCreated
                  ZERO_ITEM "itemName"%string (JNum 0%Z)
                  Hkey Hthere Hfalsy)).
Defined.

(** The recipient's email is delivered, the admin copy is not. *)
Lemma delivery_failure_is_500_witness :
  attempt_failed first_only
    (snd (run (handler ADMIN_SET first_only ReservationCreated RESERVATION))) /\
  length
    (snd (run (handler ADMIN_SET first_only ReservationCreated RESERVATION)))
    = 2%nat /\
  fst (run (handler ADMIN_SET first_only ReservationCreated RESERVATION)) =
    Normal SEND_FAILED.
Proof.
  assert (Hfailed :
    attempt_failed first_only
      (snd (run (handler ADMIN_SET first_only ReservationCreated
                   RESERVATION)))).
  { let calls :=
      eval vm_compute in
        (snd (run (handler ADMIN_SET first_only ReservationCreated
                     RESERVATION))) in
    match calls with
    | [?m1; ?m2] => exists [m1], m2, []
    end.
    split; vm_compute; reflexivity. }
  split; [exact Hfailed|]. split; [vm_compute; reflexivity|].
  exact (proj1 (delivery_failure_is_500 ADMIN_SET first_only
                  ReservationCreated RESERVATION) Hfailed).
Defined.

(** An unknown status and a provider that refuses the email: the answer is
    500, not 200 [{ ok: true }].  An unknown status and an item name that
    is an object with a [toString] member: no email at all, and 500. *)
Lemma unknown_status_send_refused :
  (truthy (prop STATUS_LOST "parentEmail") = true /\
   truthy (prop STATUS_LOST "itemName") = true /\
   prop STATUS_LOST "newStatus" = JStr (js "Lost") /\
   length (snd (run (status_updated ADMIN_SET refusing STATUS_LOST))) = 1%nat /\
   fst (run (status_updated ADMIN_SET refusing STATUS_LOST)) =
     Normal SEND_FAILED /\
   fst (run (status_updated ADMIN_SET refusing STATUS_LOST)) <> Normal OK) /\
  (truthy (prop STATUS_LOST_OBJECT "parentEmail") = true /\
   truthy (prop STATUS_LOST_OBJECT "itemName") = true /\
   prop STATUS_LOST_OBJECT "newStatus" = JStr (js "Lost") /\
   run (status_updated ADMIN_SET accepting STATUS_LOST_OBJECT) =
     (Normal SEND_FAILED, []) /\
   fst (run (status_updated ADMIN_SET accepting STATUS_LOST_OBJECT)) <>
     Normal OK).
Proof.
  split.
  - repeat (split; [by vm_compute|]). vm_compute. discriminate.
  - repeat (split; [by vm_compute|]). vm_compute. discriminate.
Qed.

Lemma unknown_status_sends_empty_body_witness :
  (exists m,
     snd (run (status_updated ADMIN_SET accepting STATUS_LOST)) = [m] /\
     to m = JStr (js "pat@example.org") /\
     subject m = js "Update for `Duplo train`" /\
     html m = [] /\
     fst (run (status_updated ADMIN_SET accepting STATUS_LOST)) = Normal OK) /\
  run (status_updated ADMIN_SET accepting STATUS_LOST_OBJECT) =
    (Normal SEND_FAILED, []).
Proof.
  split.
  - destruct (proj1 (unknown_status_sends_empty_body ADMIN_SET accepting
                       STATUS_LOST
                       ltac:(vm_compute; reflexivity)
                       ltac:(vm_compute; reflexivity)
                       ltac:(vm_compute; reflexivity)
                       ltac:(vm_compute; discriminate)
                       ltac:(vm_compute; discriminate)
                       ltac:(vm_compute; discriminate))
                ltac:(vm_compute; reflexivity))
      as (m & Hcalls & Hto & _ & Hsubject & Hhtml & Hanswer).
    exists m. split; [exact Hcalls|]. split; [exact Hto|].
    split; [exact Hsubject|]. split; [exact Hhtml | exact Hanswer].
  - apply (unknown_status_sends_empty_body ADMIN_SET accepting
             STATUS_LOST_OBJECT);
      vm_compute; first [reflexivity | discriminate].
Defined.

Lemma note_newlines_rendered_witness :
  exists m others,
    snd (run (reservation_created ADMIN_SET accepting RESERVATION)) =
      m :: others /\
    occurs_in
      (js "<p><strong>Your note:</strong><br />" ++
       js "Please call first<br />after 5 pm" ++ js "</p>")
      (html m).
Proof.
  destruct (proj1 (note_newlines_rendered ADMIN_SET accepting RESERVATION
                     (js "  Please call first
after 5 pm  ")
                     ltac:(vm_compute; reflexivity)
                     ltac:(vm_compute; reflexivity)
                     ltac:(vm_compute; reflexivity)
                     ltac:(vm_compute; tauto))
              ltac:(vm_compute; reflexivity))
    as (m & others & rendered & Hcalls & _ & Hrendered & Hpiece & _).
  exists m, others. split; [exact Hcalls|].
  rewrite Hrendered in Hpiece. exact Hpiece.
Defined.

(** A reservation whose item name is an object with a [toString] member:
    the note is there, with its line feed, and no email is rendered. *)
Lemma note_not_rendered_for_object_item :
  truthy (prop RESERVATION_OBJECT_ITEM "parentEmail") = true /\
  truthy (prop RESERVATION_OBJECT_ITEM "itemName") = true /\
  (exists note,
     RESERVATION_OBJECT_ITEM !! "note"%string = Some (JStr note) /\
     In LF note) /\
  run (reservation_created ADMIN_SET accepting RESERVATION_OBJECT_ITEM) =
    (Normal SEND_FAILED, []).
Proof.
  split; [by vm_compute|]. split; [by vm_compute|]. split.
  - eexists. split; [vm_compute; reflexivity|]. vm_compute. tauto.
  - by vm_compute.
Qed.

Lemma ready_for_pickup_email_witness :
  exists m,
    snd (run (status_updated ADMIN_SET accepting STATUS_READY)) = [m] /\
    occurs_in PICKUP_INFO_HTML (html m) /\
    occurs_in (js "Monday") (html m).
Proof.
  destruct (proj1 (ready_for_pickup_email ADMIN_SET accepting STATUS_READY
                     ltac:(vm_compute; reflexivity)
                     ltac:(vm_compute; reflexivity)
                     ltac:(vm_compute; reflexivity))
              ltac:(vm_compute; reflexivity))
    as (m & content & Hcalls & _ & _ & _ & _ & Hblock & _ & _ & Hday & _).
  exists m. split; [exact Hcalls|]. split; [exact Hblock|].
  apply Hday. vm_compute; reflexivity.
Defined.

(** Ready for pickup, with an item name that is an object with a
    [toString] member: no email is sent. *)
Lemma ready_for_pickup_not_sent_for_object_item :
  truthy (prop STATUS_READY_OBJECT "parentEmail") = true /\
  truthy (prop STATUS_READY_OBJECT "itemName") = true /\
  STATUS_READY_OBJECT !! "newStatus"%string =
    Some (JStr (js "Ready for Pickup")) /\
  run (status_updated ADMIN_SET accepting STATUS_READY_OBJECT) =
    (Normal SEND_FAILED, []).
Proof. repeat (split; [by vm_compute|]). by vm_compute. Qed.

(** A returned item whose name brings the pickup block along; and a
    returned item whose name is an object with a [toString] member, for
    which no email is sent. *)
Lemma returned_email_with_injected_block :
  (truthy (prop STATUS_RETURNED_INJECTED "parentEmail") = true /\
   truthy (prop STATUS_RETURNED_INJECTED "itemName") = true /\
   STATUS_RETURNED_INJECTED !! "newStatus"%string =
     Some (JStr (js "Returned")) /\
   exists m,
     snd (run (status_updated ADMIN_SET accepting STATUS_RETURNED_INJECTED)) =
       [m] /\
     occurs_in PICKUP_INFO_HTML (html m)) /\
  (truthy (prop STATUS_RETURNED_OBJECT "parentEmail") = true /\
   truthy (prop STATUS_RETURNED_OBJECT "itemName") = true /\
   STATUS_RETURNED_OBJECT !! "newStatus"%string =
     Some (JStr (js "Returned")) /\
   run (status_updated ADMIN_SET accepting STATUS_RETURNED_OBJECT) =
     (Normal SEND_FAILED, [])).
Proof.
  split.
  - split; [by vm_compute|]. split; [by vm_compute|]. split; [by vm_compute|].
    eexists. split; [vm_compute; reflexivity|].
    apply includes_occurs_in. vm_compute. reflexivity.
  - repeat (split; [by vm_compute|]). by vm_compute.
Qed.

Lemma returned_email_witness :
  exists m,
    snd (run (status_updated ADMIN_SET accepting STATUS_RETURNED)) = [m] /\
    occurs_in (js "Thank You") (html m) /\
    ~ occurs_in PICKUP_INFO_HTML (html m).
Proof.
  destruct (proj1 (returned_email ADMIN_SET accepting STATUS_RETURNED
                     ltac:(vm_compute; reflexivity)
                     ltac:(vm_compute; reflexivity)
                     ltac:(vm_compute; reflexivity))
              ltac:(vm_compute; reflexivity))
    as (m & content & Hcalls & _ & _ & _ & Htitle & _ & _ & Hblock & _).
  exists m. split; [exact Hcalls|]. split.
  - eapply occurs_in_trans; [|exact Htitle].
    apply occurs_in_app_r, occurs_in_head.
  - intros [Hin | Hin]%Hblock; apply includes_occurs_in in Hin;
      vm_compute in Hin; discriminate.
Defined.

Lemma admin_copy_follows_recipient_witness :
  (exists m1 m2,
     snd (run (handler ADMIN_SET accepting WaitlistCreated RESERVATION)) =
       [m1; m2] /\
     to m1 = JStr (js "pat@example.org") /\
     to m2 = JStr (js "desk@bethesda.example") /\
     occurs_in (js "Duplo train") (subject m1) /\
     occurs_in (js "Duplo train") (html m2) /\
     occurs_in (js "pat@example.org") (html m2)) /\
  (exists m1,
     snd (run (handler ADMIN_UNSET accepting ReservationCreated RESERVATION)) =
       [m1] /\
     to m1 = JStr (js "pat@example.org")).
Proof.
  split.
  - destruct (proj1 (admin_copy_follows_recipient ADMIN_SET accepting
                       WaitlistCreated RESERVATION
                       ltac:(discriminate)
                       ltac:(vm_compute; reflexivity)
                       ltac:(vm_compute; reflexivity))
                ltac:(vm_compute; reflexivity))
      as (m1 & Hto1 & Hsubject1 & _ & Hset & _).
    destruct (proj1 (Hset (js "desk@bethesda.example")
                       ltac:(reflexivity) ltac:(vm_compute; discriminate))
                ltac:(vm_compute; reflexivity))
      as (m2 & Hto2 & _ & Hitem2 & Hparent2 & Hcalls & _).
    exists m1, m2. split; [apply Hcalls; reflexivity|].
    split; [exact Hto1|]. split; [exact Hto2|].
    split; [exact Hsubject1|]. split; [exact Hitem2 | exact Hparent2].
  - destruct (proj1 (admin_copy_follows_recipient ADMIN_UNSET accepting
                       ReservationCreated RESERVATION
                       ltac:(discriminate)
                       ltac:(vm_compute; reflexivity)
                       ltac:(vm_compute; reflexivity))
                ltac:(vm_compute; reflexivity))
      as (m1 & Hto1 & _ & _ & _ & Hunset).
    exists m1. split; [apply Hunset; left; reflexivity | exact Hto1].
Defined.

(** A reservation whose parent address is an object with a [toString]
    member, with the administrator address configured: the first call is
    delivered and stays the only one. *)
Lemma one_call_for_object_address :
  truthy (prop RESERVATION_OBJECT_EMAIL "parentEmail") = true /\
  truthy (prop RESERVATION_OBJECT_EMAIL "itemName") = true /\
  ADMIN_EMAIL ADMIN_SET = Some (js "desk@bethesda.example") /\
  exists m1,
    run (handler ADMIN_SET accepting ReservationCreated
           RESERVATION_OBJECT_EMAIL) = (Normal SEND_FAILED, [m1]) /\
    delivered (accepting [] m1) = true.
Proof.
  split; [by vm_compute|]. split; [by vm_compute|]. split; [reflexivity|].
  eexists. split; [vm_compute; reflexivity | reflexivity].
Qed.

(** Two waitlist requests that differ in [preferredDay] and [note] only. *)
Lemma handlers_read_declared_fields_only_witness :
  RESERVATION <> RESERVATION_OTHER_EXTRAS /\
  run (handler ADMIN_SET accepting WaitlistCreated RESERVATION) =
  run (handler ADMIN_SET accepting WaitlistCreated RESERVATION_OTHER_EXTRAS).
Proof.
  split.
  - intros Heq.
    assert (Hnote : RESERVATION !! "note"%string =
                    RESERVATION_OTHER_EXTRAS !! "note"%string)
      by (rewrite Heq; reflexivity).
    vm_compute in Hnote. discriminate.
  - apply (handlers_read_declared_fields_only ADMIN_SET accepting
             WaitlistCreated RESERVATION RESERVATION_OTHER_EXTRAS).
    intros key Hkey. simpl in Hkey.
    destruct Hkey as [<- | [<- | [<- | [<- | []]]]]; vm_compute; reflexivity.
Defined.
(* ===================================================================== *)
(** * Further properties of the handlers                                  *)
(* ===================================================================== *)

Section Handlers.
Context {number : Type} `{NumOps : JsNumber number}.
Variable env : Env.
Variable resend : list (Email number) -> Email number -> Reply.

(** Every call of a run was built by [sendEmail], for the parent or, on the
    creation endpoints, for the administrator. *)
Lemma handler_calls e (body : gmap string (Value number)) m :
  In m (snd (run (handler env resend e body))) ->
  exists to_ subject_ html_,
    m = outgoing env to_ subject_ html_ /\
    (to_ = prop body "parentEmail" \/
     e <> StatusUpdated /\
     exists admin,
       ADMIN_EMAIL env = Some admin /\ admin <> [] /\ to_ = JStr admin).
Proof.
  destruct (handler_shape env resend e body)
    as [(_ & ->) | (_ & [(_ & _ & ->) | (_ & [(_ & ->) |
         (_ & subject1 & html1 & subject2 & html2 & ->)])])];
    [intros [] | intros [] | intros [] |].
  rewrite sends_in_turn_calls.
  assert (Hfirst : forall m',
            m' = outgoing env (prop body "parentEmail") subject1 html1 ->
            exists to_ subject_ html_,
              m' = outgoing env to_ subject_ html_ /\
              (to_ = prop body "parentEmail" \/
               e <> StatusUpdated /\
               exists admin,
                 ADMIN_EMAIL env = Some admin /\ admin <> [] /\
                 to_ = JStr admin))
    by (intros m' ->; eexists _, _, _; split; [reflexivity | by left]).
  destruct (delivered _); [|by intros [<- | []]; apply Hfirst].
  intros [<- | Hm]; [by apply Hfirst|].
  destruct e; [| |by destruct Hm].
  all: unfold admin_copy in Hm;
    destruct (ADMIN_EMAIL env) as [[|c admin]|] eqn:Hadmin;
    try (by destruct Hm);
    destruct (converts (prop body "parentEmail")); try (by destruct Hm);
    destruct Hm as [<- | []];
    eexists _, _, _; split; [reflexivity|]; right; split; [done|];
    by exists (c :: admin).
Qed.

(** What [sends_in_turn] answers: 200 when every email due was handed over
    and delivered; 500 when an attempt failed, or when the copy could not be
    rendered. *)
Lemma sends_in_turn_response first second :
  (fst (sends_in_turn resend first second) = Normal OK /\
   ~ attempt_failed resend (snd (sends_in_turn resend first second)) /\
   snd (sends_in_turn resend first second) = first :: calls_of second /\
   second <> Unrendered) \/
  (fst (sends_in_turn resend first second) = Normal SEND_FAILED /\
   (attempt_failed resend (snd (sends_in_turn resend first second)) \/
    second = Unrendered /\
    snd (sends_in_turn resend first second) = [first])).
Proof.
  unfold sends_in_turn.
  destruct (delivered (resend [] first)) eqn:Hfirst; cycle 1.
  { right. split; [done|]. left. by exists [], first, []. }
  destruct second as [| |m2]; cbn [fst snd calls_of].
  - left. split; [done|]. split; [|done].
    intros (before & m & after & Hcalls & Hfailed).
    destruct before as [|b1 before]; simplify_eq/=; try congruence.
    by destruct before.
  - right. split; [done|]. by right.
  - destruct (delivered (resend [first] m2)) eqn:Hsecond.
    + left. split; [done|]. split; [|done].
      intros (before & m & after & Hcalls & Hfailed).
      destruct before as [|b1 [|b2 before]]; simplify_eq/=; try congruence.
      by destruct before.
    + right. split; [done|]. left. by exists [first], m2, [].
Qed.

(** X1.  Every email a handler hands to the provider has the sender
    address of the configuration: [RESEND_FROM] when it is set and not
    empty, the library's no-reply address otherwise. *)
Theorem calls_from_configured_sender e (body : gmap string (Value number)) m :
  In m (snd (run (handler env resend e body))) ->
  (forall sender,
     RESEND_FROM env = Some sender -> sender <> [] -> from m = JStr sender) /\
  (RESEND_FROM env = None \/ RESEND_FROM env = Some [] ->
   from m = JStr DEFAULT_FROM).
Proof.
  intros (to_ & subject_ & html_ & -> & _)%handler_calls.
  unfold outgoing; cbn [from]. split.
  - intros sender -> Hne. by destruct sender.
  - by intros [-> | ->].
Qed.

(** X2.  A handler writes to two addresses at most: every email goes to
    the request's [parentEmail] or, on the two creation endpoints, to the
    configured [ADMIN_EMAIL]; the first email of a request is the
    parent's. *)
Theorem calls_go_to_parent_or_admin e (body : gmap string (Value number)) :
  (forall m,
     In m (snd (run (handler env resend e body))) ->
     to m = prop body "parentEmail" \/
     e <> StatusUpdated /\
     exists admin,
       ADMIN_EMAIL env = Some admin /\ admin <> [] /\ to m = JStr admin) /\
  (forall m,
     head (snd (run (handler env resend e body))) = Some m ->
     to m = prop body "parentEmail").
Proof.
  split.
  - intros m (to_ & subject_ & html_ & -> & Hto)%handler_calls.
    by unfold outgoing; cbn [to].
  - intros m.
    destruct (handler_shape env resend e body)
      as [(_ & ->) | (_ & [(_ & _ & ->) | (_ & [(_ & ->) |
           (_ & subject1 & html1 & subject2 & html2 & ->)])])];
      [done | done | done |].
    rewrite sends_in_turn_calls.
    by destruct (delivered _); intros [= <-].
Qed.

(** X3.  A request costs two provider calls at most, one at most on a
    status update or without an administrator address, and none when it is
    answered 400 or suppressed. *)
Theorem at_most_two_calls e (body : gmap string (Value number)) :
  (length (snd (run (handler env resend e body))) <= 2)%nat /\
  (e = StatusUpdated \/ ADMIN_EMAIL env = None \/ ADMIN_EMAIL env = Some [] ->
   (length (snd (run (handler env resend e body))) <= 1)%nat) /\
  (fst (run (handler env resend e body)) = Normal MISSING_FIELDS \/
   fst (run (handler env resend e body)) = Normal SKIPPED ->
   snd (run (handler env resend e body)) = []).
Proof.
  destruct (handler_shape env resend e body)
    as [(_ & ->) | (_ & [(_ & _ & ->) | (_ & [(_ & ->) |
         (_ & subject1 & html1 & subject2 & html2 & ->)])])];
    [cbn; split; [lia | split; [intros; lia | done]] ..|].
  destruct (sends_in_turn_response
              (outgoing env (prop body "parentEmail") subject1 html1)
              (match e with
               | StatusUpdated => NoCopy
               | _ => admin_copy env (prop body "parentEmail") subject2 html2
               end)) as [(Hok & _) | (Hfailed & _)].
  all: rewrite sends_in_turn_calls.
  all: split; [|split].
  all: try (rewrite ?Hok, ?Hfailed; by intros [? | ?]).
  all: try (destruct (delivered _); [|cbn; lia];
            destruct e;
            try destruct (admin_copy env (prop body "parentEmail")
                            subject2 html2);
            cbn; lia).
  all: intros [-> | Hunset]; destruct (delivered _); cbn; try lia.
  all: destruct e; try (cbn; lia).
  all: by rewrite (admin_copy_unset env).
Qed.

(** X4.  No retry and no further email after a failure: a send attempt the
    provider did not deliver is the last call of its request. *)
Theorem no_call_after_failure
    e (body : gmap string (Value number)) before m after :
  snd (run (handler env resend e body)) = before ++ m :: after ->
  delivered (resend before m) = false ->
  after = [].
Proof.
  destruct (handler_shape env resend e body)
    as [(_ & ->) | (_ & [(_ & _ & ->) | (_ & [(_ & ->) |
         (_ & subject1 & html1 & subject2 & html2 & ->)])])].
  - by destruct before.
  - by destruct before.
  - by destruct before.
  - rewrite sends_in_turn_calls.
    destruct (delivered (resend [] _)) eqn:Hfirst.
    + destruct (match e with
                | StatusUpdated => NoCopy
                | _ => admin_copy env (prop body "parentEmail") subject2 html2
                end) as [| |m2]; cbn [calls_of].
      * destruct before as [|b1 before]; intros; simplify_eq/=; try done.
        by destruct before.
      * destruct before as [|b1 before]; intros; simplify_eq/=; try done.
        by destruct before.
      * destruct before as [|b1 [|b2 before]]; intros; simplify_eq/=;
          try congruence; try done.
        by destruct before.
    + destruct before as [|b1 before]; intros; simplify_eq/=; try done.
      by destruct before.
Qed.

(** X5.  The answer is 400 [{ error: "Missing required fields" }] exactly
    when one of the endpoint's required fields is falsy (not there, null,
    false, a falsy number or the empty string). *)
Theorem rejected_iff_required_falsy e (body : gmap string (Value number)) :
  fst (run (handler env resend e body)) = Normal MISSING_FIELDS <->
  Exists (fun key => truthy (prop body key) = false) (required_fields e).
Proof.
  split.
  - destruct (handler_shape env resend e body)
      as [(Hfalsy & _) | (_ & [(_ & _ & ->) | (_ & [(_ & ->) |
           (_ & subject1 & html1 & subject2 & html2 & ->)])])];
      [done | by intros [=] | by intros [=] |].
    by destruct (sends_in_turn_response
                   (outgoing env (prop body "parentEmail") subject1 html1)
                   (match e with
                    | StatusUpdated => NoCopy
                    | _ => admin_copy env (prop body "parentEmail")
                             subject2 html2
                    end)) as [(-> & _) | (-> & _)]; intros [=].
  - intros (key & Hkey%list_elem_of_In & Hfalsy)%Exists_exists.
    by rewrite (handler_invalid env resend e body key).
Qed.

(** The emails due, along the ways a request can go. *)
Lemma due_invalid e (body : gmap string (Value number)) :
  Exists (fun key => truthy (prop body key) = false) (required_fields e) ->
  due env e body = 0%nat.
Proof.
  intros (key & Hkey & Hfalsy)%Exists_exists. unfold due.
  destruct (forallb _ (required_fields e)) eqn:Hall; [|done].
  rewrite forallb_forall in Hall.
  rewrite (Hall key) in Hfalsy; [done|]. by apply list_elem_of_In.
Qed.

Lemma due_valid e (body : gmap string (Value number)) :
  Forall (fun key => truthy (prop body key) = true) (required_fields e) ->
  due env e body =
  match e with
  | StatusUpdated =>
      if strict_eq_str (prop body "newStatus") (js "On Loan") then 0 else 1
  | _ => if truthy (env_value (number := number) (ADMIN_EMAIL env))
         then 2 else 1
  end%nat.
Proof.
  intros Hvalid. unfold due.
  assert (Hall : forallb (fun key => truthy (prop body key))
                   (required_fields e) = true).
  { apply forallb_forall. intros key Hkey%list_elem_of_In.
    rewrite Forall_forall in Hvalid. by apply Hvalid. }
  by rewrite Hall.
Qed.

(** The email to the parent is due as soon as the request is past
    validation and the suppression rule. *)
Lemma due_first e (body : gmap string (Value number)) :
  Forall (fun key => truthy (prop body key) = true) (required_fields e) ->
  (e = StatusUpdated -> prop body "newStatus" <> JStr (js "On Loan")) ->
  (1 <= due env e body)%nat.
Proof.
  intros Hvalid Hloan. rewrite (due_valid e body Hvalid). destruct e.
  - destruct (truthy _); lia.
  - destruct (truthy _); lia.
  - specialize (Hloan eq_refl). apply strict_eq_str_false in Hloan.
    rewrite Hloan. lia.
Qed.

(** With the parent's email sent, what is due is that email and the copy. *)
Lemma due_sent e (body : gmap string (Value number)) subject2 html2 :
  Forall (fun key => truthy (prop body key) = true) (required_fields e) ->
  (e = StatusUpdated -> prop body "newStatus" <> JStr (js "On Loan")) ->
  due env e body =
  match (match e with
         | StatusUpdated => NoCopy
         | _ => admin_copy env (prop body "parentEmail") subject2 html2
         end) with
  | NoCopy => 1
  | _ => 2
  end%nat.
Proof.
  intros Hvalid Hloan. rewrite (due_valid e body Hvalid). destruct e.
  - unfold admin_copy. destruct (truthy _); [|done].
    by destruct (converts _).
  - unfold admin_copy. destruct (truthy _); [|done].
    by destruct (converts _).
  - specialize (Hloan eq_refl). apply strict_eq_str_false in Hloan.
    by rewrite Hloan.
Qed.

Lemma unrendered_field e (body : gmap string (Value number)) :
  renders e body = false ->
  Exists (fun key => converts (prop body key) = false)
    (interpolated_fields e body).
Proof.
  unfold renders. generalize (interpolated_fields e body) as fields.
  induction fields as [|key fields IH]; [done|]. cbn [forallb].
  destruct (converts (prop body key)) eqn:Hkey.
  - intros Hrest. apply Exists_cons_tl. by apply IH.
  - intros _. by apply Exists_cons_hd.
Qed.

(** X6.  The answer is 500 [{ error: "Failed to send email" }] exactly
    when a send attempt of the request was not delivered, or when an email
    that was due was not handed to the provider because one of the fields
    it interpolates does not convert to a string.  Nothing else makes a
    handler fail. *)
Theorem failed_iff_attempt_failed e (body : gmap string (Value number)) :
  fst (run (handler env resend e body)) = Normal SEND_FAILED <->
  attempt_failed resend (snd (run (handler env resend e body))) \/
  (length (snd (run (handler env resend e body))) < due env e body)%nat /\
  Exists (fun key => converts (prop body key) = false)
    (fields_of_call e body (length (snd (run (handler env resend e body))))).
Proof.
  destruct (handler_shape env resend e body)
    as [(Hinvalid & ->) | (Hvalid & [(-> & Hloan & ->) | (Hloan & [(Hrenders & ->) |
         (_ & subject1 & html1 & subject2 & html2 & ->)])])];
    cbn [fst snd length].
  - rewrite (due_invalid e body Hinvalid).
    split; [by intros [=] | intros [[]%attempt_failed_nil | [? _]]; lia].
  - rewrite (due_valid StatusUpdated body Hvalid), Hloan.
    split; [by intros [=] | intros [[]%attempt_failed_nil | [Hlt _]]].
    vm_compute in Hlt. lia.
  - split; [|done]. intros _. right.
    split; [by apply due_first | by apply unrendered_field].
  - rewrite (due_sent e body subject2 html2 Hvalid Hloan).
    destruct (sends_in_turn_response
                (outgoing env (prop body "parentEmail") subject1 html1)
                (match e with
                 | StatusUpdated => NoCopy
                 | _ => admin_copy env (prop body "parentEmail")
                          subject2 html2
                 end))
      as [(-> & Hnone & Hcalls & Hrendered) | (-> & [Hfailed | [Hcopy ->]])].
    + split; [by intros [=]|]. intros [? | [Hlt _]]; [done|].
      rewrite Hcalls in Hlt.
      destruct (match e with
                | StatusUpdated => NoCopy
                | _ => admin_copy env (prop body "parentEmail")
                         subject2 html2
                end); cbn in Hlt; try lia. by destruct Hrendered.
    + split; [|done]. by left.
    + split; [|done]. intros _. right. rewrite Hcopy. cbn.
      split; [lia|]. apply Exists_cons_hd.
      destruct e; [| |done]; unfold admin_copy in Hcopy;
        destruct (truthy _); try done;
        by destruct (converts (prop body "parentEmail")).
Qed.

(** X7.  The answer is 200 [{ skipped: true }] exactly on a status update
    whose three required fields are truthy and whose [newStatus] is the
    string "On Loan"; no other endpoint and no other status is
    suppressed. *)
Theorem skipped_iff_on_loan e (body : gmap string (Value number)) :
  fst (run (handler env resend e body)) = Normal SKIPPED <->
  e = StatusUpdated /\
  Forall (fun key => truthy (prop body key) = true) (required_fields e) /\
  prop body "newStatus" = JStr (js "On Loan").
Proof.
  split.
  - destruct (handler_shape env resend e body)
      as [(_ & ->) | (Hvalid & [(-> & Hloan & _) | (_ & [(_ & ->) |
           (_ & subject1 & html1 & subject2 & html2 & ->)])])];
      [by intros [=] | done | by intros [=] |].
    by destruct (sends_in_turn_response
                   (outgoing env (prop body "parentEmail") subject1 html1)
                   (match e with
                    | StatusUpdated => NoCopy
                    | _ => admin_copy env (prop body "parentEmail")
                             subject2 html2
                    end)) as [(-> & _) | (-> & _)]; intros [=].
  - intros (-> & Hvalid & Hloan). simpl handler.
    inversion Hvalid as [|? ? Hemail Hrest]; subst.
    inversion Hrest as [|? ? Hitem _]; subst.
    by rewrite (status_updated_on_loan env resend body).
Qed.

(** X8.  The answer is 200 [{ ok: true }] exactly when the request made at
    least one send attempt, every attempt was delivered, and every email
    that was due was handed to the provider. *)
Theorem ok_iff_all_delivered e (body : gmap string (Value number)) :
  fst (run (handler env resend e body)) = Normal OK <->
  snd (run (handler env resend e body)) <> [] /\
  ~ attempt_failed resend (snd (run (handler env resend e body))) /\
  length (snd (run (handler env resend e body))) = due env e body.
Proof.
  destruct (handler_shape env resend e body)
    as [(_ & ->) | (Hvalid & [(_ & _ & ->) | (Hloan & [(_ & ->) |
         (_ & subject1 & html1 & subject2 & html2 & ->)])])].
  - split; [by intros [=] | by intros []].
  - split; [by intros [=] | by intros []].
  - split; [by intros [=] | by intros []].
  - rewrite (due_sent e body subject2 html2 Hvalid Hloan).
    destruct (sends_in_turn_response
                (outgoing env (prop body "parentEmail") subject1 html1)
                (match e with
                 | StatusUpdated => NoCopy
                 | _ => admin_copy env (prop body "parentEmail")
                          subject2 html2
                 end))
      as [(-> & Hnone & Hcalls & Hrendered) | (-> & [Hfailed | [Hcopy Hcalls]])].
    + split; [|done]. intros _. rewrite Hcalls in *.
      split; [done|]. split; [done|].
      by destruct (match e with
                   | StatusUpdated => NoCopy
                   | _ => admin_copy env (prop body "parentEmail")
                            subject2 html2
                   end).
    + split; [by intros [=] | by intros (_ & [] & _)].
    + split; [by intros [=]|]. intros (_ & _ & Hlength).
      rewrite Hcalls, Hcopy in Hlength. by cbn in Hlength.
Qed.

End Handlers.
(* ===================================================================== *)
(** * Requests in sequence                                                *)
(* ===================================================================== *)

Section Stateless.
Context {number : Type} `{NumOps : JsNumber number}.
Variable env : Env.

Lemma stateless_ret {A : Type} (a : A) :
  stateless (number := number) (fun _ => ret a).
Proof. by intros resend earlier calls. Qed.

Lemma stateless_bind {A B : Type}
    (m : (list (Email number) -> Email number -> Reply) -> Async A)
    (k : (list (Email number) -> Email number -> Reply) -> A -> Async B) :
  stateless m -> (forall a, stateless (fun resend => k resend a)) ->
  stateless (fun resend => bind (m resend) (k resend)).
Proof.
  intros Hm Hk resend earlier calls. unfold bind, after_earlier.
  rewrite Hm. unfold after_earlier.
  destruct (m (resend_after earlier resend) calls) as [[a|thrown] calls'];
    cbn [fst snd]; [|done].
  by rewrite Hk.
Qed.

Lemma stateless_try_catch {A : Type}
    (m : (list (Email number) -> Email number -> Reply) -> Async A)
    (h : (list (Email number) -> Email number -> Reply) -> Thrown -> Async A) :
  stateless m -> (forall thrown, stateless (fun resend => h resend thrown)) ->
  stateless (fun resend => try_catch (m resend) (h resend)).
Proof.
  intros Hm Hh resend earlier calls. unfold try_catch, after_earlier.
  rewrite Hm. unfold after_earlier.
  destruct (m (resend_after earlier resend) calls) as [[a|thrown] calls'];
    cbn [fst snd]; [done|].
  by rewrite Hh.
Qed.

Lemma stateless_sendEmail to_ subject_ html_ :
  stateless (fun resend => sendEmail env resend to_ subject_ html_).
Proof.
  intros resend earlier calls.
  unfold sendEmail, bind, emails_send, resend_after, after_earlier.
  destruct (resend (earlier ++ calls) _) as [data [error|]|reason];
    cbn [fst snd throw ret]; by rewrite app_assoc.
Qed.

Lemma stateless_eval {A : Type} (r : Completion A) :
  stateless (number := number) (fun _ => eval r).
Proof. by destruct r; intros resend earlier calls. Qed.

Lemma stateless_if {A : Type} (b : bool)
    (m1 m2 : (list (Email number) -> Email number -> Reply) -> Async A) :
  stateless m1 -> stateless m2 ->
  stateless (fun resend => if b then m1 resend else m2 resend).
Proof. by destruct b. Qed.

Ltac stateless_steps :=
  repeat first
    [ apply stateless_ret
    | apply stateless_eval
    | apply stateless_sendEmail
    | apply stateless_try_catch; [|intros ?]
    | apply stateless_bind; [|intros ?]
    | apply stateless_if ].

Lemma handler_stateless e (body : gmap string (Value number)) :
  stateless (fun resend => handler env resend e body).
Proof.
  destruct e; cbv beta zeta delta [handler reservation_created
    waitlist_created status_updated]; cbv beta iota.
  - stateless_steps.
  - stateless_steps.
  - stateless_steps.
Qed.

(** X9.  A handler keeps no memory of earlier requests.  Started after any
    earlier calls it leaves them as they are, and makes the calls and gives
    the answer of a fresh start against the provider as it answers after
    them.  Nothing is deduplicated: with a provider whose answer depends on
    the email alone, handling the same request again makes the same calls
    again. *)
Theorem handler_keeps_no_memory e (body : gmap string (Value number)) :
  (forall resend earlier,
     handler env resend e body earlier =
     (fst (run (handler env (resend_after earlier resend) e body)),
      earlier ++ snd (run (handler env (resend_after earlier resend) e body))))
  /\
  (forall answer : Email number -> Reply,
     let resend := fun (_ : list (Email number)) m => answer m in
     let once := run (handler env resend e body) in
     handler env resend e body (snd once) = (fst once, snd once ++ snd once)).
Proof.
  assert (Hframe : forall resend earlier,
     handler env resend e body earlier =
     (fst (run (handler env (resend_after earlier resend) e body)),
      earlier ++ snd (run (handler env (resend_after earlier resend) e body)))).
  { intros resend earlier.
    pose proof (handler_stateless e body resend earlier []) as Hs.
    by rewrite app_nil_r in Hs. }
  split; [done|]. intros answer resend once. by rewrite Hframe.
Qed.

End Stateless.

(* ===================================================================== *)
(** * Falsy fields                                                        *)
(* ===================================================================== *)

Section FalsyFields.
Context {number : Type} `{NumOps : JsNumber number}.
Variable env : Env.
Variable resend : list (Email number) -> Email number -> Reply.

(** The field [field] is read alike in two bodies that differ in [key]
    only, when it is another field. *)
Ltac same_field Hother field :=
  rewrite ?(Hother field)
    by first [ discriminate | congruence ].

(** The field that differs is falsy on both sides: every test of it fails
    and the texts guarded by the tests go. *)
Ltac falsy_field H1 H2 :=
  unfold or_else; rewrite ?H1, ?H2;
  repeat match goal with
  | |- context [negb (truthy ?v)] => destruct (truthy v)
  end;
  cbv beta iota delta [negb orb]; reflexivity.

Ltac by_field Hother H1 H2 key fields :=
  lazymatch fields with
  | nil => reflexivity
  | cons ?field ?rest =>
      let Hne := fresh "Hne" in
      destruct (decide (key = field)) as [-> | Hne];
      [ same_field Hother "parentEmail"%string;
        same_field Hother "parentName"%string;
        same_field Hother "childName"%string;
        same_field Hother "itemName"%string;
        same_field Hother "newStatus"%string;
        same_field Hother "preferredDay"%string;
        same_field Hother "note"%string;
        falsy_field H1 H2
      | rewrite ?(Hother field) by congruence;
        by_field Hother H1 H2 key rest ]
  end.

(** X10.  A handler reads a falsy field through its truthiness only: two
    requests that differ in one field, falsy in both (not there, null,
    false, a falsy number, the empty string), make the same calls and get
    the same answer, on every endpoint and for every field, required or
    optional.  No "null" or "undefined" is written into an email. *)
Theorem falsy_values_are_alike
    e (body1 body2 : gmap string (Value number)) key :
  (forall other, other <> key -> body1 !! other = body2 !! other) ->
  truthy (prop body1 key) = false ->
  truthy (prop body2 key) = false ->
  run (handler env resend e body1) = run (handler env resend e body2).
Proof.
  intros Hagree H1 H2.
  assert (Hother : forall other,
            other <> key -> prop body1 other = prop body2 other)
    by (intros other Hne; unfold prop; by rewrite (Hagree other Hne)).
  clear Hagree.
  destruct e; unfold run, handler, reservation_created, waitlist_created,
    status_updated.
  - by_field Hother H1 H2 key
      ["parentEmail"; "parentName"; "childName"; "itemName";
       "preferredDay"; "note"]%string.
  - by_field Hother H1 H2 key
      ["parentEmail"; "parentName"; "childName"; "itemName"]%string.
  - by_field Hother H1 H2 key
      ["parentEmail"; "parentName"; "childName"; "itemName";
       "newStatus"; "preferredDay"]%string.
Qed.

End FalsyFields.
(* ===================================================================== *)
(** * What the emails say                                                 *)
(* ===================================================================== *)

(** A piece [l ++ t ++ r] around a supplied text [t], when [l] ends the
    fixed text [P] before [t] and [r] starts the fixed text [Q] after it. *)
Lemma occurs_in_framed (P l Q r t rest : JsString) :
  startsWith (rev P) (rev l) = true -> startsWith Q r = true ->
  occurs_in (l ++ t ++ r) (P ++ t ++ Q ++ rest).
Proof.
  intros (pre & ->)%ends_with_split (post & ->)%startsWith_prefix.
  rewrite <- (app_assoc r post rest). apply occurs_in_between.
Qed.

Lemma occurs_in_framed_end (P l Q r t : JsString) :
  startsWith (rev P) (rev l) = true -> startsWith Q r = true ->
  occurs_in (l ++ t ++ r) (P ++ t ++ Q).
Proof.
  intros (pre & ->)%ends_with_split (post & ->)%startsWith_prefix.
  apply occurs_in_between.
Qed.

Ltac find_around :=
  first
    [ apply occurs_in_framed; vm_compute; reflexivity
    | apply occurs_in_framed_end; vm_compute; reflexivity
    | apply occurs_in_app_r; find_around ].

(** A text starts with a piece that starts its first, fixed part. *)
Lemma startsWith_app (P rest x : JsString) :
  startsWith P x = true -> startsWith (P ++ rest) x = true.
Proof.
  intros (post & ->)%startsWith_prefix. apply startsWith_prefix.
  exists (post ++ rest). by rewrite <- app_assoc.
Qed.

(** *** [trim] at the ends *)

Lemma trimStart_fixed (x : JsString) :
  (forall c, head x = Some c -> is_white_space c = false) ->
  trimStart x = x.
Proof.
  destruct x as [|c x]; [done|]. intros Hhead. simpl.
  by rewrite (Hhead c).
Qed.

Lemma trimEnd_fixed (x : JsString) :
  (forall c, last x = Some c -> is_white_space c = false) ->
  trimEnd x = x.
Proof.
  intros Hlast. unfold trimEnd. rewrite trimStart_fixed.
  - apply rev_involutive.
  - intros c. rewrite head_rev. apply Hlast.
Qed.

Lemma trim_all_white (x : JsString) :
  Forall (fun c => is_white_space c = true) x -> trim x = [].
Proof.
  intros Hwhite. unfold trim.
  assert (Hstart : trimStart x = []).
  { induction Hwhite as [|c x Hc _ IH]; [done|]. simpl. by rewrite Hc. }
  by rewrite Hstart.
Qed.

Section Templates.
Context {number : Type} `{NumOps : JsNumber number}.
Variable env : Env.
Variable resend : list (Email number) -> Email number -> Reply.

(** The texts of the two emails of a valid reservation whose fields
    convert. *)
Lemma reservation_created_pieces (body : gmap string (Value number)) :
  truthy (prop body "parentEmail") = true ->
  truthy (prop body "itemName") = true ->
  renders ReservationCreated body = true ->
  exists content html2,
    run (reservation_created env resend body) =
    sends_in_turn resend
      (outgoing env (prop body "parentEmail")
         (js "Reservation received for `" ++
          text (prop body "itemName") ++ js "`")
         (renderBrandedEmail (js "Reservation Received") content false))
      (admin_copy env (prop body "parentEmail")
         (js "New reservation: `" ++
          text (prop body "itemName") ++ js "`")
         html2) /\
    (* the recipient's email *)
    occurs_in
      (js "<p>Hi " ++
       text (or_else (prop body "parentName") (JStr (js "there"))) ++
       js ",</p>")
      content /\
    occurs_in
      (js "We have received your reservation for
            <strong>" ++ text (prop body "itemName") ++ js "</strong>")
      content /\
    (truthy (prop body "childName") = true ->
     occurs_in (js "for " ++ text (prop body "childName")) content) /\
    (truthy (prop body "preferredDay") = true ->
     occurs_in
       (js "<p>" ++
        (js "Preferred pick-up day: <strong>" ++
         text (prop body "preferredDay") ++ js "</strong>.") ++
        js "</p>")
       content) /\
    (truthy (prop body "preferredDay") = false ->
     occurs_in
       (js "<p>" ++ js "We will contact you with pick-up details soon." ++
        js "</p>")
       content) /\
    occurs_in
      (js "We will send another email when this toy is
            <strong>ready for pickup</strong>.")
      content /\
    (* the admin copy *)
    (converts (prop body "parentEmail") = true ->
    startsWith html2 (js "
          <h3>New Reservation</h3>") = true /\
    occurs_in
      (js "<p><strong>Parent:</strong> " ++
       text (or_else (prop body "parentName") (JStr (js "N/A"))) ++
       js " (")
      html2 /\
    occurs_in
      (js " (" ++ text (prop body "parentEmail") ++ js ")</p>") html2 /\
    occurs_in
      (js "<p><strong>Child:</strong> " ++
       text (or_else (prop body "childName") (JStr (js "N/A"))) ++
       js "</p>")
      html2 /\
    occurs_in
      (js "<p><strong>Item:</strong> " ++
       text (prop body "itemName") ++ js "</p>")
      html2 /\
    occurs_in
      (js "<p><strong>Preferred pickup:</strong> " ++
       text (or_else (prop body "preferredDay") (JStr (js "N/A"))) ++
       js "</p>")
      html2).
Proof.
  intros Hemail Hitem
    (Hday & Hname & Hparent & Hchild & Hnote)%renders_reservation.
  enter_route. rewrite Hemail, Hitem. cbn [negb orb].
  converted Hday. converted Hname. converted Hparent. converted Hchild.
  converted Hnote.
  destruct (converts (prop body "parentEmail")) eqn:Hpe.
  - converted Hpe. render.
    match goal with
    | |- context [sendEmail _ _ _ _ (renderBrandedEmail _ ?c _) []] =>
        exists c
    end.
    match goal with
    | |- context [sendEmail _ _ (env_value _) _ ?h] => exists h
    end.
    split.
    { unfold sends_in_turn, admin_copy. rewrite Hpe.
      step_send; [|done]. cbn [app].
      destruct (truthy (env_value (ADMIN_EMAIL env))); [|done].
      by step_send. }
    repeat match goal with
           | |- _ /\ _ => split
           | |- true = true -> _ => intros _
           end.
    + find_around.
    + find_around.
    + intros ->. find_piece.
    + intros ->. cbv beta iota. find_around.
    + intros ->. cbv beta iota. find_around.
    + find_piece.
    + apply startsWith_app. vm_compute. reflexivity.
    + find_around.
    + find_around.
    + find_around.
    + find_around.
    + find_around.
  - unconverted Hpe.
    match goal with
    | |- context [sendEmail _ _ _ _ (renderBrandedEmail _ ?c _) []] =>
        exists c, []
    end.
    split.
    { unfold sends_in_turn, admin_copy. rewrite Hpe.
      step_send; [|done].
      by destruct (truthy (env_value (ADMIN_EMAIL env))). }
    split; [|split; [|split; [|split; [|split; [|split; [|done]]]]]].
    + find_around.
    + find_around.
    + intros ->. find_piece.
    + intros ->. cbv beta iota. find_around.
    + intros ->. cbv beta iota. find_around.
    + find_piece.
Qed.

(** The texts of the two emails of a valid waitlist request whose fields
    convert. *)
Lemma waitlist_created_pieces (body : gmap string (Value number)) :
  truthy (prop body "parentEmail") = true ->
  truthy (prop body "itemName") = true ->
  renders WaitlistCreated body = true ->
  exists content html2,
    run (waitlist_created env resend body) =
    sends_in_turn resend
      (outgoing env (prop body "parentEmail")
         (js "Waitlist request for `" ++
          text (prop body "itemName") ++ js "` received")
         (renderBrandedEmail (js "Waitlist Confirmation") content false))
      (admin_copy env (prop body "parentEmail")
         (js "New waitlist request: `" ++
          text (prop body "itemName") ++ js "`")
         html2) /\
    (* the recipient's email *)
    occurs_in
      (js "<p>Hi " ++
       text (or_else (prop body "parentName") (JStr (js "there"))) ++
       js ",</p>")
      content /\
    occurs_in
      (js "You have been added to the waitlist for
            <strong>" ++ text (prop body "itemName") ++ js "</strong>")
      content /\
    (truthy (prop body "childName") = true ->
     occurs_in (js "for " ++ text (prop body "childName")) content) /\
    occurs_in
      (js "We will contact you as soon as this toy becomes available.")
      content /\
    (* the admin copy *)
    (converts (prop body "parentEmail") = true ->
    startsWith html2 (js "
          <h3>New Waitlist Entry</h3>") = true /\
    occurs_in
      (js "<p><strong>Parent:</strong> " ++
       text (or_else (prop body "parentName") (JStr (js "N/A"))) ++
       js " (")
      html2 /\
    occurs_in
      (js " (" ++ text (prop body "parentEmail") ++ js ")</p>") html2 /\
    occurs_in
      (js "<p><strong>Child:</strong> " ++
       text (or_else (prop body "childName") (JStr (js "N/A"))) ++
       js "</p>")
      html2 /\
    occurs_in
      (js "<p><strong>Item:</strong> " ++
       text (prop body "itemName") ++ js "</p>")
      html2).
Proof.
  intros Hemail Hitem (Hname & Hparent & Hchild)%renders_waitlist.
  enter_route. rewrite Hemail, Hitem. cbn [negb orb].
  converted Hname. converted Hparent. converted Hchild.
  destruct (converts (prop body "parentEmail")) eqn:Hpe.
  - converted Hpe. render.
    match goal with
    | |- context [sendEmail _ _ _ _ (renderBrandedEmail _ ?c _) []] =>
        exists c
    end.
    match goal with
    | |- context [sendEmail _ _ (env_value _) _ ?h] => exists h
    end.
    split.
    { unfold sends_in_turn, admin_copy. rewrite Hpe.
      step_send; [|done]. cbn [app].
      destruct (truthy (env_value (ADMIN_EMAIL env))); [|done].
      by step_send. }
    repeat match goal with
           | |- _ /\ _ => split
           | |- true = true -> _ => intros _
           end.
    + find_around.
    + find_around.
    + intros ->. find_piece.
    + find_piece.
    + apply startsWith_app. vm_compute. reflexivity.
    + find_around.
    + find_around.
    + find_around.
    + find_around.
  - unconverted Hpe.
    match goal with
    | |- context [sendEmail _ _ _ _ (renderBrandedEmail _ ?c _) []] =>
        exists c, []
    end.
    split.
    { unfold sends_in_turn, admin_copy. rewrite Hpe.
      step_send; [|done].
      by destruct (truthy (env_value (ADMIN_EMAIL env))). }
    split; [|split; [|split; [|split; [|done]]]].
    + find_around.
    + find_around.
    + intros ->. find_piece.
    + find_piece.
Qed.

(** The greeting of the two branded status emails. *)
Lemma status_updated_ready_greeting (body : gmap string (Value number)) :
  truthy (prop body "parentEmail") = true ->
  truthy (prop body "itemName") = true ->
  prop body "newStatus" = JStr (js "Ready for Pickup") ->
  renders StatusUpdated body = true ->
  exists subject_ content,
    run (status_updated env resend body) =
    sends_in_turn resend
      (outgoing env (prop body "parentEmail") subject_
         (renderBrandedEmail (js "Your Toy is Ready for Pickup") content true))
      NoCopy /\
    occurs_in
      (js "<p>Hi " ++
       text (or_else (prop body "parentName") (JStr (js "there"))) ++
       js ",</p>")
      content.
Proof.
  intros Hemail Hitem Hstatus Hrenders.
  apply (renders_ready body Hstatus) in Hrenders
    as (Hname & Hparent & Hchild & Hday).
  enter_route. rewrite Hemail, Hitem, Hstatus. settle_literals.
  cbn [negb orb].
  converted Hname. converted Hparent. converted Hchild. converted Hday.
  render. cbn [fst snd].
  match goal with
  | |- context [sendEmail _ _ _ ?s (renderBrandedEmail _ ?c _) []] =>
      exists s, c
  end.
  split; [unfold sends_in_turn; by step_send | find_around].
Qed.

Lemma status_updated_returned_greeting (body : gmap string (Value number)) :
  truthy (prop body "parentEmail") = true ->
  truthy (prop body "itemName") = true ->
  prop body "newStatus" = JStr (js "Returned") ->
  renders StatusUpdated body = true ->
  exists subject_ content,
    run (status_updated env resend body) =
    sends_in_turn resend
      (outgoing env (prop body "parentEmail") subject_
         (renderBrandedEmail (js "Thank You") content false))
      NoCopy /\
    occurs_in
      (js "<p>Hi " ++
       text (or_else (prop body "parentName") (JStr (js "there"))) ++
       js ",</p>")
      content.
Proof.
  intros Hemail Hitem Hstatus Hrenders.
  apply (renders_returned body Hstatus) in Hrenders
    as (Hname & Hparent).
  enter_route. rewrite Hemail, Hitem, Hstatus. settle_literals.
  cbn [negb orb].
  converted Hname. converted Hparent. render. cbn [fst snd].
  match goal with
  | |- context [sendEmail _ _ _ ?s (renderBrandedEmail _ ?c _) []] =>
      exists s, c
  end.
  split; [unfold sends_in_turn; by step_send | find_around].
Qed.

(** A request that made a call passed validation, and the fields of its
    first email converted. *)
Lemma calls_made_valid e (body : gmap string (Value number)) :
  snd (run (handler env resend e body)) <> [] ->
  truthy (prop body "parentEmail") = true /\
  truthy (prop body "itemName") = true /\
  renders e body = true /\
  (e = StatusUpdated ->
   truthy (prop body "newStatus") = true /\
   prop body "newStatus" <> JStr (js "On Loan")).
Proof.
  destruct (handler_shape env resend e body)
    as [(_ & ->) | (Hvalid & [(_ & _ & ->) | (Hloan & [(_ & ->) |
         (Hrenders & _)])])];
    [done | done | done |].
  intros _.
  assert (Hrequired : forall key,
            In key (required_fields e) -> truthy (prop body key) = true)
    by (intros key Hkey; rewrite Forall_forall in Hvalid;
        by apply Hvalid, list_elem_of_In).
  split; [apply Hrequired; destruct e; simpl; auto|].
  split; [apply Hrequired; destruct e; simpl; auto|].
  split; [done|].
  intros ->. split; [apply Hrequired; simpl; auto | auto].
Qed.

Lemma head_sends_in_turn first second m :
  head (snd (sends_in_turn resend first second)) = Some m -> m = first.
Proof.
  rewrite sends_in_turn_calls. by destruct (delivered _); intros [= <-].
Qed.

(** X11.  Every branded email greets the parent by [parentName], and says
    "Hi there," when the name is falsy (not given, empty, null). *)
Theorem greeting_names_parent e (body : gmap string (Value number)) m :
  head (snd (run (handler env resend e body))) = Some m ->
  html m <> [] ->
  converts (prop body "parentName") = true /\
  occurs_in
    (js "<p>Hi " ++
     text (or_else (prop body "parentName") (JStr (js "there"))) ++
     js ",</p>")
    (html m) /\
  (truthy (prop body "parentName") = false ->
   occurs_in (js "<p>Hi there,</p>") (html m)).
Proof.
  intros Hhead Hhtml.
  assert (Hgreeting :
    converts (prop body "parentName") = true /\
    occurs_in
      (js "<p>Hi " ++
       text (or_else (prop body "parentName") (JStr (js "there"))) ++
       js ",</p>")
      (html m)).
  { destruct (calls_made_valid e body)
      as (Hemail & Hitem & Hrenders & Hstatus).
    { intros Hnil. by rewrite Hnil in Hhead. }
    destruct e; simpl handler in Hhead.
    - destruct (reservation_created_pieces body Hemail Hitem Hrenders)
        as (content & html2 & Hrun & Hhi & _).
      rewrite Hrun in Hhead. apply head_sends_in_turn in Hhead as ->.
      split; [by apply renders_reservation in Hrenders as (_ & _ & ? & _)|].
      eapply occurs_in_trans; [exact Hhi|].
      apply renderBrandedEmail_content.
    - destruct (waitlist_created_pieces body Hemail Hitem Hrenders)
        as (content & html2 & Hrun & Hhi & _).
      rewrite Hrun in Hhead. apply head_sends_in_turn in Hhead as ->.
      split; [by apply renders_waitlist in Hrenders as (_ & ? & _)|].
      eapply occurs_in_trans; [exact Hhi|].
      apply renderBrandedEmail_content.
    - destruct Hstatus as [Hstatus Hloan]; [done|].
      destruct (strict_eq_str (prop body "newStatus") (js "Ready for Pickup"))
        eqn:Hready.
      { apply strict_eq_str_true in Hready.
        destruct (status_updated_ready_greeting body Hemail Hitem Hready
                    Hrenders)
          as (subject_ & content & Hrun & Hhi).
        rewrite Hrun in Hhead. apply head_sends_in_turn in Hhead as ->.
        split; [by apply (renders_ready body Hready) in Hrenders
                  as (_ & ? & _)|].
        eapply occurs_in_trans; [exact Hhi|].
        apply renderBrandedEmail_content. }
      destruct (strict_eq_str (prop body "newStatus") (js "Returned"))
        eqn:Hreturned.
      { apply strict_eq_str_true in Hreturned.
        destruct (status_updated_returned_greeting body Hemail Hitem Hreturned
                    Hrenders)
          as (subject_ & content & Hrun & Hhi).
        rewrite Hrun in Hhead. apply head_sends_in_turn in Hhead as ->.
        split; [by apply (renders_returned body Hreturned) in Hrenders
                  as (_ & ?)|].
        eapply occurs_in_trans; [exact Hhi|].
        apply renderBrandedEmail_content. }
      apply strict_eq_str_false in Hready, Hreturned.
      rewrite (renders_other body) in Hrenders by done.
      rewrite (status_updated_other env resend body) in Hhead by done.
      apply head_sends_in_turn in Hhead as ->. by destruct Hhtml. }
  destruct Hgreeting as [Hparent Hgreeting].
  split; [done|]. split; [done|]. intros Hfalsy. unfold or_else in Hgreeting.
  rewrite Hfalsy in Hgreeting. eapply occurs_in_trans; [|exact Hgreeting].
  apply includes_occurs_in. vm_compute. reflexivity.
Qed.

Lemma second_call_admin first parentEmail subject_ html_ m1 m2 :
  snd (sends_in_turn resend first
         (admin_copy env parentEmail subject_ html_)) = [m1; m2] ->
  m2 = outgoing env (env_value (ADMIN_EMAIL env)) subject_ html_ /\
  converts parentEmail = true.
Proof.
  rewrite sends_in_turn_calls. unfold admin_copy.
  destruct (delivered _); [|done].
  destruct (truthy (env_value (ADMIN_EMAIL env))); [|done].
  destruct (converts parentEmail); [|done].
  by intros [= _ <-].
Qed.

(** X12.  The reservation confirmation: to the parent, subject
    [Reservation received for "<itemName>"], the wrapper with the title
    "Reservation Received"; it names the item, and the child when one is
    given; it states the preferred pick-up day when one is given and
    otherwise promises to get in touch; it always announces the later
    "ready for pickup" email. *)
Theorem reservation_confirmation_text (body : gmap string (Value number)) m :
  head (snd (run (reservation_created env resend body))) = Some m ->
  to m = prop body "parentEmail" /\
  subject m =
    js "Reservation received for `" ++ text (prop body "itemName") ++
    js "`" /\
  occurs_in
    (js "<h2 style=`color:#003366;`>" ++ js "Reservation Received" ++
     js "</h2>")
    (html m) /\
  occurs_in
    (js "We have received your reservation for
            <strong>" ++ text (prop body "itemName") ++ js "</strong>")
    (html m) /\
  (truthy (prop body "childName") = true ->
   occurs_in (js "for " ++ text (prop body "childName")) (html m)) /\
  (truthy (prop body "preferredDay") = true ->
   occurs_in
     (js "<p>" ++
      (js "Preferred pick-up day: <strong>" ++
       text (prop body "preferredDay") ++ js "</strong>.") ++
      js "</p>")
     (html m)) /\
  (truthy (prop body "preferredDay") = false ->
   occurs_in
     (js "<p>" ++ js "We will contact you with pick-up details soon." ++
      js "</p>")
     (html m)) /\
  occurs_in
    (js "We will send another email when this toy is
            <strong>ready for pickup</strong>.")
    (html m) /\
  renders ReservationCreated body = true.
Proof.
  intros Hhead.
  destruct (calls_made_valid ReservationCreated body)
    as (Hemail & Hitem & Hrenders & _).
  { intros Hnil. simpl handler in Hnil. by rewrite Hnil in Hhead. }
  destruct (reservation_created_pieces body Hemail Hitem Hrenders)
    as (content & html2 & Hrun & _ & Hname & Hchild & Hday & Hnoday & Hlater
        & _).
  rewrite Hrun in Hhead. apply head_sends_in_turn in Hhead as ->.
  unfold outgoing; cbn [to subject html].
  assert (Hin : forall piece,
            occurs_in piece content ->
            occurs_in piece
              (renderBrandedEmail (js "Reservation Received") content false))
    by (intros piece Hp; eapply occurs_in_trans;
        [exact Hp | apply renderBrandedEmail_content]).
  split; [done|]. split; [done|].
  split; [apply renderBrandedEmail_title|].
  split; [by apply Hin|]. split; [by intros; apply Hin, Hchild|].
  split; [by intros; apply Hin, Hday|].
  split; [by intros; apply Hin, Hnoday|]. split; [by apply Hin | done].
Qed.

(** X13.  The admin copy of a reservation: to [ADMIN_EMAIL], subject
    [New reservation: "<itemName>"]; its html is the plain summary, which
    starts with its heading instead of the branded wrapper, and lists the
    parent's name and address, the child, the item and the preferred pickup
    day, with "N/A" for a falsy name, child or day. *)
Theorem reservation_admin_summary (body : gmap string (Value number)) m1 m2 :
  snd (run (reservation_created env resend body)) = [m1; m2] ->
  to m2 = env_value (ADMIN_EMAIL env) /\
  subject m2 =
    js "New reservation: `" ++ text (prop body "itemName") ++ js "`" /\
  startsWith (html m2) (js "
          <h3>New Reservation</h3>") = true /\
  occurs_in
    (js "<p><strong>Parent:</strong> " ++
     text (or_else (prop body "parentName") (JStr (js "N/A"))) ++
     js " (")
    (html m2) /\
  occurs_in
    (js " (" ++ text (prop body "parentEmail") ++ js ")</p>")
    (html m2) /\
  occurs_in
    (js "<p><strong>Child:</strong> " ++
     text (or_else (prop body "childName") (JStr (js "N/A"))) ++
     js "</p>")
    (html m2) /\
  occurs_in
    (js "<p><strong>Item:</strong> " ++
     text (prop body "itemName") ++ js "</p>")
    (html m2) /\
  occurs_in
    (js "<p><strong>Preferred pickup:</strong> " ++
     text (or_else (prop body "preferredDay") (JStr (js "N/A"))) ++
     js "</p>")
    (html m2) /\
  renders ReservationCreated body = true /\
  converts (prop body "parentEmail") = true.
Proof.
  intros Hcalls.
  destruct (calls_made_valid ReservationCreated body)
    as (Hemail & Hitem & Hrenders & _).
  { simpl handler. by rewrite Hcalls. }
  destruct (reservation_created_pieces body Hemail Hitem Hrenders)
    as (content & html2 & Hrun & _ & _ & _ & _ & _ & _ & Hadmin).
  rewrite Hrun in Hcalls. apply second_call_admin in Hcalls as [-> Hpe].
  specialize (Hadmin Hpe). unfold outgoing; cbn [to subject html].
  repeat (split; [tauto|]). done.
Qed.

(** X14.  The waitlist confirmation: to the parent, subject
    [Waitlist request for "<itemName>" received], the wrapper with the
    title "Waitlist Confirmation"; it names the item, and the child when
    one is given, and promises to get in touch when the toy is
    available. *)
Theorem waitlist_confirmation_text (body : gmap string (Value number)) m :
  head (snd (run (waitlist_created env resend body))) = Some m ->
  to m = prop body "parentEmail" /\
  subject m =
    js "Waitlist request for `" ++ text (prop body "itemName") ++
    js "` received" /\
  occurs_in
    (js "<h2 style=`color:#003366;`>" ++ js "Waitlist Confirmation" ++
     js "</h2>")
    (html m) /\
  occurs_in
    (js "You have been added to the waitlist for
            <strong>" ++ text (prop body "itemName") ++ js "</strong>")
    (html m) /\
  (truthy (prop body "childName") = true ->
   occurs_in (js "for " ++ text (prop body "childName")) (html m)) /\
  occurs_in
    (js "We will contact you as soon as this toy becomes available.")
    (html m) /\
  renders WaitlistCreated body = true.
Proof.
  intros Hhead.
  destruct (calls_made_valid WaitlistCreated body)
    as (Hemail & Hitem & Hrenders & _).
  { intros Hnil. simpl handler in Hnil. by rewrite Hnil in Hhead. }
  destruct (waitlist_created_pieces body Hemail Hitem Hrenders)
    as (content & html2 & Hrun & _ & Hname & Hchild & Hlater & _).
  rewrite Hrun in Hhead. apply head_sends_in_turn in Hhead as ->.
  unfold outgoing; cbn [to subject html].
  assert (Hin : forall piece,
            occurs_in piece content ->
            occurs_in piece
              (renderBrandedEmail (js "Waitlist Confirmation") content false))
    by (intros piece Hp; eapply occurs_in_trans;
        [exact Hp | apply renderBrandedEmail_content]).
  split; [done|]. split; [done|].
  split; [apply renderBrandedEmail_title|].
  split; [by apply Hin|]. split; [by intros; apply Hin, Hchild|].
  split; [by apply Hin | done].
Qed.

(** X15.  The admin copy of a waitlist request: to [ADMIN_EMAIL], subject
    [New waitlist request: "<itemName>"]; its html is the plain summary,
    which starts with its heading, and lists the parent's name and address,
    the child and the item, with "N/A" for a falsy name or child. *)
Theorem waitlist_admin_summary (body : gmap string (Value number)) m1 m2 :
  snd (run (waitlist_created env resend body)) = [m1; m2] ->
  to m2 = env_value (ADMIN_EMAIL env) /\
  subject m2 =
    js "New waitlist request: `" ++ text (prop body "itemName") ++
    js "`" /\
  startsWith (html m2) (js "
          <h3>New Waitlist Entry</h3>") = true /\
  occurs_in
    (js "<p><strong>Parent:</strong> " ++
     text (or_else (prop body "parentName") (JStr (js "N/A"))) ++
     js " (")
    (html m2) /\
  occurs_in
    (js " (" ++ text (prop body "parentEmail") ++ js ")</p>")
    (html m2) /\
  occurs_in
    (js "<p><strong>Child:</strong> " ++
     text (or_else (prop body "childName") (JStr (js "N/A"))) ++
     js "</p>")
    (html m2) /\
  occurs_in
    (js "<p><strong>Item:</strong> " ++
     text (prop body "itemName") ++ js "</p>")
    (html m2) /\
  renders WaitlistCreated body = true /\
  converts (prop body "parentEmail") = true.
Proof.
  intros Hcalls.
  destruct (calls_made_valid WaitlistCreated body)
    as (Hemail & Hitem & Hrenders & _).
  { simpl handler. by rewrite Hcalls. }
  destruct (waitlist_created_pieces body Hemail Hitem Hrenders)
    as (content & html2 & Hrun & _ & _ & _ & _ & Hadmin).
  rewrite Hrun in Hcalls. apply second_call_admin in Hcalls as [-> Hpe].
  specialize (Hadmin Hpe). unfold outgoing; cbn [to subject html].
  repeat (split; [tauto|]). done.
Qed.

(** X16.  The note of a reservation has its line feeds replaced before it
    is trimmed.  So a note that starts or ends with a line feed is rendered
    starting or ending with [<br />]: line feeds at the ends are not
    trimmed away.  A note without line feeds is rendered trimmed, and one
    made of white space only leaves an empty note paragraph. *)
Theorem note_line_feeds_at_the_ends
    (body : gmap string (Value number)) note m :
  head (snd (run (reservation_created env resend body))) = Some m ->
  body !! "note"%string = Some (JStr note) ->
  note <> [] ->
  exists rendered,
    rendered = trim (replace_newlines (js "<br />") note) /\
    occurs_in
      (js "<p><strong>Your note:</strong><br />" ++ rendered ++ js "</p>")
      (html m) /\
    (forall rest, note = LF :: rest ->
       exists tail, rendered = js "<br />" ++ tail) /\
    (forall front, note = front ++ [LF] ->
       exists init, rendered = init ++ js "<br />") /\
    (~ In LF note -> rendered = trim note) /\
    (~ In LF note -> Forall (fun c => is_white_space c = true) note ->
     rendered = []).
Proof.
  intros Hhead Hnote%prop_Some Hne.
  destruct (calls_made_valid ReservationCreated body)
    as (Hemail & Hitem & Hrenders & _).
  { intros Hnil. simpl handler in Hnil. by rewrite Hnil in Hhead. }
  destruct (reservation_created_valid env resend body Hemail Hitem Hrenders)
    as (content & html2 & Hrun & _ & Hpiece & _).
  rewrite Hrun in Hhead. apply head_sends_in_turn in Hhead as ->.
  rewrite Hnote in Hpiece. rewrite text_JStr in Hpiece.
  eexists. split; [reflexivity|]. unfold outgoing; cbn [html].
  assert (Hbr_head : forall c,
            head (js "<br />") = Some c -> is_white_space c = false)
    by (intros c [= <-]; by vm_compute).
  assert (Hbr_last : forall c,
            last (js "<br />") = Some c -> is_white_space c = false)
    by (intros c [= <-]; by vm_compute).
  split; [|split; [|split; [|split]]].
  - eapply occurs_in_trans; [|apply renderBrandedEmail_content].
    apply Hpiece. by destruct note.
  - intros rest ->. cbn [replace_newlines].
    change (LF =? LF) with true. cbv beta iota. unfold trim.
    rewrite trimStart_fixed.
    + apply trimEnd_keeps; [done | exact Hbr_last].
    + intros c Hc. apply Hbr_head. by rewrite <- Hc.
  - intros front ->. rewrite replace_newlines_app. cbn [replace_newlines].
    change (LF =? LF) with true. cbv beta iota. rewrite app_nil_r.
    unfold trim.
    destruct (trimStart_keeps
                (replace_newlines (js "<br />") front) (js "<br />"))
      as (init & ->); [done | exact Hbr_head |].
    exists init. apply trimEnd_fixed. intros c.
    rewrite last_app. by destruct (last (js "<br />")) eqn:Hl; [|done];
      intros [= <-]; apply Hbr_last.
  - intros Hnone. by rewrite replace_newlines_id.
  - intros Hnone Hwhite. rewrite replace_newlines_id by done.
    by apply trim_all_white.
Qed.

End Templates.

(* ===================================================================== *)
(** * Fixed and supplied text                                             *)
(* ===================================================================== *)

Section Segments.
Implicit Types (x y : JsString) (segs : list Segment).

Lemma flatten_cons s segs :
  flatten (s :: segs) = segment_text s ++ flatten segs.
Proof. reflexivity. Qed.

Lemma flatten_merge segs : flatten (merge segs) = flatten segs.
Proof.
  induction segs as [|[a|text] segs IH]; [done| |].
  - cbn [merge]. rewrite (flatten_cons (Fixed a) segs), <- IH.
    destruct (merge segs) as [|[b|text] merged];
      rewrite ?flatten_cons; cbn [segment_text]; [done| |done].
    by rewrite app_assoc.
  - cbn [merge]. rewrite !flatten_cons. by rewrite IH.
Qed.

Lemma supplied_texts_merge segs :
  supplied_texts (merge segs) = supplied_texts segs.
Proof.
  induction segs as [|[a|text] segs IH]; [done| |].
  - cbn [merge]. by destruct (merge segs) as [|[b|text] merged].
  - cbn [merge supplied_texts]. by rewrite IH.
Qed.

Lemma clear_after_sound x n :
  forall segs y,
    (length segs <= n)%nat ->
    clear_after x segs = true ->
    occurs_in x (y ++ flatten segs) ->
    occurs_in x y \/ Exists (occurs_in x) (supplied_texts segs).
Proof.
  induction n as [|n IH]; intros segs y Hlen Hclear Hin.
  { destruct segs; [|simpl in Hlen; lia].
    left. by rewrite app_nil_r in Hin. }
  destruct segs as [|[f|text] [|[g|text'] rest]];
    cbn [clear_after] in Hclear; try discriminate.
  - left. by rewrite app_nil_r in Hin.
  - left. apply andb_true_iff in Hclear as [Hinside Htails].
    apply negb_true_iff in Hinside.
    cbn [flatten fold_right segment_text] in Hin. rewrite app_nil_r in Hin.
    by apply (occurs_in_before x f y).
  - apply andb_true_iff in Hclear as [Hkeeps Hrest].
    cbn [flatten fold_right segment_text] in Hin.
    apply (occurs_in_around x f y) in Hin as [Hy | Hin]; [by left | | done].
    apply (IH rest text') in Hin as [Htext | Hrest']; [| |simpl in Hlen; lia
      |done].
    + right. by apply Exists_cons_hd.
    + right. by apply Exists_cons_tl.
Qed.

(** A copy of [x] in a text that [x] keeps clear of lies in one of the
    supplied texts. *)
Lemma clear_of_sound x segs :
  clear_of x (merge segs) = true ->
  occurs_in x (flatten segs) ->
  Exists (occurs_in x) (supplied_texts segs).
Proof.
  rewrite <- (flatten_merge segs), <- (supplied_texts_merge segs).
  generalize (merge segs). clear segs. intros segs Hclear Hin.
  destruct segs as [|[f|text] [|[g|text'] rest]];
    cbn [clear_of] in Hclear; try discriminate.
  - apply negb_true_iff in Hclear.
    cbn [flatten fold_right segment_text] in Hin. rewrite app_nil_r in Hin.
    apply includes_occurs_in in Hin. congruence.
  - apply andb_true_iff in Hclear as [[Hinside Hheads]%andb_true_iff Hrest].
    apply negb_true_iff in Hinside.
    cbn [flatten fold_right segment_text] in Hin.
    apply (occurs_in_after x f) in Hin; [|done..].
    destruct (clear_after_sound x (length rest) rest text') as [Ht | Hr];
      [done..| |].
    + by apply Exists_cons_hd.
    + by apply Exists_cons_tl.
  - destruct (clear_after_sound x 0 [] text) as [Ht | Hr]; [done..| |].
    + by apply Exists_cons_hd.
    + by apply Exists_cons_tl.
  - destruct (clear_after_sound x (length (Fixed g :: rest))
                (Fixed g :: rest) text) as [Ht | Hr]; [done..| |].
    + by apply Exists_cons_hd.
    + by apply Exists_cons_tl.
Qed.

End Segments.

(** Reading a rendered text, a concatenation nested to the right, as its
    segments: the literals and constants of the source are fixed, the rest
    is supplied. *)
Ltac segment_of piece :=
  lazymatch piece with
  | js _ => constr:(Fixed piece)
  | BETHESDA_LOGO => constr:(Fixed piece)
  | COPYRIGHT => constr:(Fixed piece)
  | _ => constr:(Supplied piece)
  end.

Ltac segments_of text :=
  lazymatch text with
  | ?piece ++ ?rest =>
      let s := segment_of piece in
      let segs := segments_of rest in
      constr:(s :: segs)
  | ?piece => let s := segment_of piece in constr:([s])
  end.

(** A copy of the pickup block in a text made of fixed and supplied pieces
    lies in a supplied piece. *)
Ltac block_in_supplied H :=
  rewrite <- ?app_assoc in H;
  lazymatch type of H with
  | occurs_in PICKUP_INFO_HTML ?text =>
      let segs := segments_of text in
      let Hsegs := fresh "Hsegs" in
      assert (Hsegs : text = flatten segs)
        by (cbv beta iota delta [flatten fold_right segment_text];
            by rewrite app_nil_r);
      rewrite Hsegs in H; clear Hsegs;
      apply clear_of_sound in H; [|vm_compute; reflexivity];
      cbn [supplied_texts] in H
  end.

Section NoPickupBlock.
Context {number : Type} `{NumOps : JsNumber number}.
Variable env : Env.
Variable resend : list (Email number) -> Email number -> Reply.

(** The block has line feeds, a rendered note has none. *)
Lemma block_not_in_note note :
  ~ occurs_in PICKUP_INFO_HTML (trim (replace_newlines (js "<br />") note)).
Proof.
  intros Hin.
  apply (replace_newlines_no_LF (js "<br />") note);
    [by vm_compute; intuition discriminate|].
  eapply occurs_in_In; [apply trim_occurs_in|].
  eapply occurs_in_In; [exact Hin|]. by left.
Qed.

Lemma block_not_in_literal (v : Value number) lit :
  includes (js lit) PICKUP_INFO_HTML = false ->
  occurs_in PICKUP_INFO_HTML
    (text (if truthy v then v else JStr (js lit))) ->
  occurs_in PICKUP_INFO_HTML (text v).
Proof.
  intros Hlit. destruct (truthy v); [done|].
  intros Hin%includes_occurs_in. rewrite text_JStr in Hin. congruence.
Qed.

(** The first email of a valid reservation or waitlist request holds the
    pickup block only where a field brought it. *)
Lemma creation_html_block e (body : gmap string (Value number)) :
  e <> StatusUpdated ->
  truthy (prop body "parentEmail") = true ->
  truthy (prop body "itemName") = true ->
  renders e body = true ->
  exists subject1 html1 second,
    run (handler env resend e body) =
    sends_in_turn resend
      (outgoing env (prop body "parentEmail") subject1 html1) second /\
    (occurs_in PICKUP_INFO_HTML html1 ->
     occurs_in PICKUP_INFO_HTML (text (prop body "parentName")) \/
     occurs_in PICKUP_INFO_HTML (text (prop body "itemName")) \/
     occurs_in PICKUP_INFO_HTML (text (prop body "childName")) \/
     occurs_in PICKUP_INFO_HTML (text (prop body "preferredDay"))).
Proof.
  intros He Hemail Hitem Hrenders. destruct e; [| |done].
  - apply renders_reservation in Hrenders
      as (Hday & Hname & Hparent & Hchild & Hnote).
    enter_route. rewrite Hemail, Hitem. cbn [negb orb].
    converted Hday. converted Hname. converted Hparent. converted Hchild.
    converted Hnote. render.
    match goal with
    | |- context [sendEmail _ _ _ ?s (renderBrandedEmail ?t ?c ?p) []] =>
        exists s, (renderBrandedEmail t c p)
    end.
    eexists. split.
    { destruct (converts (prop body "parentEmail")) eqn:Hpe.
      - converted Hpe. render.
        match goal with
        | |- context [sendEmail _ _ (env_value _) ?s ?h] =>
            instantiate (1 := admin_copy env (prop body "parentEmail") s h)
        end.
        unfold sends_in_turn, admin_copy. rewrite Hpe.
        step_send; [|done]. cbn [app].
        destruct (truthy (env_value (ADMIN_EMAIL env))); [|done].
        by step_send.
      - unconverted Hpe.
        unfold sends_in_turn, admin_copy. rewrite Hpe.
        step_send; [|done].
        by destruct (truthy (env_value (ADMIN_EMAIL env))). }
    unfold renderBrandedEmail, or_else. intros Hblock.
    assert (Hthere := block_not_in_literal (prop body "parentName") "there").
    destruct (truthy (prop body "childName")),
      (truthy (prop body "preferredDay")),
      (truthy (prop body "note"));
      cbv beta iota in Hblock; block_in_supplied Hblock;
      repeat match type of Hblock with
      | Exists _ (_ :: _) => apply Exists_cons in Hblock as [Hblock | Hblock]
      | Exists _ [] => by apply Exists_nil in Hblock
      end;
      try (by destruct (block_not_in_note _ Hblock));
      try (left; apply Hthere; [by vm_compute | exact Hblock]);
      auto.
  - apply renders_waitlist in Hrenders as (Hname & Hparent & Hchild).
    enter_route. rewrite Hemail, Hitem. cbn [negb orb].
    converted Hname. converted Hparent. converted Hchild. render.
    match goal with
    | |- context [sendEmail _ _ _ ?s (renderBrandedEmail ?t ?c ?p) []] =>
        exists s, (renderBrandedEmail t c p)
    end.
    eexists. split.
    { destruct (converts (prop body "parentEmail")) eqn:Hpe.
      - converted Hpe. render.
        match goal with
        | |- context [sendEmail _ _ (env_value _) ?s ?h] =>
            instantiate (1 := admin_copy env (prop body "parentEmail") s h)
        end.
        unfold sends_in_turn, admin_copy. rewrite Hpe.
        step_send; [|done]. cbn [app].
        destruct (truthy (env_value (ADMIN_EMAIL env))); [|done].
        by step_send.
      - unconverted Hpe.
        unfold sends_in_turn, admin_copy. rewrite Hpe.
        step_send; [|done].
        by destruct (truthy (env_value (ADMIN_EMAIL env))). }
    unfold renderBrandedEmail, or_else. intros Hblock.
    assert (Hthere := block_not_in_literal (prop body "parentName") "there").
    destruct (truthy (prop body "childName"));
      cbv beta iota in Hblock; block_in_supplied Hblock;
      repeat match type of Hblock with
      | Exists _ (_ :: _) => apply Exists_cons in Hblock as [Hblock | Hblock]
      | Exists _ [] => by apply Exists_nil in Hblock
      end;
      try (left; apply Hthere; [by vm_compute | exact Hblock]);
      auto.
Qed.

(** X17.  The confirmations of a reservation and of a waitlist request are
    rendered without the pickup block: a copy of the block is in the html
    only if the request brings its markup along in [parentName],
    [itemName], [childName] or [preferredDay].  The note cannot bring it:
    its line feeds are replaced. *)
Theorem creation_emails_without_pickup_block
    e (body : gmap string (Value number)) m :
  e <> StatusUpdated ->
  head (snd (run (handler env resend e body))) = Some m ->
  occurs_in PICKUP_INFO_HTML (html m) ->
  occurs_in PICKUP_INFO_HTML (text (prop body "parentName")) \/
  occurs_in PICKUP_INFO_HTML (text (prop body "itemName")) \/
  occurs_in PICKUP_INFO_HTML (text (prop body "childName")) \/
  occurs_in PICKUP_INFO_HTML (text (prop body "preferredDay")).
Proof.
  intros He Hhead.
  destruct (calls_made_valid env resend e body)
    as (Hemail & Hitem & Hrenders & _).
  { intros Hnil. by rewrite Hnil in Hhead. }
  destruct (creation_html_block e body He Hemail Hitem Hrenders)
    as (subject1 & html1 & second & Hrun & Hblock).
  rewrite Hrun in Hhead. apply head_sends_in_turn in Hhead as ->.
  exact Hblock.
Qed.

End NoPickupBlock.

(* ===================================================================== *)
(** * Status updates and the fields they read; answers                    *)
(* ===================================================================== *)

Section StatusFields.
Context {number : Type} `{NumOps : JsNumber number}.
Variable env : Env.
Variable resend : list (Email number) -> Email number -> Reply.

(** X18.  Only the "Ready for Pickup" email reads [childName] and
    [preferredDay].  For any other status, two status updates that agree on
    [parentEmail], [itemName], [newStatus] and [parentName] are handled
    alike; and [parentName] does not matter either unless the status is
    "Returned". *)
Theorem status_update_ignores_unused_fields
    (body1 body2 : gmap string (Value number)) :
  body1 !! "parentEmail"%string = body2 !! "parentEmail"%string ->
  body1 !! "itemName"%string = body2 !! "itemName"%string ->
  body1 !! "newStatus"%string = body2 !! "newStatus"%string ->
  prop body1 "newStatus" <> JStr (js "Ready for Pickup") ->
  body1 !! "parentName"%string = body2 !! "parentName"%string \/
  prop body1 "newStatus" <> JStr (js "Returned") ->
  run (status_updated env resend body1) =
  run (status_updated env resend body2).
Proof.
  intros Hemail Hitem Hstatus Hready%strict_eq_str_false Hname.
  assert (Hemail' : prop body1 "parentEmail" = prop body2 "parentEmail")
    by (unfold prop; by rewrite Hemail).
  assert (Hitem' : prop body1 "itemName" = prop body2 "itemName")
    by (unfold prop; by rewrite Hitem).
  assert (Hstatus' : prop body1 "newStatus" = prop body2 "newStatus")
    by (unfold prop; by rewrite Hstatus).
  rewrite Hstatus' in Hready.
  unfold run, status_updated.
  rewrite !Hemail', !Hitem', !Hstatus', !Hready.
  destruct Hname as [Hname | Hreturned%strict_eq_str_false].
  - assert (Hname' : prop body1 "parentName" = prop body2 "parentName")
      by (unfold prop; by rewrite Hname).
    by rewrite !Hname'.
  - rewrite Hstatus' in Hreturned. by rewrite !Hreturned.
Qed.

(** X19.  No handler lets an exception escape, whatever the provider
    answers: every request ends with one of four fixed responses, 400
    "Missing required fields", 200 [{ skipped: true }], 200 [{ ok: true }]
    or 500 "Failed to send email".  Nothing of the provider's error is
    passed on. *)
Theorem handler_always_answers e (body : gmap string (Value number)) :
  exists response,
    fst (run (handler env resend e body)) = Normal response /\
    In response [MISSING_FIELDS; SKIPPED; OK; SEND_FAILED].
Proof.
  destruct (handler_shape env resend e body)
    as [(_ & ->) | (_ & [(_ & _ & ->) | (_ & [(_ & ->) |
         (_ & subject1 & html1 & subject2 & html2 & ->)])])].
  - exists MISSING_FIELDS. split; [done | by left].
  - exists SKIPPED. split; [done | by right; left].
  - exists SEND_FAILED. split; [done | by right; right; right; left].
  - destruct (sends_in_turn_response resend
                (outgoing env (prop body "parentEmail") subject1 html1)
                (match e with
                 | StatusUpdated => NoCopy
                 | _ => admin_copy env (prop body "parentEmail")
                          subject2 html2
                 end)) as [[-> _] | [-> _]].
    + exists OK. split; [done | by right; right; left].
    + exists SEND_FAILED. split; [done | by right; right; right; left].
Qed.

End StatusFields.

(* ===================================================================== *)
(** * The further properties at concrete requests                         *)
(* ===================================================================== *)

(** The first call of a concrete run. *)
Ltac with_first_call calls continue :=
  let computed := eval vm_compute in calls in
  lazymatch computed with
  | ?m :: _ => continue m
  end.

Lemma calls_from_configured_sender_witness :
  exists m,
    In m (snd (run (handler SENDER_SET accepting ReservationCreated
                      RESERVATION))) /\
    from m = JStr (js "Toy Library <toys@bethesda.example>").
Proof.
  with_first_call
    (snd (run (handler SENDER_SET accepting ReservationCreated RESERVATION)))
    ltac:(fun m => exists m;
      assert (Hin : In m (snd (run (handler SENDER_SET accepting
                                      ReservationCreated RESERVATION))))
        by (vm_compute; left; reflexivity);
      split; [exact Hin|];
      apply (proj1 (calls_from_configured_sender SENDER_SET accepting
                      ReservationCreated RESERVATION m Hin));
      [reflexivity | vm_compute; discriminate]).
Defined.

Lemma calls_go_to_parent_or_admin_witness :
  exists m,
    head (snd (run (handler ADMIN_SET accepting WaitlistCreated
                      WAITLIST_PLAIN))) = Some m /\
    to m = prop WAITLIST_PLAIN "parentEmail".
Proof.
  with_first_call
    (snd (run (handler ADMIN_SET accepting WaitlistCreated WAITLIST_PLAIN)))
    ltac:(fun m => exists m;
      assert (Hhead : head (snd (run (handler ADMIN_SET accepting
                                        WaitlistCreated WAITLIST_PLAIN))) =
                      Some m)
        by (vm_compute; reflexivity);
      split; [exact Hhead|];
      exact (proj2 (calls_go_to_parent_or_admin ADMIN_SET accepting
                      WaitlistCreated WAITLIST_PLAIN) m Hhead)).
Defined.

Lemma at_most_two_calls_witness :
  (length (snd (run (handler ADMIN_SET accepting StatusUpdated STATUS_READY)))
   <= 1)%nat.
Proof.
  apply (proj1 (proj2 (at_most_two_calls ADMIN_SET accepting StatusUpdated
                         STATUS_READY))).
  left. reflexivity.
Defined.

(** The provider refuses the parent's email: the admin copy is not tried. *)
Lemma no_call_after_failure_witness :
  exists m,
    snd (run (handler ADMIN_SET refusing ReservationCreated RESERVATION)) =
      [] ++ m :: [] /\
    delivered (refusing [] m) = false /\
    @nil (Email Z) = [].
Proof.
  with_first_call
    (snd (run (handler ADMIN_SET refusing ReservationCreated RESERVATION)))
    ltac:(fun m => exists m;
      assert (Hcalls :
        snd (run (handler ADMIN_SET refusing ReservationCreated RESERVATION))
        = [] ++ m :: [])
        by (vm_compute; reflexivity);
      assert (Hfailed : delivered (refusing [] m) = false) by reflexivity;
      split; [exact Hcalls|]; split; [exact Hfailed|];
      exact (no_call_after_failure ADMIN_SET refusing ReservationCreated
               RESERVATION [] m [] Hcalls Hfailed)).
Defined.

Lemma rejected_iff_required_falsy_witness :
  Exists (fun key => truthy (prop ZERO_ITEM key) = false)
    (required_fields ReservationCreated) /\
  fst (run (handler ADMIN_SET accepting ReservationCreated ZERO_ITEM)) =
    Normal MISSING_FIELDS.
Proof.
  assert (Hfalsy : Exists (fun key => truthy (prop ZERO_ITEM key) = false)
                     (required_fields ReservationCreated))
    by (apply Exists_cons_tl, Exists_cons_hd; vm_compute; reflexivity).
  split; [exact Hfalsy|].
  exact (proj2 (rejected_iff_required_falsy ADMIN_SET accepting
                  ReservationCreated ZERO_ITEM) Hfalsy).
Defined.

(** The admin copy of a request whose parent address does not convert is
    due and is not handed over: one call, delivered, and 500. *)
Lemma failed_iff_attempt_failed_witness :
  ~ attempt_failed accepting
      (snd (run (handler ADMIN_SET accepting ReservationCreated
                   RESERVATION_OBJECT_EMAIL))) /\
  length (snd (run (handler ADMIN_SET accepting ReservationCreated
                      RESERVATION_OBJECT_EMAIL))) = 1%nat /\
  due ADMIN_SET ReservationCreated RESERVATION_OBJECT_EMAIL = 2%nat /\
  converts (prop RESERVATION_OBJECT_EMAIL "parentEmail") = false /\
  fst (run (handler ADMIN_SET accepting ReservationCreated
              RESERVATION_OBJECT_EMAIL)) = Normal SEND_FAILED.
Proof.
  assert (Hnone :
    ~ attempt_failed accepting
        (snd (run (handler ADMIN_SET accepting ReservationCreated
                     RESERVATION_OBJECT_EMAIL)))).
  { intros (before & m & after & _ & Hfailed). discriminate Hfailed. }
  split; [exact Hnone|]. split; [vm_compute; reflexivity|].
  split; [vm_compute; reflexivity|]. split; [vm_compute; reflexivity|].
  apply (proj2 (failed_iff_attempt_failed ADMIN_SET accepting
                  ReservationCreated RESERVATION_OBJECT_EMAIL)).
  right. split; [vm_compute; lia|].
  apply Exists_cons_hd. vm_compute. reflexivity.
Defined.

Lemma skipped_iff_on_loan_witness :
  fst (run (handler ADMIN_SET accepting StatusUpdated LOAN_STARTED)) =
    Normal SKIPPED /\
  prop LOAN_STARTED "newStatus" = JStr (js "On Loan").
Proof.
  assert (Hskipped :
    fst (run (handler ADMIN_SET accepting StatusUpdated LOAN_STARTED)) =
    Normal SKIPPED) by (vm_compute; reflexivity).
  split; [exact Hskipped|].
  exact (proj2 (proj2 (proj1 (skipped_iff_on_loan ADMIN_SET accepting
                                StatusUpdated LOAN_STARTED) Hskipped))).
Defined.

Lemma ok_iff_all_delivered_witness :
  fst (run (handler ADMIN_SET accepting ReservationCreated RESERVATION)) =
    Normal OK /\
  ~ attempt_failed accepting
      (snd (run (handler ADMIN_SET accepting ReservationCreated
                   RESERVATION))) /\
  length (snd (run (handler ADMIN_SET accepting ReservationCreated
                      RESERVATION))) = 2%nat.
Proof.
  assert (Hok :
    fst (run (handler ADMIN_SET accepting ReservationCreated RESERVATION)) =
    Normal OK) by (vm_compute; reflexivity).
  split; [exact Hok|].
  exact (proj2 (proj1 (ok_iff_all_delivered ADMIN_SET accepting
                         ReservationCreated RESERVATION) Hok)).
Defined.

(** A null [childName] and none at all. *)
Lemma falsy_values_are_alike_witness :
  WAITLIST_NULL_CHILD !! "childName"%string = Some JNull /\
  WAITLIST_PLAIN !! "childName"%string = None /\
  run (handler ADMIN_SET accepting WaitlistCreated WAITLIST_NULL_CHILD) =
  run (handler ADMIN_SET accepting WaitlistCreated WAITLIST_PLAIN).
Proof.
  split; [vm_compute; reflexivity|]. split; [vm_compute; reflexivity|].
  apply (falsy_values_are_alike ADMIN_SET accepting WaitlistCreated
           WAITLIST_NULL_CHILD WAITLIST_PLAIN "childName"%string).
  - intros other Hne. unfold WAITLIST_NULL_CHILD.
    apply lookup_insert_ne. congruence.
  - vm_compute; reflexivity.
  - vm_compute; reflexivity.
Defined.

Lemma greeting_names_parent_witness :
  exists m,
    head (snd (run (handler ADMIN_SET accepting WaitlistCreated
                      WAITLIST_PLAIN))) = Some m /\
    occurs_in (js "<p>Hi there,</p>") (html m).
Proof.
  with_first_call
    (snd (run (handler ADMIN_SET accepting WaitlistCreated WAITLIST_PLAIN)))
    ltac:(fun m => exists m;
      assert (Hhead : head (snd (run (handler ADMIN_SET accepting
                                        WaitlistCreated WAITLIST_PLAIN))) =
                      Some m)
        by (vm_compute; reflexivity);
      assert (Hhtml : html m <> []) by (vm_compute; discriminate);
      split; [exact Hhead|];
      apply (proj2 (proj2 (greeting_names_parent ADMIN_SET accepting
                             WaitlistCreated WAITLIST_PLAIN m Hhead Hhtml)));
      vm_compute; reflexivity).
Defined.

Lemma reservation_confirmation_text_witness :
  exists m,
    head (snd (run (reservation_created ADMIN_SET accepting RESERVATION))) =
      Some m /\
    prop RESERVATION "preferredDay" = JStr (js "Monday") /\
    occurs_in
      (js "<p>" ++
       (js "Preferred pick-up day: <strong>" ++
        text (prop RESERVATION "preferredDay") ++ js "</strong>.") ++
       js "</p>")
      (html m).
Proof.
  with_first_call
    (snd (run (reservation_created ADMIN_SET accepting RESERVATION)))
    ltac:(fun m => exists m;
      assert (Hhead : head (snd (run (reservation_created ADMIN_SET accepting
                                        RESERVATION))) = Some m)
        by (vm_compute; reflexivity);
      split; [exact Hhead|]; split; [vm_compute; reflexivity|];
      apply (reservation_confirmation_text ADMIN_SET accepting RESERVATION m
               Hhead);
      vm_compute; reflexivity).
Defined.

Lemma reservation_admin_summary_witness :
  exists m1 m2,
    snd (run (reservation_created ADMIN_SET accepting NO_NAME_RESERVATION)) =
      [m1; m2] /\
    prop NO_NAME_RESERVATION "childName" = JUndefined /\
    occurs_in
      (js "<p><strong>Child:</strong> " ++
       text (or_else (prop NO_NAME_RESERVATION "childName")
                   (JStr (js "N/A"))) ++
       js "</p>")
      (html m2).
Proof.
  let calls :=
    eval vm_compute in
      (snd (run (reservation_created ADMIN_SET accepting
                   NO_NAME_RESERVATION))) in
  lazymatch calls with
  | [?m1; ?m2] =>
      exists m1, m2;
      assert (Hcalls :
        snd (run (reservation_created ADMIN_SET accepting
                    NO_NAME_RESERVATION)) = [m1; m2])
        by (vm_compute; reflexivity);
      split; [exact Hcalls|]; split; [vm_compute; reflexivity|];
      apply (reservation_admin_summary ADMIN_SET accepting
               NO_NAME_RESERVATION m1 m2 Hcalls)
  end.
Defined.

Lemma waitlist_confirmation_text_witness :
  exists m,
    head (snd (run (waitlist_created ADMIN_SET accepting WAITLIST_PLAIN))) =
      Some m /\
    subject m =
      js "Waitlist request for `" ++
      text (prop WAITLIST_PLAIN "itemName") ++ js "` received".
Proof.
  with_first_call
    (snd (run (waitlist_created ADMIN_SET accepting WAITLIST_PLAIN)))
    ltac:(fun m => exists m;
      assert (Hhead : head (snd (run (waitlist_created ADMIN_SET accepting
                                        WAITLIST_PLAIN))) = Some m)
        by (vm_compute; reflexivity);
      split; [exact Hhead|];
      apply (waitlist_confirmation_text ADMIN_SET accepting WAITLIST_PLAIN m
               Hhead)).
Defined.

Lemma waitlist_admin_summary_witness :
  exists m1 m2,
    snd (run (waitlist_created ADMIN_SET accepting WAITLIST_PLAIN)) =
      [m1; m2] /\
    to m2 = JStr (js "desk@bethesda.example") /\
    startsWith (html m2) (js "
          <h3>New Waitlist Entry</h3>") = true.
Proof.
  let calls :=
    eval vm_compute in
      (snd (run (waitlist_created ADMIN_SET accepting WAITLIST_PLAIN))) in
  lazymatch calls with
  | [?m1; ?m2] =>
      exists m1, m2;
      assert (Hcalls :
        snd (run (waitlist_created ADMIN_SET accepting WAITLIST_PLAIN)) =
        [m1; m2])
        by (vm_compute; reflexivity);
      split; [exact Hcalls|];
      split;
        apply (waitlist_admin_summary ADMIN_SET accepting WAITLIST_PLAIN
                 m1 m2 Hcalls)
  end.
Defined.

(** A note between two line feeds keeps both as line breaks. *)
Lemma note_line_feeds_at_the_ends_witness :
  exists m,
    head (snd (run (reservation_created ADMIN_SET accepting
                      RESERVATION_FRAMED_NOTE))) = Some m /\
    occurs_in
      (js "<p><strong>Your note:</strong><br />" ++
       js "<br />ring twice<br />" ++ js "</p>")
      (html m).
Proof.
  with_first_call
    (snd (run (reservation_created ADMIN_SET accepting
                 RESERVATION_FRAMED_NOTE)))
    ltac:(fun m => exists m;
      assert (Hhead : head (snd (run (reservation_created ADMIN_SET accepting
                                        RESERVATION_FRAMED_NOTE))) = Some m)
        by (vm_compute; reflexivity);
      split; [exact Hhead|];
      destruct (note_line_feeds_at_the_ends ADMIN_SET accepting
                  RESERVATION_FRAMED_NOTE (js "
ring twice
") m Hhead)
        as (rendered & Hrendered & Hpiece & _);
      [vm_compute; reflexivity | vm_compute; discriminate |];
      rewrite Hrendered in Hpiece; exact Hpiece).
Defined.

(** An item name that brings the pickup block into a waitlist email. *)
Lemma creation_emails_without_pickup_block_witness :
  exists m,
    head (snd (run (handler ADMIN_SET accepting WaitlistCreated
                      WAITLIST_INJECTED))) = Some m /\
    occurs_in PICKUP_INFO_HTML (html m) /\
    occurs_in PICKUP_INFO_HTML (text (prop WAITLIST_INJECTED "itemName")).
Proof.
  with_first_call
    (snd (run (handler ADMIN_SET accepting WaitlistCreated WAITLIST_INJECTED)))
    ltac:(fun m => exists m;
      assert (Hhead : head (snd (run (handler ADMIN_SET accepting
                                        WaitlistCreated WAITLIST_INJECTED))) =
                      Some m)
        by (vm_compute; reflexivity);
      assert (Hblock : occurs_in PICKUP_INFO_HTML (html m))
        by (apply includes_occurs_in; vm_compute; reflexivity);
      split; [exact Hhead|]; split; [exact Hblock|];
      destruct (creation_emails_without_pickup_block ADMIN_SET accepting
                  WaitlistCreated WAITLIST_INJECTED m
                  ltac:(discriminate) Hhead Hblock)
        as [Hin | [Hin | [Hin | Hin]]];
      [ | exact Hin | | ];
      apply includes_occurs_in in Hin; vm_compute in Hin; discriminate).
Defined.

(** A returned item: the child and the preferred day make no difference. *)
Lemma status_update_ignores_unused_fields_witness :
  STATUS_RETURNED !! "childName"%string <>
    STATUS_RETURNED_EXTRAS !! "childName"%string /\
  run (status_updated ADMIN_SET accepting STATUS_RETURNED) =
  run (status_updated ADMIN_SET accepting STATUS_RETURNED_EXTRAS).
Proof.
  split; [vm_compute; discriminate|].
  apply (status_update_ignores_unused_fields ADMIN_SET accepting
           STATUS_RETURNED STATUS_RETURNED_EXTRAS).
  - vm_compute; reflexivity.
  - vm_compute; reflexivity.
  - vm_compute; reflexivity.
  - vm_compute; discriminate.
  - left. vm_compute; reflexivity.
Defined.

